(** * veh_num_gen: the vehicle number generator bot (bot.py)

    A shallow embedding of the generation and conversion functions, of the
    per-user conversation state and of the handlers that deliver and clean up
    the files, followed by the properties proved about them.

    Text is modelled over the ASCII repertoire: a Python [str] is a [string]
    of characters of code below 128, on which [str.isalpha], [str.isdigit],
    [str.isspace], [str.upper], [str.strip] and [str.split] are the functions
    defined below.  Files hold such text. *)

From Stdlib Require Import Ascii NArith ZArith Lia.
From stdpp Require Import base gmap strings list.

(** ** Characters *)

Module Char.

Definition code (c : ascii) : N := N_of_ascii c.

Definition between (lo hi : N) (c : ascii) : bool :=
  (lo <=? code c)%N && (code c <=? hi)%N.

Definition is_upper : ascii -> bool := between 65 90.
Definition is_lower : ascii -> bool := between 97 122.

(** [c.isalpha()] *)
Definition isalpha (c : ascii) : bool := is_upper c || is_lower c.

(** [c.isdigit()] *)
Definition isdigit : ascii -> bool := between 48 57.

(** [c.isspace()]: tab, line feed, vertical tab, form feed, carriage return,
    the four separators 28 to 31 and the space. *)
Definition isspace (c : ascii) : bool := between 9 13 c || between 28 32 c.

(** [c.upper()] *)
Definition upper (c : ascii) : ascii :=
  if is_lower c then ascii_of_N (code c - 32) else c.

Definition eqb (a b : ascii) : bool := Ascii.eqb a b.

End Char.

(** ** Strings *)

Module Str.

Fixpoint all (p : ascii -> bool) (s : string) : bool :=
  match s with
  | "" => true
  | String c s' => p c && all p s'
  end.

Definition is_empty (s : string) : bool :=
  match s with "" => true | _ => false end.

(** [len(s)] *)
Definition len (s : string) : nat := String.length s.

(** [s.isalpha()]: every character is a letter and there is at least one. *)
Definition isalpha (s : string) : bool := negb (is_empty s) && all Char.isalpha s.

(** [s.isdigit()] on ASCII text: the digits 0 to 9 only.  Outside ASCII
    Python takes further characters for digits, which [int] then refuses. *)
Definition isdigit (s : string) : bool := negb (is_empty s) && all Char.isdigit s.

(** [s.upper()] on ASCII text, where it keeps the length of the text. *)
Fixpoint upper (s : string) : string :=
  match s with
  | "" => ""
  | String c s' => String (Char.upper c) (upper s')
  end.

(** [s.lstrip()] *)
Fixpoint lstrip (s : string) : string :=
  match s with
  | "" => ""
  | String c s' => if Char.isspace c then lstrip s' else s
  end.

(** [s.rstrip()] *)
Fixpoint rstrip (s : string) : string :=
  match s with
  | "" => ""
  | String c s' =>
      match rstrip s' with
      | "" => if Char.isspace c then "" else String c ""
      | r => String c r
      end
  end.

(** [s.strip()] *)
Definition strip (s : string) : string := rstrip (lstrip s).

(** [s.startswith(p)] *)
Fixpoint startswith (p s : string) : bool :=
  match p, s with
  | "", _ => true
  | String a p', String b s' => Char.eqb a b && startswith p' s'
  | String _ _, "" => false
  end.

(** [sep in s] *)
Fixpoint contains (sep s : string) : bool :=
  startswith sep s ||
  match s with
  | "" => false
  | String _ s' => contains sep s'
  end.

(** [s.split(sep, maxsplit)] for a non-empty [sep], scanning left to right.
    [skip] counts the characters of a separator just matched that are still
    to be passed over; the head of the result is the segment being read. *)
Fixpoint split_go (sep : string) (maxsplit skip : nat) (s : string) : list string :=
  match s with
  | "" => [""]
  | String c s' =>
      match skip with
      | S j => split_go sep maxsplit j s'
      | O =>
          match maxsplit with
          | O => [s]
          | S k =>
              if startswith sep s
              then "" :: split_go sep k (String.length sep - 1) s'
              else match split_go sep maxsplit 0 s' with
                   | seg :: segs => String c seg :: segs
                   | [] => [String c ""]
                   end
          end
      end
  end.

Definition split_max (sep : string) (maxsplit : nat) (s : string) : list string :=
  split_go sep maxsplit 0 s.

(** [s.split(sep)]: no more than [len(s)] separators fit in [s]. *)
Definition split (sep : string) (s : string) : list string :=
  split_max sep (String.length s) s.

(** [s.split()]: the maximal runs of characters that are not whitespace. *)
Fixpoint split_ws_go (cur : option string) (s : string) : list string :=
  match s with
  | "" => match cur with Some w => [String.rev w] | None => [] end
  | String c s' =>
      if Char.isspace c
      then match cur with
           | Some w => String.rev w :: split_ws_go None s'
           | None => split_ws_go None s'
           end
      else split_ws_go (Some (String c (default "" cur))) s'
  end.

Definition split_ws (s : string) : list string := split_ws_go None s.

(** [s.lower()] *)
Fixpoint lower (s : string) : string :=
  match s with
  | "" => ""
  | String c s' =>
      String (if Char.is_upper c then ascii_of_N (Char.code c + 32) else c) (lower s')
  end.

(** [s.endswith(suffix)] *)
Fixpoint endswith (suffix s : string) : bool :=
  String.eqb s suffix ||
  match s with
  | "" => false
  | String _ s' => endswith suffix s'
  end.

(** [s.replace(old, new)] for a non-empty [old]. *)
Fixpoint replace_go (old new : string) (skip : nat) (s : string) : string :=
  match s with
  | "" => ""
  | String c s' =>
      match skip with
      | S j => replace_go old new j s'
      | O =>
          if startswith old s
          then new +:+ replace_go old new (String.length old - 1) s'
          else String c (replace_go old new 0 s')
      end
  end.

Definition replace (old new s : string) : string := replace_go old new 0 s.

(** [sep.join(l)] *)
Fixpoint join (sep : string) (l : list string) : string :=
  match l with
  | [] => ""
  | [x] => x
  | x :: l' => x +:+ sep +:+ join sep l'
  end.

(** [c in s] for one character. *)
Definition has (c : ascii) (s : string) : bool :=
  negb (all (fun d => negb (Char.eqb d c)) s).

(** [repr(s)]: the text between single quotes, or between double quotes
    when it holds a single quote and no double quote; the backslash and the
    quote in use are escaped, tab, line feed and carriage return are written
    with their letter, and the other characters below 32 and the character
    127 with their code on two hexadecimal digits. *)
Definition double_quote : ascii := "034".

Definition hex_digit (n : N) : ascii :=
  if (n <? 10)%N then ascii_of_N (48 + n) else ascii_of_N (87 + n).

Definition repr_char (quote c : ascii) : string :=
  if Char.eqb c quote || Char.eqb c "\" then String "\" (String c "")
  else if Char.eqb c "009" then "\t"
  else if Char.eqb c "010" then "\n"
  else if Char.eqb c "013" then "\r"
  else if (Char.code c <? 32)%N || Char.eqb c "127"
  then String "\" (String "x"
         (String (hex_digit (Char.code c / 16))
            (String (hex_digit (Char.code c mod 16)) "")))
  else String c "".

Fixpoint repr_go (quote : ascii) (s : string) : string :=
  match s with
  | "" => ""
  | String c s' => repr_char quote c +:+ repr_go quote s'
  end.

Definition repr (s : string) : string :=
  let quote :=
    if has "'" s && negb (has double_quote s) then double_quote else "'"%char in
  String quote (repr_go quote s +:+ String quote "").

End Str.

(** ** Numbers *)

Module Num.

Definition digit_value (c : ascii) : N := (Char.code c - 48)%N.

(** [int(s)] on a string of the decimal digits 0 to 9, the only strings of
    ASCII text it is applied to, every call following a successful
    [isdigit] test; on these [int] does not raise. *)
Fixpoint int_go (acc : N) (s : string) : N :=
  match s with
  | "" => acc
  | String c s' => int_go (10 * acc + digit_value c)%N s'
  end.

Definition int (s : string) : N := int_go 0 s.

Definition digit_char (d : N) : ascii := ascii_of_N (48 + d).

(** [str(n)]: the decimal digits of [n], most significant first.  A number
    has no more decimal digits than binary ones, which bounds the loop. *)
Fixpoint decimal_go (fuel : nat) (n : N) (acc : string) : string :=
  match fuel with
  | O => acc
  | S fuel' =>
      let acc' := String (digit_char (n mod 10)) acc in
      if (n / 10 =? 0)%N then acc' else decimal_go fuel' (n / 10)%N acc'
  end.

Definition str (n : N) : string := decimal_go (S (N.size_nat n)) n "".

Fixpoint zeros (k : nat) : string :=
  match k with
  | O => ""
  | S k' => String "0" (zeros k')
  end.

(** [f"{n:04d}"]: zero-padded on the left to a width of at least 4. *)
Definition format_04d (n : N) : string :=
  let s := str n in zeros (4 - Str.len s) +:+ s.

(** [range(a, b)] *)
Definition range (a b : N) : list N :=
  N.of_nat <$> seq (N.to_nat a) (N.to_nat b - N.to_nat a).

End Num.

(** ** Files

    The working directory is a finite map from file names to contents. *)

Module File.

Definition LF : string := String "010" "".
Definition CRLF : string := String "013" (String "010" "").

(** [for x in l: f.write(x + '\n')] on a file opened with mode ['w']. *)
Definition write_lines (l : list string) : string :=
  fold_left (fun content x => content +:+ x +:+ LF) l "".

(** Reading in text mode translates ['\r\n'] and ['\r'] to ['\n']. *)
Fixpoint universal_newlines (s : string) : string :=
  match s with
  | "" => ""
  | String c s' =>
      if Char.eqb c "013"
      then match s' with
           | String d s'' =>
               if Char.eqb d "010"
               then String "010" (universal_newlines s'')
               else String "010" (universal_newlines s')
           | "" => String "010" ""
           end
      else String c (universal_newlines s')
  end.

(** The lines of a text, each with its terminator when it has one. *)
Fixpoint keepends (s : string) : list string :=
  match s with
  | "" => []
  | String c s' =>
      if Char.eqb c "010"
      then String c "" :: keepends s'
      else match keepends s' with
           | l :: ls => String c l :: ls
           | [] => [String c ""]
           end
  end.

(** [f.readlines()] *)
Definition readlines (content : string) : list string :=
  keepends (universal_newlines content).

(** One field as [csv.writer] puts it out under the default dialect: quoted
    when it holds the delimiter, the quote character or a character of the
    line terminator, with each quote character doubled. *)
Definition quotechar : ascii := "034".

Definition needs_quote (c : ascii) : bool :=
  Char.eqb c "," || Char.eqb c quotechar || Char.eqb c "013" || Char.eqb c "010".

Fixpoint double_quotes (s : string) : string :=
  match s with
  | "" => ""
  | String c s' =>
      if Char.eqb c quotechar
      then String c (String c (double_quotes s'))
      else String c (double_quotes s')
  end.

Definition csv_field (s : string) : string :=
  if negb (Str.all (fun c => negb (needs_quote c)) s)
  then String quotechar (double_quotes s) +:+ String quotechar ""
  else s.

(** [writer.writerow(fields)] for at least two fields, with [newline=''] on
    the file: the terminator is ['\r\n']. *)
Definition writerow (fields : list string) : string :=
  Str.join "," (map csv_field fields) +:+ CRLF.

(** [os.remove(path)]: [None] when it raises because the file is missing. *)
Definition remove (path : string) (fs : gmap string string) : option (gmap string string) :=
  match fs !! path with
  | Some _ => Some (delete path fs)
  | None => None
  end.

(** [os.path.exists(path)] *)
Definition exists_ (path : string) (fs : gmap string string) : bool :=
  bool_decide (is_Some (fs !! path)).

(** [os.path.getsize(path)] of a file that exists. *)
Definition getsize (content : string) : N := N.of_nat (String.length content).

End File.

(** ** Generation (lines 32 to 106) *)

Definition msg_first : string := "First part must be exactly 2 letters".
Definition msg_second : string := "Second part must be exactly 2 digits".
Definition msg_third : string := "Third part (series) must be exactly 2 letters".
Definition msg_start : string := "Start digits must be exactly 4 digits".
Definition msg_end : string := "End digits must be exactly 4 digits".
Definition msg_range : string :=
  "Start digits must be less than or equal to end digits".
Definition msg_no_series : string := "No series provided".
Definition msg_invalid_series (series : string) : string :=
  "Invalid series: " +:+ series +:+ ". Each series must be exactly 2 letters".

(** [len(s) != n or not s.isalpha()] *)
Definition not_letters (n : nat) (s : string) : bool :=
  negb (Str.len s =? n) || negb (Str.isalpha s).

(** [len(s) != n or not s.isdigit()] *)
Definition not_digits (n : nat) (s : string) : bool :=
  negb (Str.len s =? n) || negb (Str.isdigit s).

(** The inner loop: one identifier is appended for each number of the range. *)
Definition append_numbers (stem : string) (start_num end_num : N)
    (numbers : list string) : list string :=
  fold_left (fun numbers num => numbers ++ [stem +:+ Num.format_04d num])
            (Num.range start_num (end_num + 1)) numbers.

(** What [generate_vehicle_numbers] holds in [numbers] when it saves. *)
Definition vehicle_numbers
    (first_letters second_numbers third_letters start_digits end_digits : string)
    : list string :=
  append_numbers (Str.upper first_letters +:+ second_numbers +:+ Str.upper third_letters)
                 (Num.int start_digits) (Num.int end_digits) [].

(** The function returns the pair [(filename, error)], one of them [None]. *)
Definition generate_vehicle_numbers
    (first_letters second_numbers third_letters start_digits end_digits : string)
    (fs : gmap string string)
    : (option string * option string) * gmap string string :=
  if not_letters 2 first_letters then ((None, Some msg_first), fs)
  else if not_digits 2 second_numbers then ((None, Some msg_second), fs)
  else if not_letters 2 third_letters then ((None, Some msg_third), fs)
  else if not_digits 4 start_digits then ((None, Some msg_start), fs)
  else if not_digits 4 end_digits then ((None, Some msg_end), fs)
  else
    let start_num := Num.int start_digits in
    let end_num := Num.int end_digits in
    if (end_num <? start_num)%N then ((None, Some msg_range), fs)
    else
      let numbers :=
        vehicle_numbers first_letters second_numbers third_letters
                        start_digits end_digits in
      let filename :=
        "vehicle_numbers_" +:+ Str.upper first_letters +:+ second_numbers
          +:+ Str.upper third_letters +:+ ".txt" in
      ((Some filename, None), <[filename := File.write_lines numbers]> fs).

(** The loop over the series: it stops at the first invalid series with the
    message, otherwise it ends with all the identifiers. *)
Fixpoint batch_loop (stem : string) (start_num end_num : N)
    (series_list : list string) (all_numbers : list string)
    : string + list string :=
  match series_list with
  | [] => inr all_numbers
  | series :: rest =>
      let series := Str.upper (Str.strip series) in
      if not_letters 2 series then inl (msg_invalid_series series)
      else batch_loop stem start_num end_num rest
             (append_numbers (stem +:+ series) start_num end_num all_numbers)
  end.

Definition generate_batch_vehicle_numbers
    (first_letters second_numbers : string) (series_list : list string)
    (start_digits end_digits : string) (fs : gmap string string)
    : (option string * option string) * gmap string string :=
  if not_letters 2 first_letters then ((None, Some msg_first), fs)
  else if not_digits 2 second_numbers then ((None, Some msg_second), fs)
  else if not_digits 4 start_digits then ((None, Some msg_start), fs)
  else if not_digits 4 end_digits then ((None, Some msg_end), fs)
  else
    match series_list with
    | [] => ((None, Some msg_no_series), fs)
    | _ :: _ =>
        let start_num := Num.int start_digits in
        let end_num := Num.int end_digits in
        if (end_num <? start_num)%N then ((None, Some msg_range), fs)
        else
          match batch_loop (Str.upper first_letters +:+ second_numbers)
                           start_num end_num series_list [] with
          | inl error => ((None, Some error), fs)
          | inr all_numbers =>
              let filename :=
                "vehicle_numbers_batch_" +:+ Str.upper first_letters
                  +:+ second_numbers +:+ ".txt" in
              ((Some filename, None),
               <[filename := File.write_lines all_numbers]> fs)
          end
    end.

(** ** Conversion (lines 108 to 148) *)

Definition msg_empty : string := "The TXT file is empty".
Definition msg_no_valid : string :=
  "No valid data found. Expected format: VEHICLE_NUMBER - PHONE_NUMBER".
(** [str(e)] of the [FileNotFoundError] that [open] raises for a name
    under which there is no file: the name is given as [repr] writes it. *)
Definition msg_not_found (path : string) : string :=
  "[Errno 2] No such file or directory: " +:+ Str.repr path.

Definition separator : string := " - ".
Definition header : list string := ["Number"; "Vehicle Number"].

(** The body of the loop for one line: the row it writes, if any, as
    [(phone_number, vehicle_number)]. *)
Definition line_record (line : string) : option (string * string) :=
  let line := Str.strip line in
  if Str.is_empty line then None
  else if Str.contains separator line then
    let parts := Str.split_max separator 2 line in
    if 2 <=? length parts then
      let vehicle_number := Str.strip (nth 0 parts "") in
      let phone_number := Str.strip (nth 1 parts "") in
      if negb (Str.is_empty vehicle_number) && negb (Str.is_empty phone_number)
      then Some (phone_number, vehicle_number)
      else None
    else None
  else None.

(** The loop over the lines, on the text written so far and the counter. *)
Fixpoint convert_loop (lines : list string) (csv_file : string)
    (processed_count : nat) : string * nat :=
  match lines with
  | [] => (csv_file, processed_count)
  | line :: rest =>
      match line_record line with
      | Some (phone_number, vehicle_number) =>
          convert_loop rest
            (csv_file +:+ File.writerow [phone_number; vehicle_number])
            (processed_count + 1)
      | None => convert_loop rest csv_file processed_count
      end
  end.

(** The function returns the pair [(success, error)].  The output file is
    opened and the header written before any line is looked at; leaving the
    [with] block, by [return] too, closes the file with what was written. *)
Definition convert_txt_to_csv (txt_file_path csv_file_path : string)
    (fs : gmap string string)
    : (bool * option string) * gmap string string :=
  match fs !! txt_file_path with
  | None => ((false, Some (msg_not_found txt_file_path)), fs)
  | Some content =>
      let lines := File.readlines content in
      match lines with
      | [] => ((false, Some msg_empty), fs)
      | _ :: _ =>
          let '(csv_file, processed_count) :=
            convert_loop lines (File.writerow header) 0 in
          let fs' := <[csv_file_path := csv_file]> fs in
          if processed_count =? 0
          then ((false, Some msg_no_valid), fs')
          else ((true, None), fs')
      end
  end.

(** The rows written for a list of lines, in the order of the calls. *)
Definition convert_rows (lines : list string) : list (string * string) :=
  omap line_record lines.

(** ** The series list of the batch conversation (lines 523 to 533) *)

Definition series_tokens (text : string) : list string :=
  let text := Str.upper text in
  if Str.contains "," text
  then map Str.strip (Str.split "," text)
  else Str.split_ws text.

Definition valid_series (text : string) : list string :=
  fold_left
    (fun valid_series series =>
       let series := Str.strip series in
       if (Str.len series =? 2) && Str.isalpha series
       then valid_series ++ [series]
       else valid_series)
    (series_tokens text) [].

(** ** The conversation state, the transport and the effects

    [context.user_data] is a dictionary from keys to values of a few kinds.
    Each call of the chat transport returns, raises [TimedOut] or
    [NetworkError], or raises something else: the outcomes of the calls to
    come are the [net] component of the world, and a call with no outcome left
    returns.  The [trace] lists the calls, the pauses and the deletions in the
    order they happen. *)

Inductive value :=
| VStr (s : string)
| VList (l : list string)
| VInt (n : Z)
| VMegabytes (bytes : N).   (* the float [bytes / (1024 * 1024)] *)

#[global] Instance value_eq_dec : EqDecision value.
Proof. solve_decision. Defined.

Inductive outcome := Delivered | Transient | Broken.

Inductive exn :=
| NetError      (* [TimedOut] or [NetworkError] *)
| OtherError.   (* any other [Exception] *)

(** The texts sent, by the place that sends them. *)
Inductive notice :=
| Welcome (mode : string)
| OperationCancelled
| GenerationCancelled
| InvalidInput (step : string)
| InvalidRange
| StepComplete (step : string)
| Summary (total : N)
| Generating
| ErrorText (error : string)
| TooLarge (count : nat)
| Complete (count : nat)
| RenamePrompt
| ConversionCancelled
| FileNotFound
| InvalidFilename
| SendingDefault
| NoFile
| InvalidType
| Downloading
| FileTooLarge
| Converting
| ConversionFailed (error : string)
| ConversionComplete (line_count : Z)
| ProcessingError
| CsvTooLarge
| GenericError
| ConversionSuccessful (line_count : option value).

Inductive call :=
| ReplyText (text : notice)
| EditMessageText (text : notice)
| ReplyDocument (filename content : string)
| Answer
| GetFile (file_id : string)
| Download (file_id : string).

Inductive event :=
| Api (c : call) (o : outcome)
| Sleep (seconds : nat)
| Removed (path : string).

#[global] Instance outcome_eq_dec : EqDecision outcome.
Proof. solve_decision. Defined.
#[global] Instance notice_eq_dec : EqDecision notice.
Proof. solve_decision. Defined.
#[global] Instance call_eq_dec : EqDecision call.
Proof. solve_decision. Defined.
#[global] Instance event_eq_dec : EqDecision event.
Proof. solve_decision. Defined.

Record world := World {
  fs : gmap string string;
  user_data : gmap string value;
  net : list outcome;
  trace : list event
}.

Inductive res (A : Type) :=
| Ret (a : A)
| Raise (e : exn).
Arguments Ret {A} a.
Arguments Raise {A} e.

Definition M (A : Type) : Type := world -> res A * world.

#[global] Instance M_ret : MRet M := fun A a w => (Ret a, w).

#[global] Instance M_bind : MBind M := fun A B f m w =>
  match m w with
  | (Ret a, w') => f a w'
  | (Raise e, w') => (Raise e, w')
  end.

Definition raise {A} (e : exn) : M A := fun w => (Raise e, w).

(** [try: m except (TimedOut, NetworkError): h] *)
Definition except_net {A} (m h : M A) : M A := fun w =>
  match m w with
  | (Raise NetError, w') => h w'
  | r => r
  end.

(** [try: m except Exception: h] *)
Definition except_any {A} (m h : M A) : M A := fun w =>
  match m w with
  | (Raise _, w') => h w'
  | r => r
  end.

(** [try: m except (TimedOut, NetworkError): h except Exception: h'] *)
Definition except_net_any {A} (m h h' : M A) : M A := fun w =>
  match m w with
  | (Raise NetError, w') => h w'
  | (Raise OtherError, w') => h' w'
  | r => r
  end.

(** [try: m except: pass] *)
Definition attempt (m : M unit) : M unit := except_any m (mret tt).

Definition log (e : event) : M unit := fun w =>
  (Ret tt, World (fs w) (user_data w) (net w) (trace w ++ [e])).

Definition api (c : call) : M unit := fun w =>
  let o := hd Delivered (net w) in
  let w' := World (fs w) (user_data w) (tl (net w)) (trace w ++ [Api c o]) in
  match o with
  | Delivered => (Ret tt, w')
  | Transient => (Raise NetError, w')
  | Broken => (Raise OtherError, w')
  end.

Definition reply_text (text : notice) : M unit := api (ReplyText text).
Definition edit_message_text (text : notice) : M unit := api (EditMessageText text).

(** [await asyncio.sleep(seconds)] *)
Definition sleep (seconds : nat) : M unit := log (Sleep seconds).

Definition get (key : string) : M (option value) := fun w =>
  (Ret (user_data w !! key), w).

Definition set (key : string) (v : value) : M unit := fun w =>
  (Ret tt, World (fs w) (<[key := v]> (user_data w)) (net w) (trace w)).

(** [context.user_data.clear()] *)
Definition clear : M unit := fun w =>
  (Ret tt, World (fs w) ∅ (net w) (trace w)).

Definition get_fs : M (gmap string string) := fun w => (Ret (fs w), w).

Definition put_fs (fs' : gmap string string) : M unit := fun w =>
  (Ret tt, World fs' (user_data w) (net w) (trace w)).

(** [os.remove(path)] *)
Definition os_remove (path : string) : M unit :=
  fs ← get_fs;
  match File.remove path fs with
  | Some fs' => put_fs fs' ≫= λ _, log (Removed path)
  | None => raise OtherError
  end.

(** Opening a file for reading raises when it is missing. *)
Definition read_file (path : string) : M string :=
  fs ← get_fs;
  match fs !! path with
  | Some content => mret content
  | None => raise OtherError
  end.

(** A value used where the code needs a string: anything else raises
    [TypeError] at its first use. *)
Definition as_str (v : option value) : M string :=
  match v with
  | Some (VStr s) => mret s
  | _ => raise OtherError
  end.

(** Truth of a path read from the dictionary: neither [None] nor empty. *)
Definition truthy_path (v : option value) : option string :=
  match v with
  | Some (VStr s) => if Str.is_empty s then None else Some s
  | _ => None
  end.

(** The world a computation leaves. *)
Definition run {A} (m : M A) (w : world) : world := (m w).2.

(** How a loop body or a guarded block ends: the handler goes on after it,
    or it has returned. *)
Inductive flow := Next | Returned.

(** ** Commands (lines 154 to 265) *)

Definition start_command : M unit :=
  clear;;
  set "mode" (VStr "single");;
  set "step" (VStr "first_letters");;
  reply_text (Welcome "single").

Definition batch_command : M unit :=
  clear;;
  set "mode" (VStr "batch");;
  set "step" (VStr "first_letters");;
  reply_text (Welcome "batch").

Definition txt2csv_command : M unit :=
  clear;;
  set "mode" (VStr "txt2csv");;
  set "step" (VStr "waiting_file");;
  reply_text (Welcome "txt2csv").

Definition cancel_command : M unit :=
  clear;;
  reply_text OperationCancelled.

(** ** Replies with retries (lines 271 to 287) *)

Fixpoint safe_reply_loop (attempts : list nat) (max_retries : nat)
    (message : notice) : M bool :=
  match attempts with
  | [] => mret false
  | attempt :: rest =>
      except_net_any
        (reply_text message;; mret true)
        (if attempt <? max_retries - 1
         then sleep 1;; safe_reply_loop rest max_retries message
         else mret false)
        (mret false)
  end.

Definition safe_reply_with (max_retries : nat) (message : notice) : M bool :=
  safe_reply_loop (seq 0 max_retries) max_retries message.

(** Every caller leaves [max_retries] at its default. *)
Definition safe_reply (message : notice) : M bool := safe_reply_with 2 message.

(** ** Sending a file (the three loops at lines 630, 728 and 857)

    [for attempt in range(max_retries)]: the document is sent and the loop
    left; on [TimedOut] or [NetworkError] the loop pauses and goes on while
    attempts remain, and otherwise runs [exhausted] and returns from the
    handler.  Any other exception leaves the handler. *)

Definition send_document (path filename : string) : M unit :=
  content ← read_file path;
  api (ReplyDocument filename content).

Fixpoint send_loop (attempts : list nat) (max_retries : nat)
    (send exhausted : M unit) : M flow :=
  match attempts with
  | [] => mret Next
  | attempt :: rest =>
      except_net
        (send;; mret Next)
        (if attempt <? max_retries - 1
         then sleep 2;; send_loop rest max_retries send exhausted
         else exhausted;; mret Returned)
  end.

(** The two removals of [send_csv_file], inside one [try ... except: pass]. *)
Definition remove_both (txt_file_path : option value) (csv_file_path : string)
    : M unit :=
  attempt
    (fs ← get_fs;
     match truthy_path txt_file_path with
     | Some p => if File.exists_ p fs then os_remove p else mret tt
     | None => mret tt
     end;;
     fs ← get_fs;
     if File.exists_ csv_file_path fs then os_remove csv_file_path else mret tt).

Definition send_csv_file (csv_file_path filename : string)
    (line_count : option value) (txt_file_path : option value) : M unit :=
  let max_retries := 3 in
  f ← send_loop (seq 0 max_retries) max_retries
        (send_document csv_file_path filename)
        (reply_text CsvTooLarge;;
         remove_both txt_file_path csv_file_path;;
         clear);
  match f with
  | Returned => mret tt
  | Next =>
      remove_both txt_file_path csv_file_path;;
      reply_text (ConversionSuccessful line_count);;
      clear
  end.

(** ** Renaming the converted file (lines 326 to 355) *)

Definition invalid_chars : list ascii :=
  ["<"; ">"; ":"; "034"; "/"; "\"; "|"; "?"; "*"]%char.

Fixpoint replace_char (old new : ascii) (s : string) : string :=
  match s with
  | "" => ""
  | String c s' =>
      String (if Char.eqb c old then new else c) (replace_char old new s')
  end.

Definition clean_filename (new_filename : string) : string :=
  let new_filename :=
    fold_left (fun name char => replace_char char "_" name)
              invalid_chars new_filename in
  if negb (Str.endswith ".csv" (Str.lower new_filename))
  then new_filename +:+ ".csv"
  else new_filename.

Definition handle_csv_rename (new_filename : string) : M unit :=
  csv_file_path ← get "csv_file_path";
  txt_file_path ← get "txt_file_path";
  line_count ← get "line_count";
  match truthy_path csv_file_path with
  | None => safe_reply FileNotFound;; clear
  | Some csv_file_path =>
      let new_filename := Str.strip new_filename in
      if Str.is_empty new_filename
      then safe_reply InvalidFilename;; mret tt
      else send_csv_file csv_file_path (clean_filename new_filename)
             (Some (default (VInt 0) line_count)) txt_file_path
  end.

(** ** The batch conversation (lines 501 to 589)

    [text] is the message already stripped by [handle_message], [step] the
    value under ['step']. *)

Definition handle_batch_generation (text : string) (step : option value) : M unit :=
  if bool_decide (step = Some (VStr "first_letters")) then
    let text := Str.upper text in
    if not_letters 2 text then reply_text (InvalidInput "first_letters")
    else
      set "first_letters" (VStr text);;
      set "step" (VStr "second_numbers");;
      reply_text (StepComplete "first_letters")
  else if bool_decide (step = Some (VStr "second_numbers")) then
    if not_digits 2 text then reply_text (InvalidInput "second_numbers")
    else
      set "second_numbers" (VStr text);;
      set "step" (VStr "series_list");;
      reply_text (StepComplete "second_numbers")
  else if bool_decide (step = Some (VStr "series_list")) then
    match valid_series text with
    | [] => reply_text (InvalidInput "series_list")
    | valid_series =>
        set "series_list" (VList valid_series);;
        set "step" (VStr "start_digits");;
        reply_text (StepComplete "series_list")
    end
  else if bool_decide (step = Some (VStr "start_digits")) then
    if not_digits 4 text then reply_text (InvalidInput "start_digits")
    else
      set "start_digits" (VStr text);;
      set "step" (VStr "end_digits");;
      reply_text (StepComplete "start_digits")
  else if bool_decide (step = Some (VStr "end_digits")) then
    if not_digits 4 text then reply_text (InvalidInput "end_digits")
    else
      series_list ← get "series_list";
      start_digits ← get "start_digits";
      let end_digits := text in
      start_digits ← as_str start_digits;
      if (Num.int end_digits <? Num.int start_digits)%N
      then reply_text InvalidRange
      else
        let numbers_per_series := (Num.int end_digits - Num.int start_digits + 1)%N in
        series_list ←
          match default (VList []) series_list with
          | VList l => mret l
          | _ => raise OtherError
          end;
        let total_count := (numbers_per_series * N.of_nat (length series_list))%N in
        reply_text (Summary total_count);;
        set "step" (VStr "confirm");;
        set "end_digits" (VStr end_digits)
  else mret tt.

(** ** The single conversation (lines 357 to 499) *)

Definition handle_single_generation (text : string) (step : option value) : M unit :=
  if bool_decide (step = Some (VStr "first_letters")) then
    let text := Str.upper text in
    if not_letters 2 text
    then safe_reply (InvalidInput "first_letters");; mret tt
    else
      set "first_letters" (VStr text);;
      set "step" (VStr "second_numbers");;
      safe_reply (StepComplete "first_letters");; mret tt
  else if bool_decide (step = Some (VStr "second_numbers")) then
    if not_digits 2 text then reply_text (InvalidInput "second_numbers")
    else
      set "second_numbers" (VStr text);;
      set "step" (VStr "third_letters");;
      reply_text (StepComplete "second_numbers")
  else if bool_decide (step = Some (VStr "third_letters")) then
    let text := Str.upper text in
    if not_letters 2 text then reply_text (InvalidInput "third_letters")
    else
      set "third_letters" (VStr text);;
      set "step" (VStr "start_digits");;
      reply_text (StepComplete "third_letters")
  else if bool_decide (step = Some (VStr "start_digits")) then
    if not_digits 4 text then reply_text (InvalidInput "start_digits")
    else
      set "start_digits" (VStr text);;
      set "step" (VStr "end_digits");;
      reply_text (StepComplete "start_digits")
  else if bool_decide (step = Some (VStr "end_digits")) then
    if not_digits 4 text then reply_text (InvalidInput "end_digits")
    else
      start_digits ← get "start_digits";
      let end_digits := text in
      start_digits ← as_str start_digits;
      if (Num.int end_digits <? Num.int start_digits)%N
      then reply_text InvalidRange
      else
        let count := (Num.int end_digits - Num.int start_digits + 1)%N in
        reply_text (Summary count);;
        set "step" (VStr "confirm");;
        set "end_digits" (VStr end_digits)
  else mret tt.

(** ** Text messages (lines 289 to 324) *)

(** Truth of a value read from the dictionary. *)
Definition truthy (v : option value) : bool :=
  match v with
  | None => false
  | Some (VStr s) => negb (Str.is_empty s)
  | Some (VList l) => match l with [] => false | _ => true end
  | Some (VInt n) => negb (n =? 0)%Z
  | Some (VMegabytes n) => negb (n =? 0)%N
  end.

Definition handle_message (text : option string) : M unit :=
  match text with
  | None => mret tt
  | Some text =>
      if Str.is_empty text then mret tt
      else
        except_any
          (mode ← get "mode";
           step ← get "step";
           if negb (truthy mode) then mret tt
           else
             let text := Str.strip text in
             if bool_decide (mode = Some (VStr "txt2csv"))
                && bool_decide (step = Some (VStr "waiting_rename"))
             then handle_csv_rename text
             else if bool_decide (mode = Some (VStr "single"))
             then handle_single_generation text step
             else if bool_decide (mode = Some (VStr "batch"))
             then handle_batch_generation text step
             else mret tt)
          (attempt (safe_reply GenericError;; mret tt))
  end.

(** ** Buttons (lines 595 to 763)

    The dictionary holds under the five field keys only what the steps
    stored; a missing field makes the generator raise [TypeError]. *)

Definition button_callback (data : string) : M unit :=
  api Answer;;
  if bool_decide (data = "cancel_gen") then
    edit_message_text GenerationCancelled;;
    clear
  else
    mode ← get "mode";
    if bool_decide (data = "generate") && bool_decide (mode = Some (VStr "single")) then
      first_letters ← get "first_letters";
      second_numbers ← get "second_numbers";
      third_letters ← get "third_letters";
      start_digits ← get "start_digits";
      end_digits ← get "end_digits";
      edit_message_text Generating;;
      first_letters ← as_str first_letters;
      second_numbers ← as_str second_numbers;
      third_letters ← as_str third_letters;
      start_digits ← as_str start_digits;
      end_digits ← as_str end_digits;
      fs ← get_fs;
      let '((filename, error), fs') :=
        generate_vehicle_numbers first_letters second_numbers third_letters
                                 start_digits end_digits fs in
      put_fs fs';;
      match error, filename with
      | Some error, _ => edit_message_text (ErrorText error);; clear
      | None, None => raise OtherError
      | None, Some filename =>
          content ← read_file filename;
          let count := length (File.readlines content) in
          let max_retries := 3 in
          f ← send_loop (seq 0 max_retries) max_retries
                (send_document filename filename)
                (edit_message_text (TooLarge count);;
                 attempt (os_remove filename);;
                 clear);
          match f with
          | Returned => mret tt
          | Next =>
              attempt (os_remove filename);;
              reply_text (Complete count);;
              clear
          end
      end
    else if bool_decide (data = "csv_use_default") then
      csv_file_path ← get "csv_file_path";
      txt_file_path ← get "txt_file_path";
      default_filename ← get "default_filename";
      line_count ← get "line_count";
      match truthy_path csv_file_path with
      | Some csv_file_path =>
          edit_message_text SendingDefault;;
          default_filename ← as_str (Some (default (VStr "converted.csv") default_filename));
          send_csv_file csv_file_path default_filename
            (Some (default (VInt 0) line_count)) txt_file_path
      | None =>
          edit_message_text FileNotFound;;
          clear
      end
    else if bool_decide (data = "csv_rename") then
      set "step" (VStr "waiting_rename");;
      edit_message_text RenamePrompt
    else if bool_decide (data = "csv_cancel") then
      csv_file_path ← get "csv_file_path";
      txt_file_path ← get "txt_file_path";
      attempt
        (fs ← get_fs;
         match truthy_path csv_file_path with
         | Some p => if File.exists_ p fs then os_remove p else mret tt
         | None => mret tt
         end;;
         fs ← get_fs;
         match truthy_path txt_file_path with
         | Some p => if File.exists_ p fs then os_remove p else mret tt
         | None => mret tt
         end);;
      edit_message_text ConversionCancelled;;
      clear
    else if bool_decide (data = "batch_generate") && bool_decide (mode = Some (VStr "batch")) then
      first_letters ← get "first_letters";
      second_numbers ← get "second_numbers";
      series_list ← get "series_list";
      start_digits ← get "start_digits";
      end_digits ← get "end_digits";
      series_list ←
        match default (VList []) series_list with
        | VList l => mret l
        | _ => raise OtherError
        end;
      edit_message_text Generating;;
      first_letters ← as_str first_letters;
      second_numbers ← as_str second_numbers;
      start_digits ← as_str start_digits;
      end_digits ← as_str end_digits;
      fs ← get_fs;
      let '((filename, error), fs') :=
        generate_batch_vehicle_numbers first_letters second_numbers series_list
                                       start_digits end_digits fs in
      put_fs fs';;
      match error, filename with
      | Some error, _ => edit_message_text (ErrorText error);; clear
      | None, None => raise OtherError
      | None, Some filename =>
          content ← read_file filename;
          let count := length (File.readlines content) in
          let max_retries := 3 in
          f ← send_loop (seq 0 max_retries) max_retries
                (send_document filename filename)
                (edit_message_text (TooLarge count);;
                 attempt (os_remove filename);;
                 clear);
          match f with
          | Returned => mret tt
          | Next =>
              attempt (os_remove filename);;
              reply_text (Complete count);;
              clear
          end
      end
    else mret tt.

(** ** Uploaded documents (lines 769 to 853) *)

Record document := Document {
  file_id : string;
  file_name : option string;
  data : string
}.

Definition max_size : N := 50 * 1024 * 1024.

(** [document.file_name or "document.txt"] *)
Definition document_name (doc : document) : string :=
  match file_name doc with
  | Some n => if Str.is_empty n then "document.txt" else n
  | None => "document.txt"
  end.

(** The [except Exception] clause: it removes the paths that are bound when
    the exception arrives, inside one [try ... except: pass]. *)
Definition on_error (txt_file_path csv_file_path : option string) : M flow :=
  reply_text ProcessingError;;
  attempt
    (match txt_file_path with Some p => os_remove p | None => mret tt end;;
     match csv_file_path with Some p => os_remove p | None => mret tt end);;
  clear;;
  mret Returned.

Definition handle_document (doc : option document) : M unit :=
  mode ← get "mode";
  step ← get "step";
  if negb (bool_decide (mode = Some (VStr "txt2csv")))
     || negb (bool_decide (step = Some (VStr "waiting_file")))
  then mret tt
  else
    match doc with
    | None => reply_text NoFile
    | Some doc =>
        let file_name := document_name doc in
        if negb (Str.endswith ".txt" (Str.lower file_name))
        then reply_text InvalidType
        else
          let txt_file_path := "temp_" +:+ file_id doc +:+ ".txt" in
          let csv_file_path := "converted_" +:+ file_id doc +:+ ".csv" in
          (* no path is bound yet *)
          f ← except_any
                (reply_text Downloading;;
                 api (GetFile (file_id doc));;
                 mret Next)
                (on_error None None);
          match f with
          | Returned => mret tt
          | Next =>
          (* [txt_file_path] is bound *)
          f ← except_any
                (api (Download (file_id doc));;
                 fs ← get_fs;
                 put_fs (<[txt_file_path := data doc]> fs);;
                 let file_size := File.getsize (data doc) in
                 if (max_size <? file_size)%N
                 then os_remove txt_file_path;;
                      reply_text FileTooLarge;;
                      mret Returned
                 else reply_text Converting;;
                      mret Next)
                (on_error (Some txt_file_path) None);
          match f with
          | Returned => mret tt
          | Next =>
          (* both paths are bound *)
          f ← except_any
                (fs ← get_fs;
                 let '((success, error), fs') :=
                   convert_txt_to_csv txt_file_path csv_file_path fs in
                 put_fs fs';;
                 if negb success
                 then os_remove txt_file_path;;
                      reply_text (ConversionFailed (default "" error));;
                      mret Returned
                 else
                   csv ← read_file csv_file_path;
                   let csv_file_size := File.getsize csv in
                   let line_count :=
                     (Z.of_nat (length (File.readlines csv)) - 1)%Z in
                   set "csv_file_path" (VStr csv_file_path);;
                   set "txt_file_path" (VStr txt_file_path);;
                   set "default_filename"
                       (VStr (Str.replace ".txt" ".csv" file_name));;
                   set "line_count" (VInt line_count);;
                   set "file_size_mb" (VMegabytes csv_file_size);;
                   set "step" (VStr "ask_rename");;
                   reply_text (ConversionComplete line_count);;
                   mret Next)
                (on_error (Some txt_file_path) (Some csv_file_path));
          mret tt
          end
          end
    end.

(** ** The properties, in the terms of the specification *)

(** The shape rules of the fields. *)
Definition letter_pair (s : string) : Prop := Str.len s = 2 /\ Str.isalpha s = true.
Definition digit_pair (s : string) : Prop := Str.len s = 2 /\ Str.isdigit s = true.
Definition digit_quad (s : string) : Prop := Str.len s = 4 /\ Str.isdigit s = true.

(** A token of the series list is kept when, stripped, it is a letter pair. *)
Definition is_letter_pair (s : string) : bool :=
  (Str.len s =? 2) && Str.isalpha s.

Definition no_space (s : string) : Prop :=
  Str.all (fun c => negb (Char.isspace c)) s = true.

(** The record of a line as the specification words it: the line is cut at
    every separator; it is retained when it is not blank, holds the
    separator and its first two segments, trimmed, are not empty, and its
    row is the second segment followed by the first, both trimmed. *)
Definition spec_segments (line : string) : list string :=
  Str.split separator line.

Definition spec_retained (line : string) : bool :=
  negb (Str.is_empty (Str.strip line))
  && Str.contains separator line
  && negb (Str.is_empty (Str.strip (nth 0 (spec_segments line) "")))
  && negb (Str.is_empty (Str.strip (nth 1 (spec_segments line) ""))).

Definition spec_row (line : string) : string * string :=
  (Str.strip (nth 1 (spec_segments line) ""),
   Str.strip (nth 0 (spec_segments line) "")).

(** The same with the line trimmed before it is cut: a separator is then
    looked for inside the trimmed line only. *)
Definition trimmed_segments (line : string) : list string :=
  Str.split separator (Str.strip line).

Definition trimmed_retained (line : string) : bool :=
  negb (Str.is_empty (Str.strip line))
  && Str.contains separator (Str.strip line)
  && negb (Str.is_empty (Str.strip (nth 0 (trimmed_segments line) "")))
  && negb (Str.is_empty (Str.strip (nth 1 (trimmed_segments line) ""))).

Definition trimmed_row (line : string) : string * string :=
  (Str.strip (nth 1 (trimmed_segments line) ""),
   Str.strip (nth 0 (trimmed_segments line) "")).

(** The text of a file that holds the given lines, each followed by one
    line feed. *)
Definition lines_text (lines : list string) : string :=
  fold_right (fun line text => line +:+ String "010" text) "" lines.

(** Text of the ASCII repertoire: every character has a code below 128. *)
Definition ascii_text (s : string) : Prop :=
  Str.all (fun c => (Char.code c <? 128)%N) s = true.

(** The text of the rows of a table. *)
Definition rows_text (rows : list (string * string)) : string :=
  fold_right (fun row text => File.writerow [row.1; row.2] +:+ text) "" rows.

(** The line a generated identifier makes with a number after it. *)
Definition record_line (d identifier : string) : string :=
  identifier +:+ separator +:+ d.

(** A string that holds no line terminator. *)
Definition one_line (s : string) : Prop :=
  Str.all (fun c => negb (Char.eqb c "013") && negb (Char.eqb c "010")) s = true.

(** The attempts to send a document that a trace holds, and its deletions
    of a path. *)
Definition is_document (e : event) : bool :=
  match e with
  | Api (ReplyDocument _ _) _ => true
  | _ => false
  end.

Definition document_attempts (t : list event) : nat :=
  length (List.filter is_document t).

Definition is_removal (e : event) : bool :=
  match e with
  | Removed _ => true
  | _ => false
  end.

Definition removals_of (t : list event) : list event :=
  List.filter is_removal t.

(** Sample conversations, from the first command on, and a world placed
    before its next event with given outcomes of the transport ahead. *)
Definition initial : world := World ∅ ∅ [] [].

Definition before (outcomes : list outcome) (w : world) : world :=
  World (fs w) (user_data w) outcomes [].

Definition sample_document : document :=
  Document "F1" (Some "data.txt") ("CG13AA0010 - 7389247318" +:+ File.LF).

Definition uploaded : world :=
  run (txt2csv_command;; handle_document (Some sample_document)) initial.

Definition confirmed_single : world :=
  run (start_command;;
       handle_message (Some "ab");; handle_message (Some "12");;
       handle_message (Some "cd");; handle_message (Some "0001");;
       handle_message (Some "0002")) initial.

Definition confirmed_batch : world :=
  run (batch_command;;
       handle_message (Some "ab");; handle_message (Some "12");;
       handle_message (Some "cd, ef");; handle_message (Some "0001");;
       handle_message (Some "0002")) initial.

(** The number an identifier ends with, after the six characters of its
    stem. *)
Fixpoint drop (n : nat) (s : string) : string :=
  match n, s with
  | S n', String _ s' => drop n' s'
  | _, _ => s
  end.

Definition numeric_suffix (identifier : string) : N :=
  Num.int (drop 6 identifier).


(** ** Further properties, in the terms of the code *)

(** A series as the batch generator reads it: trimmed, then upper-cased. *)
Definition normal_series (series : string) : string :=
  Str.upper (Str.strip series).

Definition series_ok (series : string) : Prop :=
  letter_pair (normal_series series).

(** The fields a single generation is called with. *)
Definition single_valid (fl sn tl sd ed : string) : Prop :=
  letter_pair fl /\ digit_pair sn /\ letter_pair tl
  /\ digit_quad sd /\ digit_quad ed /\ (Num.int sd <= Num.int ed)%N.

Definition single_errors : list string :=
  [msg_first; msg_second; msg_third; msg_start; msg_end; msg_range].


(** The calls that send a text. *)
Definition is_reply (e : event) : bool :=
  match e with
  | Api (ReplyText _) _ => true
  | _ => false
  end.

(** A conversation that is well formed: the step is one of the six of its
    kind, and the fields of the steps already passed are stored and valid;
    at the confirmation the range is in order. *)
Definition has_field (dict : gmap string value) (key : string)
    (P : string -> Prop) : Prop :=
  exists s, dict !! key = Some (VStr s) /\ P s.

Definition range_stored (dict : gmap string value) : Prop :=
  exists sd ed,
    dict !! "start_digits" = Some (VStr sd)
    /\ dict !! "end_digits" = Some (VStr ed)
    /\ digit_quad ed /\ (Num.int sd <= Num.int ed)%N.

Definition single_step_index (name : string) : option nat :=
  if String.eqb name "first_letters" then Some 0
  else if String.eqb name "second_numbers" then Some 1
  else if String.eqb name "third_letters" then Some 2
  else if String.eqb name "start_digits" then Some 3
  else if String.eqb name "end_digits" then Some 4
  else if String.eqb name "confirm" then Some 5
  else None.

Definition single_fields (dict : gmap string value) (n : nat) : Prop :=
  (1 <= n -> has_field dict "first_letters" letter_pair)
  /\ (2 <= n -> has_field dict "second_numbers" digit_pair)
  /\ (3 <= n -> has_field dict "third_letters" letter_pair)
  /\ (4 <= n -> has_field dict "start_digits" digit_quad)
  /\ (5 <= n -> range_stored dict).

Definition single_session (dict : gmap string value) : Prop :=
  dict !! "mode" = Some (VStr "single")
  /\ exists name n,
       dict !! "step" = Some (VStr name)
       /\ single_step_index name = Some n
       /\ single_fields dict n.

Definition batch_step_index (name : string) : option nat :=
  if String.eqb name "first_letters" then Some 0
  else if String.eqb name "second_numbers" then Some 1
  else if String.eqb name "series_list" then Some 2
  else if String.eqb name "start_digits" then Some 3
  else if String.eqb name "end_digits" then Some 4
  else if String.eqb name "confirm" then Some 5
  else None.

Definition series_stored (dict : gmap string value) : Prop :=
  exists l, dict !! "series_list" = Some (VList l)
            /\ l <> [] /\ Forall letter_pair l.

Definition batch_fields (dict : gmap string value) (n : nat) : Prop :=
  (1 <= n -> has_field dict "first_letters" letter_pair)
  /\ (2 <= n -> has_field dict "second_numbers" digit_pair)
  /\ (3 <= n -> series_stored dict)
  /\ (4 <= n -> has_field dict "start_digits" digit_quad)
  /\ (5 <= n -> range_stored dict).

Definition batch_session (dict : gmap string value) : Prop :=
  dict !! "mode" = Some (VStr "batch")
  /\ exists name n,
       dict !! "step" = Some (VStr name)
       /\ batch_step_index name = Some n
       /\ batch_fields dict n.

(** What a computation guarantees of the files and the dictionary: from a
    world that satisfies [P], it ends by returning [a] in a world that
    satisfies [Q a], or by raising in a world that satisfies [E]. *)
Definition assertion : Type := gmap string string -> gmap string value -> Prop.

Definition triple {A} (P : assertion) (m : M A) (Q : A -> assertion)
    (E : assertion) : Prop :=
  forall w, P (fs w) (user_data w) ->
    match m w with
    | (Ret a, w') => Q a (fs w') (user_data w')
    | (Raise _, w') => E (fs w') (user_data w')
    end.

(** The files and the dictionary are exactly these. *)
Definition at_world (files : gmap string string) (dict : gmap string value)
    : assertion :=
  fun f d => f = files /\ d = dict.

(** The text messages of a conversation, one after the other. *)
Definition conversation (texts : list (option string)) (w : world) : world :=
  fold_left (fun w text => run (handle_message text) w) texts w.

(** The files without the one a value of the dictionary names, when it
    names one. *)
Definition forget (path : option value) (files : gmap string string)
    : gmap string string :=
  match truthy_path path with
  | Some p => delete p files
  | None => files
  end.

(** What [handle_document] may have done to the files and the dictionary
    of before: only the two paths of the document differ, and the
    dictionary is as before, or empty, or holds the step that asks for a
    name together with the two paths and the count of the records; then the
    text is there as downloaded and the table is there with the header and
    the records of the text. *)
Definition document_outcome (doc : document)
    (files : gmap string string) (dict : gmap string value)
    (f : gmap string string) (d : gmap string value) : Prop :=
  let txt_file_path := "temp_" +:+ file_id doc +:+ ".txt" in
  let csv_file_path := "converted_" +:+ file_id doc +:+ ".csv" in
  let rows := convert_rows (File.readlines (data doc)) in
  (forall p, p <> txt_file_path -> p <> csv_file_path -> f !! p = files !! p)
  /\ (d = dict \/ d = ∅
      \/ (d !! "step" = Some (VStr "ask_rename")
          /\ d !! "csv_file_path" = Some (VStr csv_file_path)
          /\ d !! "txt_file_path" = Some (VStr txt_file_path)
          /\ d !! "line_count" = Some (VInt (Z.of_nat (length rows)))
          /\ rows <> []
          /\ f !! txt_file_path = Some (data doc)
          /\ f !! csv_file_path
             = Some (File.writerow header +:+ rows_text rows))).

(** The dictionary and the files when [handle_document] has converted a
    document: what [document_outcome] says of them, and the name of the
    document, which ends with [.txt] in whatever case, kept as the default
    name of the table with each [.txt] in it replaced. *)
Definition document_stored (doc : document)
    (f : gmap string string) (d : gmap string value) : Prop :=
  let txt_file_path := "temp_" +:+ file_id doc +:+ ".txt" in
  let csv_file_path := "converted_" +:+ file_id doc +:+ ".csv" in
  let rows := convert_rows (File.readlines (data doc)) in
  d !! "step" = Some (VStr "ask_rename")
  /\ d !! "csv_file_path" = Some (VStr csv_file_path)
  /\ d !! "txt_file_path" = Some (VStr txt_file_path)
  /\ d !! "line_count" = Some (VInt (Z.of_nat (length rows)))
  /\ rows <> []
  /\ f !! txt_file_path = Some (data doc)
  /\ f !! csv_file_path = Some (File.writerow header +:+ rows_text rows)
  /\ Str.endswith ".txt" (Str.lower (document_name doc)) = true
  /\ d !! "default_filename"
     = Some (VStr (Str.replace ".txt" ".csv" (document_name doc))).

(** A document named in upper case. *)
Definition upper_case_document : document :=
  Document "F1" (Some "DATA.TXT") ("CG13AA0010 - 7389247318" +:+ File.LF).

(** ** Proof steps *)

(** A fact about a character, by cases on its eight bits. *)
Ltac char_cases c :=
  destruct c as [[] [] [] [] [] [] [] []]; vm_compute; try done.

(** Running the primitive operations of a handler on a given world. *)
Ltac exec :=
  repeat (progress
    (unfold except_net_any, except_net, except_any, attempt, reply_text,
       edit_message_text, api, sleep, log, get, set, clear, get_fs, put_fs,
       raise, mbind, M_bind, mret, M_ret;
     simpl)).

(** * The definitions on sample inputs *)

Section Samples.

Example strip_sample :
  Str.strip ("  AB12 - 5 " +:+ File.CRLF) = "AB12 - 5".
Proof. reflexivity. Qed.

Example split_max_sample :
  Str.split_max " - " 2 "a - b - c - d" = ["a"; "b"; "c - d"].
Proof. reflexivity. Qed.

Example split_overlap_sample : Str.split_max " - " 2 "a - - b" = ["a"; "- b"].
Proof. reflexivity. Qed.

Example split_comma_sample : Str.split "," "CD,,EF," = ["CD"; ""; "EF"; ""].
Proof. reflexivity. Qed.

Example split_ws_sample :
  Str.split_ws ("  cd ef" +:+ File.LF +:+ "gh ") = ["cd"; "ef"; "gh"].
Proof. reflexivity. Qed.

Example trailing_separator_sample :
  line_record ("a - b - " +:+ File.LF) = Some ("b -", "a")
  /\ line_record "a - b - c - d" = Some ("b", "a")
  /\ line_record " - b" = None.
Proof. repeat split; reflexivity. Qed.

Example upper_sample : Str.upper "ab1z{`" = "AB1Z{`".
Proof. reflexivity. Qed.

Example replace_sample : Str.replace ".txt" ".csv" "a.txt.txt" = "a.csv.csv".
Proof. reflexivity. Qed.

Example format_sample :
  Num.format_04d 7 = "0007" /\ Num.format_04d 9999 = "9999"
  /\ Num.format_04d 12345 = "12345" /\ Num.int "0042" = 42%N.
Proof. repeat split; reflexivity. Qed.

Example readlines_sample :
  File.readlines ("a" +:+ File.CRLF +:+ "b" +:+ String "013" "" +:+ "c")
  = ["a" +:+ File.LF; "b" +:+ File.LF; "c"].
Proof. reflexivity. Qed.

Example writerow_sample :
  File.writerow ["a,b"; "c"]
  = String File.quotechar "a,b" +:+ String File.quotechar ",c" +:+ File.CRLF.
Proof. reflexivity. Qed.

Example clean_filename_sample : clean_filename "my:data" = "my_data.csv".
Proof. reflexivity. Qed.

Example confirmed_batch_sample :
  user_data confirmed_batch !! "series_list" = Some (VList ["CD"; "EF"])
  /\ user_data confirmed_batch !! "step" = Some (VStr "confirm")
  /\ fs confirmed_batch = ∅.
Proof. repeat split; reflexivity. Qed.

Example invalid_series_sample :
  generate_batch_vehicle_numbers "AB" "12" ["CD"; "E1"] "0001" "0002" ∅
  = ((None, Some (msg_invalid_series "E1")), ∅).
Proof. reflexivity. Qed.

End Samples.

(** * Facts about strings *)

Section StrFacts.

Lemma sapp_nil_l s : "" +:+ s = s.
Proof. reflexivity. Qed.

Lemma sapp_cons c s t : String c s +:+ t = String c (s +:+ t).
Proof. reflexivity. Qed.

Lemma sapp_nil_r s : s +:+ "" = s.
Proof. induction s as [|c s IH]; [reflexivity|]. by rewrite sapp_cons, IH. Qed.

Lemma sapp_assoc s t u : (s +:+ t) +:+ u = s +:+ t +:+ u.
Proof. induction s as [|c s IH]; [reflexivity|]. by rewrite !sapp_cons, IH. Qed.

Lemma len_app s t : Str.len (s +:+ t) = Str.len s + Str.len t.
Proof.
  unfold Str.len. induction s as [|c s IH]; [reflexivity|].
  rewrite sapp_cons. simpl. by rewrite IH.
Qed.

Lemma all_app p s t : Str.all p (s +:+ t) = Str.all p s && Str.all p t.
Proof.
  induction s as [|c s IH]; [reflexivity|].
  rewrite sapp_cons. simpl. rewrite IH. by rewrite andb_assoc.
Qed.

Lemma all_impl (p q : ascii -> bool) s :
  (forall c, p c = true -> q c = true) -> Str.all p s = true -> Str.all q s = true.
Proof.
  intros Hpq. induction s as [|c s IH]; [done|]. simpl.
  intros [Hc Hs]%andb_true_iff. rewrite (Hpq c Hc). simpl. auto.
Qed.

Lemma len_upper s : Str.len (Str.upper s) = Str.len s.
Proof. unfold Str.len. induction s as [|c s IH]; [done|]. simpl. by rewrite IH. Qed.

End StrFacts.

(** * Facts about numbers *)

Section NumFacts.

Lemma range_length a b : length (Num.range a b) = N.to_nat b - N.to_nat a.
Proof. unfold Num.range. by rewrite length_fmap, length_seq. Qed.

Lemma range_lookup a b i :
  i < N.to_nat b - N.to_nat a ->
  Num.range a b !! i = Some (a + N.of_nat i)%N.
Proof.
  intros Hi. unfold Num.range. rewrite list_lookup_fmap, lookup_seq_lt by done.
  simpl. f_equal. lia.
Qed.

Lemma digit_value_le c : Char.isdigit c = true -> (Num.digit_value c <= 9)%N.
Proof.
  unfold Char.isdigit, Char.between, Num.digit_value.
  intros [H1 H2]%andb_true_iff. apply N.leb_le in H1, H2. lia.
Qed.

Lemma int_quad_lt s : digit_quad s -> (Num.int s < 10000)%N.
Proof.
  intros [Hlen Hdig]. unfold Str.isdigit in Hdig.
  apply andb_true_iff in Hdig as [_ Hall].
  destruct s as [|a [|b [|c [|d [|e s]]]]]; try discriminate Hlen.
  simpl in Hall.
  apply andb_true_iff in Hall as [Ha Hall].
  apply andb_true_iff in Hall as [Hb Hall].
  apply andb_true_iff in Hall as [Hc Hall].
  apply andb_true_iff in Hall as [Hd _].
  apply digit_value_le in Ha, Hb, Hc, Hd.
  unfold Num.int. simpl. lia.
Qed.

Lemma size_nat_ge n : (4 <= n)%N -> 3 <= N.size_nat n.
Proof.
  destruct n as [|p]; [lia|]. simpl.
  destruct p as [[q|q|]|[q|q|]|]; simpl; try lia; destruct q; simpl; lia.
Qed.

Lemma digit_char_spec d :
  (d < 10)%N ->
  Char.isdigit (Num.digit_char d) = true /\ Num.digit_value (Num.digit_char d) = d.
Proof.
  intros Hd.
  assert (d = 0 \/ d = 1 \/ d = 2 \/ d = 3 \/ d = 4 \/ d = 5 \/ d = 6 \/ d = 7
          \/ d = 8 \/ d = 9)%N as Hcases by lia.
  repeat (destruct Hcases as [->|Hcases]; [split; reflexivity|]).
  subst. split; reflexivity.
Qed.

(** The shape of the four-digit form of a number below 10000. *)
Lemma format_04d_digits n :
  (n < 10000)%N ->
  Num.format_04d n =
  String (Num.digit_char (n / 10 / 10 / 10 mod 10))
    (String (Num.digit_char (n / 10 / 10 mod 10))
       (String (Num.digit_char (n / 10 mod 10))
          (String (Num.digit_char (n mod 10)) ""))).
Proof.
  intros Hn. unfold Num.format_04d, Num.str.
  destruct (N.eqb_spec (n / 10) 0) as [H1|H1].
  { simpl. rewrite H1. simpl. reflexivity. }
  assert (Hfuel : 3 <= N.size_nat n).
  { apply size_nat_ge. destruct (N.lt_ge_cases n 4) as [Hlt|]; [|done].
    exfalso. apply H1. apply N.div_small. lia. }
  destruct (N.size_nat n) as [|[|[|fuel]]]; try lia.
  cbn [Num.decimal_go].
  destruct (N.eqb_spec (n / 10) 0) as [|_]; [done|].
  destruct (N.eqb_spec (n / 10 / 10) 0) as [H2|H2].
  { rewrite H2. reflexivity. }
  destruct (N.eqb_spec (n / 10 / 10 / 10) 0) as [H3|H3].
  { rewrite H3. reflexivity. }
  assert (H4 : (n / 10 / 10 / 10 / 10 = 0)%N).
  { rewrite !N.Div0.div_div. apply N.div_small. lia. }
  rewrite H4. reflexivity.
Qed.

Lemma format_04d_small n :
  (n < 10000)%N ->
  Str.len (Num.format_04d n) = 4
  /\ Str.isdigit (Num.format_04d n) = true
  /\ Num.int (Num.format_04d n) = n.
Proof.
  intros Hn. rewrite (format_04d_digits n Hn).
  destruct (digit_char_spec (n mod 10)) as [Ha0 Hb0]; [by apply N.mod_lt|].
  destruct (digit_char_spec (n / 10 mod 10)) as [Ha1 Hb1]; [by apply N.mod_lt|].
  destruct (digit_char_spec (n / 10 / 10 mod 10)) as [Ha2 Hb2]; [by apply N.mod_lt|].
  destruct (digit_char_spec (n / 10 / 10 / 10 mod 10)) as [Ha3 Hb3]; [by apply N.mod_lt|].
  split; [reflexivity|]. split.
  - unfold Str.isdigit. simpl. by rewrite Ha0, Ha1, Ha2, Ha3.
  - unfold Num.int. simpl. rewrite Hb0, Hb1, Hb2, Hb3.
    pose proof (N.div_mod n 10). pose proof (N.div_mod (n / 10) 10).
    pose proof (N.div_mod (n / 10 / 10) 10).
    pose proof (N.div_mod (n / 10 / 10 / 10) 10).
    assert (n / 10 / 10 / 10 / 10 = 0)%N.
    { rewrite !N.Div0.div_div. apply N.div_small. lia. }
    lia.
Qed.

End NumFacts.

(** * Facts about characters *)

Section CharFacts.

Lemma upper_isalpha c : Char.isalpha c = true -> Char.isalpha (Char.upper c) = true.
Proof. char_cases c. Qed.

Lemma alpha_not_space c : Char.isalpha c = true -> negb (Char.isspace c) = true.
Proof. char_cases c. Qed.

Lemma digit_not_space c : Char.isdigit c = true -> negb (Char.isspace c) = true.
Proof. char_cases c. Qed.

Lemma upper_not_space c :
  negb (Char.isspace c) = true -> negb (Char.isspace (Char.upper c)) = true.
Proof. char_cases c. Qed.

Lemma upper_not_lower c : Char.is_lower (Char.upper c) = false.
Proof. char_cases c. Qed.

Lemma alpha_not_lower_upper c :
  Char.isalpha c = true -> Char.is_lower c = false -> Char.is_upper c = true.
Proof. char_cases c. Qed.

End CharFacts.

(** * Facts about trimming *)

Section StripFacts.

Lemma all_upper p s :
  (forall c, p c = true -> p (Char.upper c) = true) ->
  Str.all p s = true -> Str.all p (Str.upper s) = true.
Proof.
  intros Hp. induction s as [|c s IH]; [done|]. simpl.
  intros [Hc Hs]%andb_true_iff. rewrite (Hp c Hc). simpl. auto.
Qed.

Lemma isalpha_upper s : Str.isalpha s = true -> Str.isalpha (Str.upper s) = true.
Proof.
  unfold Str.isalpha. intros [Hne Hall]%andb_true_iff.
  apply andb_true_iff. split.
  - destruct s; [done|reflexivity].
  - by apply all_upper; [apply upper_isalpha|].
Qed.

Lemma isalpha_no_space s : Str.isalpha s = true -> no_space s.
Proof.
  unfold Str.isalpha, no_space. intros [_ Hall]%andb_true_iff.
  revert Hall. apply all_impl, alpha_not_space.
Qed.

Lemma isdigit_no_space s : Str.isdigit s = true -> no_space s.
Proof.
  unfold Str.isdigit, no_space. intros [_ Hall]%andb_true_iff.
  revert Hall. apply all_impl, digit_not_space.
Qed.

Lemma no_space_upper s : no_space s -> no_space (Str.upper s).
Proof. unfold no_space. apply all_upper, upper_not_space. Qed.

Lemma no_space_app s t : no_space s -> no_space t -> no_space (s +:+ t).
Proof. unfold no_space. intros Hs Ht. by rewrite all_app, Hs, Ht. Qed.

Lemma lstrip_no_space s : no_space s -> Str.lstrip s = s.
Proof.
  unfold no_space. destruct s as [|c s]; [done|]. simpl.
  intros [Hc _]%andb_true_iff. apply negb_true_iff in Hc. by rewrite Hc.
Qed.

Lemma rstrip_no_space s : no_space s -> Str.rstrip s = s.
Proof.
  unfold no_space. induction s as [|c s IH]; [done|]. simpl.
  intros [Hc Hs]%andb_true_iff. rewrite (IH Hs).
  apply negb_true_iff in Hc. rewrite Hc. by destruct s.
Qed.

Lemma strip_no_space s : no_space s -> Str.strip s = s.
Proof.
  intros Hs. unfold Str.strip. rewrite (lstrip_no_space s Hs).
  by apply rstrip_no_space.
Qed.

End StripFacts.

(** * Generation *)

Section Generation.

Lemma letters_ok s : letter_pair s -> not_letters 2 s = false.
Proof. intros [Hl Ha]. unfold not_letters. by rewrite Hl, Ha. Qed.

Lemma digits2_ok s : digit_pair s -> not_digits 2 s = false.
Proof. intros [Hl Ha]. unfold not_digits. by rewrite Hl, Ha. Qed.

Lemma digits4_ok s : digit_quad s -> not_digits 4 s = false.
Proof. intros [Hl Ha]. unfold not_digits. by rewrite Hl, Ha. Qed.

Lemma append_numbers_eq stem a b numbers :
  append_numbers stem a b numbers =
  numbers ++ ((fun n => stem +:+ Num.format_04d n) <$> Num.range a (b + 1)).
Proof.
  unfold append_numbers. generalize (Num.range a (b + 1)) as l.
  intros l. revert numbers.
  induction l as [|n l IH]; intros numbers; simpl.
  - by rewrite app_nil_r.
  - rewrite IH. by rewrite <- app_assoc.
Qed.

Lemma vehicle_numbers_eq fl sn tl sd ed :
  vehicle_numbers fl sn tl sd ed =
  (fun n => (Str.upper fl +:+ sn +:+ Str.upper tl) +:+ Num.format_04d n)
    <$> Num.range (Num.int sd) (Num.int ed + 1).
Proof. unfold vehicle_numbers. by rewrite append_numbers_eq. Qed.

Lemma vehicle_numbers_length fl sn tl sd ed :
  (Num.int sd <= Num.int ed)%N ->
  length (vehicle_numbers fl sn tl sd ed) = N.to_nat (Num.int ed - Num.int sd + 1).
Proof.
  intros Hle. rewrite vehicle_numbers_eq, length_fmap, range_length. lia.
Qed.

Lemma vehicle_numbers_lookup fl sn tl sd ed i :
  i < length (vehicle_numbers fl sn tl sd ed) ->
  vehicle_numbers fl sn tl sd ed !! i =
  Some ((Str.upper fl +:+ sn +:+ Str.upper tl)
          +:+ Num.format_04d (Num.int sd + N.of_nat i)).
Proof.
  rewrite vehicle_numbers_eq, length_fmap, range_length. intros Hi.
  by rewrite list_lookup_fmap, range_lookup.
Qed.

Lemma generate_single_success fl sn tl sd ed fs :
  letter_pair fl -> digit_pair sn -> letter_pair tl ->
  digit_quad sd -> digit_quad ed -> (Num.int sd <= Num.int ed)%N ->
  generate_vehicle_numbers fl sn tl sd ed fs =
  ((Some ("vehicle_numbers_" +:+ Str.upper fl +:+ sn +:+ Str.upper tl +:+ ".txt"),
    None),
   <["vehicle_numbers_" +:+ Str.upper fl +:+ sn +:+ Str.upper tl +:+ ".txt"
     := File.write_lines (vehicle_numbers fl sn tl sd ed)]> fs).
Proof.
  intros Hfl Hsn Htl Hsd Hed Hle. unfold generate_vehicle_numbers.
  rewrite (letters_ok fl), (digits2_ok sn), (letters_ok tl),
    (digits4_ok sd), (digits4_ok ed) by done.
  by destruct (N.ltb_spec (Num.int ed) (Num.int sd)); [lia|].
Qed.

Lemma stem_length fl sn tl :
  letter_pair fl -> digit_pair sn -> letter_pair tl ->
  Str.len (Str.upper fl +:+ sn +:+ Str.upper tl) = 6.
Proof.
  intros [Hfl _] [Hsn _] [Htl _]. rewrite !len_app, !len_upper. lia.
Qed.

Lemma drop_app s t : drop (Str.len s) (s +:+ t) = t.
Proof. induction s as [|c s IH]; [by destruct t|]. by rewrite sapp_cons. Qed.

(** C2. When start is above end, both generators return the range error
    with no file name and leave the files as they were. *)
Theorem range_error fl sn tl sl sd ed fs :
  letter_pair fl -> digit_pair sn -> letter_pair tl -> sl <> [] ->
  digit_quad sd -> digit_quad ed -> (Num.int ed < Num.int sd)%N ->
  generate_vehicle_numbers fl sn tl sd ed fs = ((None, Some msg_range), fs)
  /\ generate_batch_vehicle_numbers fl sn sl sd ed fs = ((None, Some msg_range), fs).
Proof.
  intros Hfl Hsn Htl Hsl Hsd Hed Hlt.
  unfold generate_vehicle_numbers, generate_batch_vehicle_numbers.
  rewrite (letters_ok fl), (digits2_ok sn), (letters_ok tl),
    (digits4_ok sd), (digits4_ok ed) by done.
  destruct (N.ltb_spec (Num.int ed) (Num.int sd)); [|lia].
  by destruct sl.
Qed.

Lemma range_error_witness :
  generate_vehicle_numbers "AB" "12" "CD" "0100" "0001" ∅ = ((None, Some msg_range), ∅)
  /\ generate_batch_vehicle_numbers "AB" "12" ["CD"; "EF"] "0100" "0001" ∅
     = ((None, Some msg_range), ∅).
Proof.
  assert (Hfl : letter_pair "AB") by (split; reflexivity).
  assert (Hsn : digit_pair "12") by (split; reflexivity).
  assert (Htl : letter_pair "CD") by (split; reflexivity).
  assert (Hsl : ["CD"; "EF"] <> []) by discriminate.
  assert (Hsd : digit_quad "0100") by (split; reflexivity).
  assert (Hed : digit_quad "0001") by (split; reflexivity).
  assert (Hlt : (Num.int "0001" < Num.int "0100")%N) by (vm_compute; reflexivity).
  exact (range_error "AB" "12" "CD" ["CD"; "EF"] "0100" "0001" ∅
           Hfl Hsn Htl Hsl Hsd Hed Hlt).
Defined.

Lemma batch_loop_ok fl sn a b sl acc :
  Forall letter_pair sl ->
  batch_loop (Str.upper fl +:+ sn) a b sl acc =
  inr (acc ++ concat
         ((fun s => (fun n => (Str.upper fl +:+ sn +:+ Str.upper s)
                               +:+ Num.format_04d n)
                      <$> Num.range a (b + 1)) <$> sl)).
Proof.
  intros Hsl. revert acc.
  induction Hsl as [|s sl [Hlen Halpha] _ IH]; intros acc; simpl.
  - by rewrite app_nil_r.
  - rewrite (strip_no_space s) by by apply isalpha_no_space.
    rewrite letters_ok by (split; [by rewrite len_upper | by apply isalpha_upper]).
    rewrite IH, append_numbers_eq, sapp_assoc. by rewrite <- app_assoc.
Qed.

Lemma concat_length_const {A} (k : nat) (ls : list (list A)) :
  Forall (fun l => length l = k) ls -> length (concat ls) = k * length ls.
Proof.
  induction 1 as [|l ls Hl _ IH]; simpl; [lia|].
  rewrite length_app, IH, Hl. lia.
Qed.

End Generation.

(** * Cutting at the separator *)

Section SplitFacts.

Lemma split_go_nonempty sep k skip s : Str.split_go sep k skip s <> [].
Proof.
  revert k skip. induction s as [|c s IH]; intros k skip; simpl; [done|].
  destruct skip as [|j]; [|apply IH].
  destruct k as [|k]; [done|].
  destruct (Str.startswith sep (String c s)); [done|].
  by destruct (Str.split_go sep (S k) 0 s).
Qed.

(** The segments before the [k]-th separator do not depend on how many more
    separators may be used. *)
Lemma split_go_firstn sep s : forall k m skip,
  k <= m ->
  firstn k (Str.split_go sep k skip s) = firstn k (Str.split_go sep m skip s).
Proof.
  induction s as [|c s IH]; intros k m skip Hkm; simpl; [done|].
  destruct skip as [|j]; [|by apply IH].
  destruct k as [|k]; [done|].
  destruct m as [|m]; [lia|].
  destruct (Str.startswith sep (String c s)).
  - rewrite !firstn_cons. f_equal. apply IH. lia.
  - pose proof (IH (S k) (S m) 0 Hkm) as Heq.
    pose proof (split_go_nonempty sep (S k) 0 s) as Hk.
    pose proof (split_go_nonempty sep (S m) 0 s) as Hm.
    destruct (Str.split_go sep (S k) 0 s) as [|seg1 segs1]; [done|].
    destruct (Str.split_go sep (S m) 0 s) as [|seg2 segs2]; [done|].
    rewrite !firstn_cons in *. injection Heq as -> ->. done.
Qed.

Lemma startswith_len p s :
  Str.startswith p s = true -> String.length p <= String.length s.
Proof.
  revert s. induction p as [|a p IH]; intros [|b s]; simpl; try done; [lia|].
  intros [_ H]%andb_true_iff. apply IH in H. lia.
Qed.

Lemma contains_len sep s :
  Str.contains sep s = true -> String.length sep <= String.length s.
Proof.
  induction s as [|c s IH]; simpl.
  - rewrite orb_false_r. apply startswith_len.
  - intros [H|H]%orb_true_iff; [by apply startswith_len in H|].
    apply IH in H. lia.
Qed.

Lemma split_max_nth sep s i :
  i < 2 -> 2 <= String.length s ->
  nth i (Str.split_max sep 2 s) "" = nth i (Str.split sep s) "".
Proof.
  intros Hi Hlen. unfold Str.split, Str.split_max.
  pose proof (split_go_firstn sep s 2 (String.length s) 0 Hlen) as Heq.
  pose proof (nth_firstn 2 (Str.split_go sep 2 0 s) i "") as H1.
  pose proof (nth_firstn 2 (Str.split_go sep (String.length s) 0 s) i "") as H2.
  destruct (Nat.ltb_spec i 2); [|lia]. by rewrite <- H1, <- H2, Heq.
Qed.

Lemma not_space_ne c : negb (Char.isspace c) = true -> Char.eqb " " c = false.
Proof. char_cases c. Qed.

(** A part without whitespace ends at the first separator after it. *)
Lemma split_go_head a rest k :
  no_space a ->
  Str.split_go separator (S k) 0 (a +:+ separator +:+ rest) =
  a :: Str.split_go separator k 0 rest.
Proof.
  unfold no_space. induction a as [|c a IH]; intros Ha.
  - rewrite sapp_nil_l. reflexivity.
  - simpl in Ha. apply andb_true_iff in Ha as [Hc Ha].
    rewrite sapp_cons. cbn [Str.split_go].
    replace (Str.startswith separator (String c (a +:+ separator +:+ rest)))
      with false.
    + by rewrite (IH Ha).
    + unfold separator. cbn [Str.startswith]. by rewrite (not_space_ne c Hc).
Qed.

Lemma split_go_whole s k :
  no_space s -> Str.split_go separator k 0 s = [s].
Proof.
  unfold no_space. induction s as [|c s IH]; intros Hs; [done|].
  simpl in Hs. apply andb_true_iff in Hs as [Hc Hs].
  cbn [Str.split_go]. destruct k as [|k]; [done|].
  replace (Str.startswith separator (String c s)) with false.
  - by rewrite (IH Hs).
  - unfold separator. cbn [Str.startswith]. by rewrite (not_space_ne c Hc).
Qed.

Lemma startswith_app p s : Str.startswith p (p +:+ s) = true.
Proof.
  induction p as [|a p IH]; [done|]. rewrite sapp_cons. simpl.
  rewrite IH. unfold Char.eqb. by rewrite Ascii.eqb_refl.
Qed.

Lemma contains_app sep a b : Str.contains sep (a +:+ sep +:+ b) = true.
Proof.
  induction a as [|c a IH].
  - rewrite sapp_nil_l. destruct (sep +:+ b) eqn:E; simpl; rewrite <- E;
      by rewrite startswith_app.
  - rewrite sapp_cons. simpl. rewrite IH. apply orb_true_r.
Qed.

Lemma rstrip_app s t :
  no_space t -> t <> "" -> Str.rstrip (s +:+ t) = s +:+ t.
Proof.
  intros Ht Hne. induction s as [|c s IH].
  - rewrite sapp_nil_l. by apply rstrip_no_space.
  - rewrite sapp_cons. simpl. rewrite IH.
    destruct (s +:+ t) eqn:E; [|done].
    destruct s; [|done]. by rewrite sapp_nil_l in E.
Qed.

Lemma strip_record a b :
  no_space a -> a <> "" -> no_space b -> b <> "" ->
  Str.strip (a +:+ separator +:+ b) = a +:+ separator +:+ b.
Proof.
  intros Ha Hane Hb Hbne. unfold Str.strip.
  assert (Str.lstrip (a +:+ separator +:+ b) = a +:+ separator +:+ b) as ->.
  { destruct a as [|c a]; [done|]. rewrite sapp_cons. simpl.
    unfold no_space in Ha. simpl in Ha.
    apply andb_true_iff in Ha as [Hc _]. apply negb_true_iff in Hc.
    by rewrite Hc. }
  rewrite <- !sapp_assoc. rewrite rstrip_app by done. done.
Qed.

End SplitFacts.

(** * Conversion *)

Section Conversion.

(** The loop body, by the segments of the trimmed line. *)
Lemma line_record_spec line :
  line_record line =
  if trimmed_retained line then Some (trimmed_row line) else None.
Proof.
  unfold line_record, trimmed_retained, trimmed_row, trimmed_segments.
  destruct (Str.is_empty (Str.strip line)); [done|].
  destruct (Str.contains separator (Str.strip line)) eqn:Hin; [|done].
  apply contains_len in Hin. change (String.length separator) with 3 in Hin.
  rewrite <- !(split_max_nth separator (Str.strip line)) by lia.
  simpl negb. rewrite !andb_true_l.
  destruct (Nat.leb_spec 2 (length (Str.split_max separator 2 (Str.strip line))))
    as [Hlen|Hlen]; [done|].
  rewrite (nth_overflow _ _ (n := 1)) by lia.
  simpl. by rewrite andb_false_r.
Qed.

Lemma convert_rows_cons line lines :
  convert_rows (line :: lines) =
  match line_record line with
  | Some row => row :: convert_rows lines
  | None => convert_rows lines
  end.
Proof. reflexivity. Qed.

Lemma convert_rows_spec lines :
  convert_rows lines = map trimmed_row (List.filter trimmed_retained lines).
Proof.
  induction lines as [|line lines IH]; [done|].
  rewrite convert_rows_cons, line_record_spec. simpl.
  destruct (trimmed_retained line); simpl; by rewrite IH.
Qed.

Lemma convert_loop_rows lines csv_file processed_count :
  convert_loop lines csv_file processed_count =
  (csv_file +:+ rows_text (convert_rows lines),
   processed_count + length (convert_rows lines)).
Proof.
  revert csv_file processed_count.
  induction lines as [|line lines IH]; intros csv_file processed_count.
  - simpl. by rewrite sapp_nil_r, Nat.add_0_r.
  - rewrite convert_rows_cons. simpl.
    destruct (line_record line) as [[phone vehicle]|]; rewrite IH; [|done].
    simpl. rewrite sapp_assoc. f_equal. lia.
Qed.

(** The three ways [convert_txt_to_csv] ends on a file that is there. *)
Lemma convert_txt_to_csv_spec txt csv fs content :
  fs !! txt = Some content ->
  convert_txt_to_csv txt csv fs =
  match File.readlines content with
  | [] => ((false, Some msg_empty), fs)
  | _ :: _ =>
      match convert_rows (File.readlines content) with
      | [] => ((false, Some msg_no_valid), <[csv := File.writerow header]> fs)
      | _ :: _ =>
          ((true, None),
           <[csv := File.writerow header
                      +:+ rows_text (convert_rows (File.readlines content))]> fs)
      end
  end.
Proof.
  intros Hin. unfold convert_txt_to_csv. rewrite Hin.
  destruct (File.readlines content) as [|l ls] eqn:El; [done|].
  rewrite convert_loop_rows.
  destruct (convert_rows (l :: ls)) as [|r rs]; simpl.
  - by rewrite sapp_nil_r.
  - done.
Qed.

Lemma keepends_nil s : File.keepends s = [] <-> s = "".
Proof.
  split; [|by intros ->]. destruct s as [|c s]; [done|]. simpl.
  destruct (Char.eqb c "010"); [done|]. by destruct (File.keepends s).
Qed.

Lemma readlines_nil content : File.readlines content = [] <-> content = "".
Proof.
  unfold File.readlines. rewrite keepends_nil.
  split; [|by intros ->]. destruct content as [|c s]; [done|]. simpl.
  destruct (Char.eqb c "013"); [|done].
  destruct s as [|d s]; [done|]. by destruct (Char.eqb d "010").
Qed.

(** C5, as the specification words it, does not hold: a separator that
    reaches the start or the end of a line only through the white space
    around the line is a separator of the line as given, and none of the
    trimmed line that the code cuts.  The line that begins with a separator
    has an empty first segment and is yet written, with a dash in its
    second field; the line that ends with a separator has the second
    segment [b] and is written with [b -]. *)
Lemma separator_at_line_edge :
  List.filter spec_retained [" - a - b"] = []
  /\ convert_rows [" - a - b"] = [("b", "- a")]
  /\ convert_txt_to_csv "in.txt" "out.csv" {["in.txt" := " - a - b" +:+ File.LF]}
     = ((true, None),
        <["out.csv" := "Number,Vehicle Number" +:+ File.CRLF
                         +:+ "b,- a" +:+ File.CRLF]>
          {["in.txt" := " - a - b" +:+ File.LF]})
  /\ spec_retained "a - b - " = true
  /\ spec_row "a - b - " = ("b", "a")
  /\ convert_rows ["a - b - "] = [("b -", "a")].
Proof. repeat split; reflexivity. Qed.

(** C5. The rows written are those of the lines that, once trimmed, are not
    empty, hold the separator and have their first two segments, trimmed,
    not empty, each as (second segment, first segment), in the order of the
    lines; nothing after a second separator enters a row, and the table
    written for a file is the header followed by these rows.  On a line with
    no white space around it this is the wording of the specification.  The
    four lines of the example give two rows, under both wordings, and a file
    with these lines is converted to the header and these two rows. *)
Theorem convert_retained_rows :
  (forall lines,
     convert_rows lines = map trimmed_row (List.filter trimmed_retained lines))
  /\ (forall lines csv_file processed_count,
        convert_loop lines csv_file processed_count =
        (csv_file +:+ rows_text (convert_rows lines),
         processed_count + length (convert_rows lines)))
  /\ (forall txt csv fs content,
        fs !! txt = Some content ->
        let rows :=
          map trimmed_row (List.filter trimmed_retained (File.readlines content)) in
        rows <> [] ->
        convert_txt_to_csv txt csv fs
        = ((true, None),
           <[csv := File.writerow header +:+ rows_text rows]> fs))
  /\ (forall line, Str.strip line = line ->
        line_record line =
        if spec_retained line then Some (spec_row line) else None)
  /\ (forall a b c, no_space a -> a <> "" -> no_space b -> b <> "" ->
        no_space c -> c <> "" ->
        line_record (a +:+ separator +:+ b +:+ separator +:+ c) = Some (b, a))
  /\ convert_rows ["AB12CD0001 - 555 - extra"; ""; "bad line"; "XY99ZZ0002 - 777"]
     = [("555", "AB12CD0001"); ("777", "XY99ZZ0002")]
  /\ map spec_row
       (List.filter spec_retained
          ["AB12CD0001 - 555 - extra"; ""; "bad line"; "XY99ZZ0002 - 777"])
     = [("555", "AB12CD0001"); ("777", "XY99ZZ0002")]
  /\ convert_txt_to_csv "in.txt" "out.csv"
       {["in.txt" := "AB12CD0001 - 555 - extra" +:+ File.LF +:+ File.LF
                       +:+ "bad line" +:+ File.LF +:+ "XY99ZZ0002 - 777"]}
     = ((true, None),
        <["out.csv" := "Number,Vehicle Number" +:+ File.CRLF
                         +:+ "555,AB12CD0001" +:+ File.CRLF
                         +:+ "777,XY99ZZ0002" +:+ File.CRLF]>
          {["in.txt" := "AB12CD0001 - 555 - extra" +:+ File.LF +:+ File.LF
                          +:+ "bad line" +:+ File.LF +:+ "XY99ZZ0002 - 777"]}).
Proof.
  split; [exact convert_rows_spec|].
  split; [exact convert_loop_rows|].
  split.
  { intros txt csv fs content Hin rows Hrows. unfold rows in *.
    rewrite <- convert_rows_spec in *.
    rewrite (convert_txt_to_csv_spec txt csv fs content Hin).
    destruct (File.readlines content) as [|l ls]; [done|].
    by destruct (convert_rows (l :: ls)). }
  split.
  { intros line Hline. rewrite line_record_spec.
    unfold trimmed_retained, trimmed_row, trimmed_segments,
      spec_retained, spec_row, spec_segments.
    by rewrite Hline. }
  split; [|repeat split; reflexivity].
  intros a b c Ha Hane Hb Hbne Hc Hcne. unfold line_record.
  assert (Hstrip : Str.strip (a +:+ separator +:+ b +:+ separator +:+ c)
                   = a +:+ separator +:+ b +:+ separator +:+ c).
  { unfold Str.strip.
    assert (Str.lstrip (a +:+ separator +:+ b +:+ separator +:+ c)
            = a +:+ separator +:+ b +:+ separator +:+ c) as ->.
    { destruct a as [|x a]; [done|]. rewrite sapp_cons. simpl.
      unfold no_space in Ha. simpl in Ha.
      apply andb_true_iff in Ha as [Hx _]. apply negb_true_iff in Hx.
      by rewrite Hx. }
    rewrite <- !sapp_assoc. by rewrite rstrip_app. }
  rewrite Hstrip.
  assert (Str.is_empty (a +:+ separator +:+ b +:+ separator +:+ c) = false) as ->.
  { destruct a; [done|]. by rewrite sapp_cons. }
  rewrite contains_app.
  unfold Str.split_max. rewrite split_go_head, split_go_head by done.
  simpl length. simpl nth.
  rewrite (strip_no_space a), (strip_no_space b) by done.
  destruct a; [done|]. destruct b; [done|]. reflexivity.
Qed.

Lemma convert_retained_rows_witness :
  line_record "AB12CD0001 - 555"
  = (if spec_retained "AB12CD0001 - 555"
     then Some (spec_row "AB12CD0001 - 555") else None)
  /\ line_record ("AB12CD0001" +:+ separator +:+ "555" +:+ separator +:+ "extra")
     = Some ("555", "AB12CD0001").
Proof.
  destruct convert_retained_rows as (_ & _ & _ & Hline & H & _).
  split.
  - apply (Hline "AB12CD0001 - 555"). reflexivity.
  - apply (H "AB12CD0001" "555" "extra"); (reflexivity || discriminate).
Defined.

(** C6. On a source file that is there, [convert_txt_to_csv] fails with the
    empty-file message exactly when the file has no line, which is when it
    has no character, and with the no-valid-data message exactly when it has
    a line and no row was written; the two messages differ, and a file of
    blank lines fails with the second. *)
Theorem convert_failures :
  (forall txt csv fs content,
     fs !! txt = Some content ->
     let result := (convert_txt_to_csv txt csv fs).1 in
     (result = (false, Some msg_empty) <-> File.readlines content = [])
     /\ (File.readlines content = [] <-> content = "")
     /\ (result = (false, Some msg_no_valid) <->
           File.readlines content <> []
           /\ convert_rows (File.readlines content) = []))
  /\ msg_empty <> msg_no_valid
  /\ (convert_txt_to_csv "in.txt" "out.csv"
        {["in.txt" := File.LF +:+ "   " +:+ File.LF +:+ File.CRLF]}).1
     = (false, Some msg_no_valid)
  /\ (convert_txt_to_csv "in.txt" "out.csv" {["in.txt" := ""]})
     = ((false, Some msg_empty), {["in.txt" := ""]}).
Proof.
  split; [|split; [discriminate|split; reflexivity]].
  intros txt csv fs content Hin result. unfold result.
  rewrite (convert_txt_to_csv_spec txt csv fs content Hin).
  split; [|split; [apply readlines_nil|]].
  - destruct (File.readlines content) as [|l ls]; [done|].
    destruct (convert_rows (l :: ls)); simpl; split; discriminate.
  - destruct (File.readlines content) as [|l ls].
    + simpl. split; [discriminate|]. by intros [? _].
    + destruct (convert_rows (l :: ls)) as [|r rs]; simpl.
      * split; [by intros _|done].
      * split; [discriminate|]. intros [_ Hrows]. discriminate Hrows.
Qed.

Lemma convert_failures_witness :
  (convert_txt_to_csv "a.txt" "b.csv" {["a.txt" := "bad line"]}).1
  = (false, Some msg_no_valid).
Proof.
  destruct convert_failures as (H & _).
  destruct (H "a.txt" "b.csv" {["a.txt" := "bad line"]} "bad line") as (_ & _ & H3);
    [reflexivity|].
  apply H3. split; [discriminate | reflexivity].
Defined.

End Conversion.

(** * From generation to conversion *)

Section RoundTrip.

Lemma line_record_simple a b :
  no_space a -> a <> "" -> no_space b -> b <> "" ->
  line_record (record_line b a) = Some (b, a).
Proof.
  intros Ha Hane Hb Hbne. unfold line_record, record_line.
  rewrite strip_record by done.
  assert (Str.is_empty (a +:+ separator +:+ b) = false) as ->.
  { destruct a; [done|]. by rewrite sapp_cons. }
  rewrite contains_app. unfold Str.split_max.
  rewrite split_go_head, split_go_whole by done.
  simpl length. simpl nth.
  rewrite (strip_no_space a), (strip_no_space b) by done.
  destruct a; [done|]. destruct b; [done|]. reflexivity.
Qed.

Lemma range_elem a b n : n ∈ Num.range a b -> (a <= n < b)%N.
Proof.
  intros [i Hi]%list_elem_of_lookup.
  pose proof (lookup_lt_Some _ _ _ Hi) as Hlt. rewrite range_length in Hlt.
  rewrite range_lookup in Hi by done. injection Hi as <-. lia.
Qed.

Lemma isdigit_nonempty s : Str.isdigit s = true -> s <> "".
Proof. by destruct s. Qed.

Lemma identifier_plain fl sn tl sd ed x :
  letter_pair fl -> digit_pair sn -> letter_pair tl -> digit_quad ed ->
  x ∈ vehicle_numbers fl sn tl sd ed -> no_space x /\ x <> "".
Proof.
  intros [Lfl Hfl] [Lsn Hsn] [Ltl Htl] Hed.
  rewrite vehicle_numbers_eq. intros (n & -> & Hn)%list_elem_of_fmap.
  apply range_elem in Hn. pose proof (int_quad_lt ed Hed) as Hlt.
  destruct (format_04d_small n) as (_ & Hdig & _); [lia|].
  split.
  - apply no_space_app; [|by apply isdigit_no_space].
    apply no_space_app; [by apply no_space_upper, isalpha_no_space|].
    apply no_space_app; [by apply isdigit_no_space|].
    by apply no_space_upper, isalpha_no_space.
  - destruct fl; [discriminate Lfl|].
    simpl Str.upper. rewrite !sapp_cons. discriminate.
Qed.

Lemma convert_rows_records d ids :
  no_space d -> d <> "" -> Forall (fun x => no_space x /\ x <> "") ids ->
  convert_rows (record_line d <$> ids) = (fun x => (d, x)) <$> ids.
Proof.
  intros Hd Hdne. induction 1 as [|x ids [Hx Hxne] _ IH]; [done|].
  rewrite !fmap_cons, convert_rows_cons, line_record_simple by done.
  by rewrite IH.
Qed.

Lemma rstrip_lf s : Str.rstrip (s +:+ File.LF) = Str.rstrip s.
Proof.
  induction s as [|c s IH]; [reflexivity|].
  rewrite sapp_cons. simpl. by rewrite IH.
Qed.

Lemma strip_lf s : Str.strip (s +:+ File.LF) = Str.strip s.
Proof.
  unfold Str.strip. induction s as [|c s IH]; [reflexivity|].
  rewrite sapp_cons. simpl. destruct (Char.isspace c); [done|].
  rewrite <- sapp_cons. apply rstrip_lf.
Qed.

Lemma line_record_lf line : line_record (line +:+ File.LF) = line_record line.
Proof. unfold line_record. by rewrite strip_lf. Qed.

Lemma convert_rows_lf lines :
  convert_rows ((fun l => l +:+ File.LF) <$> lines) = convert_rows lines.
Proof.
  induction lines as [|l lines IH]; [done|].
  by rewrite fmap_cons, !convert_rows_cons, line_record_lf, IH.
Qed.

Lemma write_lines_go lines content :
  fold_left (fun content x => content +:+ x +:+ File.LF) lines content =
  content +:+ fold_right (fun x text => x +:+ File.LF +:+ text) "" lines.
Proof.
  revert content. induction lines as [|l lines IH]; intros content; simpl.
  - by rewrite sapp_nil_r.
  - by rewrite IH, !sapp_assoc.
Qed.

Lemma universal_newlines_line l rest :
  one_line l ->
  File.universal_newlines (l +:+ File.LF +:+ rest) =
  l +:+ File.LF +:+ File.universal_newlines rest.
Proof.
  unfold one_line. induction l as [|c l IH]; intros Hl; [reflexivity|].
  simpl in Hl. apply andb_true_iff in Hl as [[Hc _]%andb_true_iff Hl].
  rewrite !sapp_cons. simpl. apply negb_true_iff in Hc. rewrite Hc.
  by rewrite (IH Hl).
Qed.

Lemma keepends_line l rest :
  one_line l ->
  File.keepends (l +:+ File.LF +:+ rest) = (l +:+ File.LF) :: File.keepends rest.
Proof.
  unfold one_line. induction l as [|c l IH]; intros Hl; [reflexivity|].
  simpl in Hl. apply andb_true_iff in Hl as [[_ Hc]%andb_true_iff Hl].
  rewrite !sapp_cons. simpl. apply negb_true_iff in Hc. rewrite Hc.
  by rewrite (IH Hl).
Qed.

(** Reading back what [write_lines] wrote gives the lines, terminated. *)
Lemma readlines_write_lines lines :
  Forall one_line lines ->
  File.readlines (File.write_lines lines) = (fun l => l +:+ File.LF) <$> lines.
Proof.
  unfold File.readlines, File.write_lines. rewrite write_lines_go, sapp_nil_l.
  induction 1 as [|l lines Hl _ IH]; [reflexivity|]. simpl.
  by rewrite universal_newlines_line, keepends_line, IH.
Qed.

Lemma no_space_one_line s : no_space s -> one_line s.
Proof.
  unfold no_space, one_line. apply all_impl. intros c. char_cases c.
Qed.

Lemma record_line_one_line d x : no_space d -> no_space x -> one_line (record_line d x).
Proof.
  intros Hd%no_space_one_line Hx%no_space_one_line.
  unfold one_line, record_line in *. by rewrite !all_app, Hd, Hx.
Qed.

(** C7. For valid fields with start not above end and a non-empty string
    of digits [d], the lines made of each generated identifier, the
    separator and [d] are converted to one row per identifier, in the same
    order, with the identifier in the second column; a file holding these
    lines is converted with success to the header and these rows. *)
Theorem round_trip fl sn tl sd ed d :
  letter_pair fl -> digit_pair sn -> letter_pair tl ->
  digit_quad sd -> digit_quad ed -> (Num.int sd <= Num.int ed)%N ->
  Str.isdigit d = true ->
  let ids := vehicle_numbers fl sn tl sd ed in
  let lines := record_line d <$> ids in
  convert_rows lines = (fun x => (d, x)) <$> ids
  /\ length (convert_rows lines) = N.to_nat (Num.int ed - Num.int sd + 1)
  /\ (forall i x, ids !! i = Some x -> convert_rows lines !! i = Some (d, x))
  /\ (forall txt csv fs,
        fs !! txt = Some (File.write_lines lines) ->
        convert_txt_to_csv txt csv fs =
        ((true, None),
         <[csv := File.writerow header
                    +:+ rows_text ((fun x => (d, x)) <$> ids)]> fs)).
Proof.
  intros Hfl Hsn Htl Hsd Hed Hle Hd ids lines.
  assert (Hids : Forall (fun x => no_space x /\ x <> "") ids).
  { apply Forall_forall. intros x Hx.
    by apply (identifier_plain fl sn tl sd ed x). }
  assert (Hrows : convert_rows lines = (fun x => (d, x)) <$> ids).
  { apply convert_rows_records; [by apply isdigit_no_space| |done].
    by apply isdigit_nonempty. }
  assert (Hlen : length ids = N.to_nat (Num.int ed - Num.int sd + 1))
    by by apply vehicle_numbers_length.
  split; [done|]. split; [by rewrite Hrows, length_fmap|]. split.
  - intros i x Hx. by rewrite Hrows, list_lookup_fmap, Hx.
  - intros txt csv fs Hin.
    rewrite (convert_txt_to_csv_spec txt csv fs _ Hin).
    rewrite readlines_write_lines.
    + rewrite convert_rows_lf, Hrows. unfold lines.
      destruct ids as [|x ids']; [simpl in Hlen; lia|]. done.
    + unfold lines. apply Forall_fmap. eapply Forall_impl; [exact Hids|].
      intros x [Hx _]. simpl.
      by apply record_line_one_line; [apply isdigit_no_space|].
Qed.

Lemma round_trip_witness :
  convert_rows (record_line "7389247318"
                  <$> vehicle_numbers "cg" "13" "aa" "0010" "0012")
  = [("7389247318", "CG13AA0010"); ("7389247318", "CG13AA0011");
     ("7389247318", "CG13AA0012")].
Proof.
  assert (Hfl : letter_pair "cg") by (split; reflexivity).
  assert (Hsn : digit_pair "13") by (split; reflexivity).
  assert (Htl : letter_pair "aa") by (split; reflexivity).
  assert (Hsd : digit_quad "0010") by (split; reflexivity).
  assert (Hed : digit_quad "0012") by (split; reflexivity).
  assert (Hle : (Num.int "0010" <= Num.int "0012")%N) by (vm_compute; discriminate).
  assert (Hd : Str.isdigit "7389247318" = true) by reflexivity.
  destruct (round_trip "cg" "13" "aa" "0010" "0012" "7389247318"
              Hfl Hsn Htl Hsd Hed Hle Hd) as (Hrows & _).
  exact Hrows.
Defined.

End RoundTrip.

(** * The files of the generators *)

Section GeneratedFiles.

Lemma write_lines_text lines : File.write_lines lines = lines_text lines.
Proof.
  unfold File.write_lines. rewrite write_lines_go, sapp_nil_l.
  induction lines as [|l lines IH]; [reflexivity|]. simpl. by rewrite IH.
Qed.

Lemma readlines_lines_text lines :
  Forall one_line lines ->
  File.readlines (lines_text lines) = (fun l => l +:+ File.LF) <$> lines.
Proof. intros H. rewrite <- write_lines_text. by apply readlines_write_lines. Qed.

Lemma identifiers_one_line fl sn tl sd ed :
  letter_pair fl -> digit_pair sn -> letter_pair tl -> digit_quad ed ->
  Forall one_line (vehicle_numbers fl sn tl sd ed).
Proof.
  intros Hfl Hsn Htl Hed. apply Forall_forall. intros x Hx.
  apply no_space_one_line.
  by destruct (identifier_plain fl sn tl sd ed x Hfl Hsn Htl Hed Hx).
Qed.

(** C1. For valid fields with start not above end, [generate_vehicle_numbers]
    succeeds and saves [end - start + 1] identifiers: the file holds each
    identifier followed by a line feed and nothing else, and reads back as
    these lines.  The identifier of index [i] is the upper-cased prefix, the
    code, the upper-cased series and the number [start + i] on four digits,
    so the numeric suffixes increase strictly along the sequence. *)
Theorem generate_single_sequence fl sn tl sd ed fs :
  letter_pair fl -> digit_pair sn -> letter_pair tl ->
  digit_quad sd -> digit_quad ed -> (Num.int sd <= Num.int ed)%N ->
  let stem := Str.upper fl +:+ sn +:+ Str.upper tl in
  let ids := vehicle_numbers fl sn tl sd ed in
  generate_vehicle_numbers fl sn tl sd ed fs =
    ((Some ("vehicle_numbers_" +:+ Str.upper fl +:+ sn +:+ Str.upper tl +:+ ".txt"),
      None),
     <["vehicle_numbers_" +:+ Str.upper fl +:+ sn +:+ Str.upper tl +:+ ".txt"
       := lines_text ids]> fs)
  /\ File.readlines (lines_text ids) = (fun x => x +:+ File.LF) <$> ids
  /\ length ids = N.to_nat (Num.int ed - Num.int sd + 1)
  /\ (forall i, i < length ids ->
        let n := (Num.int sd + N.of_nat i)%N in
        ids !! i = Some (stem +:+ Num.format_04d n)
        /\ Str.len (Num.format_04d n) = 4
        /\ Str.isdigit (Num.format_04d n) = true
        /\ Num.int (Num.format_04d n) = n
        /\ numeric_suffix (stem +:+ Num.format_04d n) = n)
  /\ (forall i j x y, ids !! i = Some x -> ids !! j = Some y -> i < j ->
        (numeric_suffix x < numeric_suffix y)%N).
Proof.
  intros Hfl Hsn Htl Hsd Hed Hle stem ids.
  assert (Hlen : length ids = N.to_nat (Num.int ed - Num.int sd + 1))
    by by apply vehicle_numbers_length.
  assert (Hed' : (Num.int ed < 10000)%N) by by apply int_quad_lt.
  assert (Hsuf : forall i, i < length ids ->
            numeric_suffix (stem +:+ Num.format_04d (Num.int sd + N.of_nat i))
            = (Num.int sd + N.of_nat i)%N).
  { intros i Hi. unfold numeric_suffix.
    rewrite <- (stem_length fl sn tl Hfl Hsn Htl). fold stem.
    rewrite drop_app. apply format_04d_small. lia. }
  split; [rewrite <- write_lines_text; by apply generate_single_success|].
  split; [by apply readlines_lines_text, identifiers_one_line|].
  split; [done|]. split.
  - intros i Hi n.
    destruct (format_04d_small n) as (H1 & H2 & H3); [unfold n; lia|].
    split; [by apply vehicle_numbers_lookup|]. repeat split; try done.
    by apply Hsuf.
  - intros i j x y Hx Hy Hij.
    pose proof (lookup_lt_Some _ _ _ Hx) as Hi.
    pose proof (lookup_lt_Some _ _ _ Hy) as Hj.
    unfold ids in Hx, Hy.
    rewrite vehicle_numbers_lookup in Hx, Hy by done.
    injection Hx as <-. injection Hy as <-. fold stem.
    rewrite !Hsuf by done. lia.
Qed.

Lemma generate_single_sequence_witness :
  let ids := vehicle_numbers "ab" "12" "cd" "0098" "0101" in
  length ids = 4
  /\ ids = ["AB12CD0098"; "AB12CD0099"; "AB12CD0100"; "AB12CD0101"]
  /\ generate_vehicle_numbers "ab" "12" "cd" "0098" "0101" ∅
     = ((Some "vehicle_numbers_AB12CD.txt", None),
        {["vehicle_numbers_AB12CD.txt" :=
            "AB12CD0098" +:+ File.LF +:+ "AB12CD0099" +:+ File.LF
            +:+ "AB12CD0100" +:+ File.LF +:+ "AB12CD0101" +:+ File.LF]})
  /\ File.readlines
       ("AB12CD0098" +:+ File.LF +:+ "AB12CD0099" +:+ File.LF
        +:+ "AB12CD0100" +:+ File.LF +:+ "AB12CD0101" +:+ File.LF)
     = ["AB12CD0098" +:+ File.LF; "AB12CD0099" +:+ File.LF;
        "AB12CD0100" +:+ File.LF; "AB12CD0101" +:+ File.LF].
Proof.
  assert (Hfl : letter_pair "ab") by (split; reflexivity).
  assert (Hsn : digit_pair "12") by (split; reflexivity).
  assert (Htl : letter_pair "cd") by (split; reflexivity).
  assert (Hsd : digit_quad "0098") by (split; reflexivity).
  assert (Hed : digit_quad "0101") by (split; reflexivity).
  assert (Hle : (Num.int "0098" <= Num.int "0101")%N) by (vm_compute; discriminate).
  destruct (generate_single_sequence "ab" "12" "cd" "0098" "0101" ∅
              Hfl Hsn Htl Hsd Hed Hle) as (Hgen & Hread & Hlen & _).
  split; [exact Hlen|]. split; [reflexivity|].
  split; [exact Hgen | exact Hread].
Defined.

(** C3. For valid fields, a non-empty list of letter pairs and start not
    above end, [generate_batch_vehicle_numbers] saves the sequences of
    [generate_vehicle_numbers] for the series one after the other, in the
    order of the list, [(end - start + 1) * len(series_list)] identifiers in
    all: its file holds each of them followed by a line feed and nothing
    else, and reads back as these lines.  For the series CD and EF from 0001
    to 0003 these are the six identifiers of CD and then of EF. *)
Theorem generate_batch_concatenation :
  (forall fl sn sl sd ed fs,
     letter_pair fl -> digit_pair sn -> sl <> [] -> Forall letter_pair sl ->
     digit_quad sd -> digit_quad ed -> (Num.int sd <= Num.int ed)%N ->
     let ids := concat ((fun s => vehicle_numbers fl sn s sd ed) <$> sl) in
     let filename := "vehicle_numbers_batch_" +:+ Str.upper fl +:+ sn +:+ ".txt" in
     generate_batch_vehicle_numbers fl sn sl sd ed fs =
       ((Some filename, None), <[filename := lines_text ids]> fs)
     /\ File.readlines (lines_text ids) = (fun x => x +:+ File.LF) <$> ids
     /\ (forall s, s ∈ sl ->
           let single := "vehicle_numbers_" +:+ Str.upper fl +:+ sn
                           +:+ Str.upper s +:+ ".txt" in
           generate_vehicle_numbers fl sn s sd ed fs =
             ((Some single, None),
              <[single := lines_text (vehicle_numbers fl sn s sd ed)]> fs))
     /\ length ids = N.to_nat (Num.int ed - Num.int sd + 1) * length sl)
  /\ concat ((fun s => vehicle_numbers "AB" "12" s "0001" "0003") <$> ["CD"; "EF"])
     = ["AB12CD0001"; "AB12CD0002"; "AB12CD0003";
        "AB12EF0001"; "AB12EF0002"; "AB12EF0003"]
  /\ generate_batch_vehicle_numbers "AB" "12" ["CD"; "EF"] "0001" "0003" ∅ =
       ((Some "vehicle_numbers_batch_AB12.txt", None),
        <["vehicle_numbers_batch_AB12.txt" :=
            "AB12CD0001" +:+ File.LF +:+ "AB12CD0002" +:+ File.LF
            +:+ "AB12CD0003" +:+ File.LF +:+ "AB12EF0001" +:+ File.LF
            +:+ "AB12EF0002" +:+ File.LF +:+ "AB12EF0003" +:+ File.LF]> ∅).
Proof.
  split; [|split; reflexivity].
  intros fl sn sl sd ed fs Hfl Hsn Hne Hsl Hsd Hed Hle ids filename.
  split; [|split; [|split]].
  - rewrite <- write_lines_text. unfold generate_batch_vehicle_numbers.
    rewrite (letters_ok fl), (digits2_ok sn), (digits4_ok sd), (digits4_ok ed)
      by done.
    destruct sl as [|s0 sl0]; [done|]. cbv iota zeta.
    destruct (N.ltb_spec (Num.int ed) (Num.int sd)); [lia|].
    rewrite batch_loop_ok by done. unfold filename, ids.
    rewrite app_nil_l. do 4 f_equal. apply list_fmap_ext. intros _ s _.
    by rewrite vehicle_numbers_eq.
  - apply readlines_lines_text. unfold ids. apply Forall_concat, Forall_fmap.
    apply Forall_forall. intros s Hs. simpl.
    apply identifiers_one_line; try done. by eapply Forall_forall in Hsl.
  - intros s Hs single. rewrite <- write_lines_text.
    apply generate_single_success; try done.
    by eapply Forall_forall in Hsl.
  - unfold ids.
    rewrite <- (length_fmap (fun s => vehicle_numbers fl sn s sd ed) sl).
    apply concat_length_const.
    apply Forall_fmap, Forall_forall. intros s _. simpl.
    by apply vehicle_numbers_length.
Qed.

Lemma generate_batch_concatenation_witness :
  let ids := concat ((fun s => vehicle_numbers "ab" "12" s "0001" "0003")
                       <$> ["CD"; "EF"]) in
  length ids = 6
  /\ generate_batch_vehicle_numbers "ab" "12" ["CD"; "EF"] "0001" "0003" ∅
     = ((Some "vehicle_numbers_batch_AB12.txt", None),
        {["vehicle_numbers_batch_AB12.txt" :=
            "AB12CD0001" +:+ File.LF +:+ "AB12CD0002" +:+ File.LF
            +:+ "AB12CD0003" +:+ File.LF +:+ "AB12EF0001" +:+ File.LF
            +:+ "AB12EF0002" +:+ File.LF +:+ "AB12EF0003" +:+ File.LF]})
  /\ File.readlines
       ("AB12CD0001" +:+ File.LF +:+ "AB12CD0002" +:+ File.LF
        +:+ "AB12CD0003" +:+ File.LF +:+ "AB12EF0001" +:+ File.LF
        +:+ "AB12EF0002" +:+ File.LF +:+ "AB12EF0003" +:+ File.LF)
     = (fun x => x +:+ File.LF) <$> ids.
Proof.
  assert (Hfl : letter_pair "ab") by (split; reflexivity).
  assert (Hsn : digit_pair "12") by (split; reflexivity).
  assert (Hne : ["CD"; "EF"] <> []) by discriminate.
  assert (Hsl : Forall letter_pair ["CD"; "EF"])
    by (repeat constructor; reflexivity).
  assert (Hsd : digit_quad "0001") by (split; reflexivity).
  assert (Hed : digit_quad "0003") by (split; reflexivity).
  assert (Hle : (Num.int "0001" <= Num.int "0003")%N) by (vm_compute; discriminate).
  destruct generate_batch_concatenation as [H _].
  destruct (H "ab" "12" ["CD"; "EF"] "0001" "0003" ∅ Hfl Hsn Hne Hsl Hsd Hed Hle)
    as (Hgen & Hread & _ & Hlen).
  split; [exact Hlen|]. split; [exact Hgen | exact Hread].
Defined.

End GeneratedFiles.

(** * The series list *)

Section SeriesList.

Lemma valid_series_go tokens acc :
  fold_left
    (fun valid_series series =>
       let series := Str.strip series in
       if (Str.len series =? 2) && Str.isalpha series
       then valid_series ++ [series]
       else valid_series)
    tokens acc
  = acc ++ List.filter is_letter_pair (map Str.strip tokens).
Proof.
  revert acc. induction tokens as [|t tokens IH]; intros acc; simpl.
  - by rewrite app_nil_r.
  - rewrite IH. unfold is_letter_pair at 2.
    destruct ((Str.len (Str.strip t) =? 2) && Str.isalpha (Str.strip t)); [|done].
    by rewrite <- app_assoc.
Qed.

Lemma valid_series_eq text :
  valid_series text = List.filter is_letter_pair (map Str.strip (series_tokens text)).
Proof. unfold valid_series. by rewrite valid_series_go. Qed.

Variable p : ascii -> bool.

Lemma all_lstrip s : Str.all p s = true -> Str.all p (Str.lstrip s) = true.
Proof.
  induction s as [|c s IH]; [done|]. simpl.
  intros [Hc Hs]%andb_true_iff. destruct (Char.isspace c); [auto|].
  simpl. by rewrite Hc, Hs.
Qed.

Lemma all_rstrip s : Str.all p s = true -> Str.all p (Str.rstrip s) = true.
Proof.
  induction s as [|c s IH]; [done|]. simpl.
  intros [Hc Hs]%andb_true_iff. specialize (IH Hs).
  destruct (Str.rstrip s) as [|d r].
  - destruct (Char.isspace c); [done|]. simpl. by rewrite Hc.
  - change (p c && Str.all p (String d r) = true). by rewrite Hc, IH.
Qed.

Lemma all_strip s : Str.all p s = true -> Str.all p (Str.strip s) = true.
Proof. intros Hs. by apply all_rstrip, all_lstrip. Qed.

Lemma all_split_go sep s : forall k skip,
  Str.all p s = true ->
  Forall (fun x => Str.all p x = true) (Str.split_go sep k skip s).
Proof.
  induction s as [|c s IH]; intros k skip Hs; [by repeat constructor|].
  pose proof Hs as Hcs. simpl in Hs. apply andb_true_iff in Hs as [Hc Hs].
  simpl. destruct skip as [|j]; [|by apply IH].
  destruct k as [|k]; [by repeat constructor|].
  destruct (Str.startswith sep (String c s)).
  - constructor; [done|]. by apply IH.
  - specialize (IH (S k) 0 Hs).
    destruct (Str.split_go sep (S k) 0 s) as [|seg segs].
    + repeat constructor. simpl. by rewrite Hc.
    + inversion IH as [|? ? Hseg Hsegs]; subst. constructor; [|done].
      simpl. by rewrite Hc, Hseg.
Qed.

Lemma all_rev_app a b :
  Str.all p (String.rev_app a b) = Str.all p a && Str.all p b.
Proof.
  revert b. induction a as [|c a IH]; intros b; [done|]. simpl.
  rewrite IH. simpl. by destruct (p c), (Str.all p a), (Str.all p b).
Qed.

Lemma all_split_ws_go s : forall cur,
  Str.all p s = true -> Str.all p (default "" cur) = true ->
  Forall (fun x => Str.all p x = true) (Str.split_ws_go cur s).
Proof.
  induction s as [|c s IH]; intros cur Hs Hcur; simpl.
  - destruct cur as [w|]; [|constructor]. repeat constructor.
    unfold String.rev. rewrite all_rev_app. simpl in Hcur. by rewrite Hcur.
  - simpl in Hs. apply andb_true_iff in Hs as [Hc Hs].
    destruct (Char.isspace c).
    + destruct cur as [w|]; [|by apply IH]. constructor; [|by apply IH].
      unfold String.rev. rewrite all_rev_app. simpl in Hcur. by rewrite Hcur.
    + apply IH; [done|]. simpl. by rewrite Hc, Hcur.
Qed.

End SeriesList.

Lemma series_tokens_not_lower text :
  Forall (fun x => Str.all (fun c => negb (Char.is_lower c)) x = true)
         (map Str.strip (series_tokens text)).
Proof.
  assert (Hup : Str.all (fun c => negb (Char.is_lower c)) (Str.upper text) = true).
  { induction text as [|c s IH]; [done|]. simpl.
    by rewrite upper_not_lower, IH. }
  unfold series_tokens. destruct (Str.contains "," (Str.upper text)).
  - rewrite map_map. apply Forall_map.
    eapply Forall_impl; [by apply all_split_go|].
    intros x Hx. simpl. by apply all_strip, all_strip.
  - apply Forall_map. eapply Forall_impl; [by apply all_split_ws_go|].
    intros x Hx. simpl. by apply all_strip.
Qed.

Lemma letter_pair_upper s :
  is_letter_pair s = true ->
  Str.all (fun c => negb (Char.is_lower c)) s = true ->
  Str.len s = 2 /\ Str.all Char.is_upper s = true.
Proof.
  unfold is_letter_pair, Str.isalpha.
  intros [Hlen [_ Halpha]%andb_true_iff]%andb_true_iff Hnl.
  apply Nat.eqb_eq in Hlen. split; [done|]. clear Hlen.
  induction s as [|c s IH]; [done|]. simpl in *.
  apply andb_true_iff in Halpha as [Hc Hs].
  apply andb_true_iff in Hnl as [Hl Hnl]. apply negb_true_iff in Hl.
  by rewrite (alpha_not_lower_upper c Hc Hl), IH.
Qed.

(** C4, as the code has it.  The text is upper-cased and cut at the commas
    when it holds one, at whitespace otherwise; the tokens that, trimmed,
    are two letters are kept in their order, every occurrence of them, and
    the others are dropped.  The step refuses the input, leaving the
    dictionary as it was, exactly when nothing is kept; otherwise it stores
    the list and moves to the next step. *)
Theorem series_list_normalization :
  (forall text,
     valid_series text =
     List.filter is_letter_pair (map Str.strip (series_tokens text)))
  /\ (forall text s, In s (valid_series text) ->
        Str.len s = 2 /\ Str.all Char.is_upper s = true)
  /\ (forall text w, valid_series text = [] ->
        handle_batch_generation text (Some (VStr "series_list")) w =
        reply_text (InvalidInput "series_list") w)
  /\ (forall text w, valid_series text <> [] ->
        user_data (run (handle_batch_generation text (Some (VStr "series_list"))) w)
        = <["step" := VStr "start_digits"]>
            (<["series_list" := VList (valid_series text)]> (user_data w)))
  /\ valid_series "cd, x1 ,EF,abc,cd" = ["CD"; "EF"; "CD"]
  /\ valid_series "gh  ij gh" = ["GH"; "IJ"; "GH"].
Proof.
  split; [exact valid_series_eq|]. split; [|split; [|split; [|split; reflexivity]]].
  - intros text s. rewrite valid_series_eq. intros [Hin Hpair]%filter_In.
    apply letter_pair_upper; [done|].
    pose proof (series_tokens_not_lower text) as Hall.
    rewrite Forall_forall in Hall. by apply Hall, list_elem_of_In.
  - intros text w Hnil. unfold handle_batch_generation. simpl.
    by rewrite Hnil.
  - intros text w Hne. unfold handle_batch_generation, run. simpl.
    destruct (valid_series text) as [|s l]; [done|].
    unfold mbind, M_bind, set, reply_text, api. simpl.
    by destruct (hd Delivered (net w)).
Qed.

Lemma series_list_normalization_witness :
  Str.len "CD" = 2 /\ Str.all Char.is_upper "CD" = true.
Proof.
  destruct series_list_normalization as (_ & H & _).
  apply (H "cd,cd" "CD"). vm_compute. left. reflexivity.
Defined.

(** C4, the counterexample: the same series entered twice is kept twice, in
    the list computed and in the list the step stores. *)
Lemma series_duplicate_kept :
  valid_series "CD,CD" = ["CD"; "CD"]
  /\ valid_series "CD,CD" <> ["CD"]
  /\ user_data (run (handle_batch_generation "CD,CD" (Some (VStr "series_list")))
                    (World ∅ ∅ [] []))
       !! "series_list" = Some (VList ["CD"; "CD"]).
Proof. split; [reflexivity|]. split; [discriminate|reflexivity]. Qed.

(** * Cancelling *)


Section Cancel.

Lemma cancel_command_world w :
  fs (run cancel_command w) = fs w
  /\ user_data (run cancel_command w) = ∅
  /\ removals_of (trace (run cancel_command w)) = removals_of (trace w).
Proof.
  unfold run, cancel_command, clear, reply_text, api, mbind, M_bind. simpl.
  destruct (hd Delivered (net w)); simpl;
    unfold removals_of; by rewrite List.filter_app, app_nil_r.
Qed.

Lemma start_after_cancel w :
  user_data (run start_command (run cancel_command w))
    = <["step" := VStr "first_letters"]> (<["mode" := VStr "single"]> ∅)
  /\ user_data (run batch_command (run cancel_command w))
    = <["step" := VStr "first_letters"]> (<["mode" := VStr "batch"]> ∅)
  /\ user_data (run txt2csv_command (run cancel_command w))
    = <["step" := VStr "waiting_file"]> (<["mode" := VStr "txt2csv"]> ∅).
Proof.
  unfold run, start_command, batch_command, txt2csv_command, cancel_command,
    clear, set, reply_text, api, mbind, M_bind. simpl.
  destruct (hd Delivered (net w)); simpl;
    by destruct (hd Delivered (tl (net w))).
Qed.

(** C8, the code at the failing input.  [/cancel] clears the dictionary,
    and a command that follows starts its conversation at its first step
    with no field, but it removes no file: after an upload has been
    converted, the downloaded text and the converted table both stay when
    [/cancel] arrives, at the choice of a name and at the entry of a new
    name alike, where the cancel button of the same step removes both. *)
Theorem cancel_command_keeps_files :
  (forall w,
     fs (run cancel_command w) = fs w
     /\ user_data (run cancel_command w) = ∅
     /\ removals_of (trace (run cancel_command w)) = removals_of (trace w))
  /\ user_data uploaded !! "step" = Some (VStr "ask_rename")
  /\ user_data uploaded !! "csv_file_path" = Some (VStr "converted_F1.csv")
  /\ user_data uploaded !! "txt_file_path" = Some (VStr "temp_F1.txt")
  /\ fs (run cancel_command uploaded) !! "converted_F1.csv"
     = Some ("Number,Vehicle Number" +:+ File.CRLF
               +:+ "7389247318,CG13AA0010" +:+ File.CRLF)
  /\ fs (run cancel_command uploaded) !! "temp_F1.txt"
     = Some ("CG13AA0010 - 7389247318" +:+ File.LF)
  /\ user_data (run cancel_command uploaded) = ∅
  /\ fs (run (button_callback "csv_cancel") uploaded) = ∅
  /\ fs (run (button_callback "csv_rename";; cancel_command) uploaded)
     = fs uploaded
  /\ (forall w,
        user_data (run start_command (run cancel_command w))
          = <["step" := VStr "first_letters"]> (<["mode" := VStr "single"]> ∅)
        /\ user_data (run batch_command (run cancel_command w))
          = <["step" := VStr "first_letters"]> (<["mode" := VStr "batch"]> ∅)
        /\ user_data (run txt2csv_command (run cancel_command w))
          = <["step" := VStr "waiting_file"]> (<["mode" := VStr "txt2csv"]> ∅)).
Proof.
  split; [exact cancel_command_world|].
  do 8 (split; [vm_compute; reflexivity|]). exact start_after_cancel.
Qed.

End Cancel.

(** * Delivery *)

Section Delivery.

(** [safe_reply] in full: one attempt, a second one after a pause when the
    first met a transient failure, and no more. *)
Lemma safe_reply_cases message files data outcomes t :
  safe_reply message (World files data outcomes t) =
  match outcomes with
  | [] =>
      (Ret true, World files data [] (t ++ [Api (ReplyText message) Delivered]))
  | Delivered :: rest =>
      (Ret true, World files data rest (t ++ [Api (ReplyText message) Delivered]))
  | Broken :: rest =>
      (Ret false, World files data rest (t ++ [Api (ReplyText message) Broken]))
  | Transient :: rest =>
      let o := hd Delivered rest in
      (Ret (bool_decide (o = Delivered)),
       World files data (tl rest)
             (t ++ [Api (ReplyText message) Transient; Sleep 1;
                    Api (ReplyText message) o]))
  end.
Proof.
  destruct outcomes as [|[] rest]; try reflexivity.
  destruct rest as [|[] rest];
    unfold safe_reply, safe_reply_with; exec; by rewrite <- ?app_assoc.
Qed.

(** What holds of the three sending loops on the sample conversations: for
    every behaviour of the transport no more than three attempts are made. *)
Lemma delivery_attempts_bound outcomes :
  document_attempts
    (trace (run (button_callback "generate") (before outcomes confirmed_single))) <= 3
  /\ document_attempts
    (trace (run (button_callback "batch_generate") (before outcomes confirmed_batch))) <= 3
  /\ document_attempts
    (trace (run (button_callback "csv_use_default") (before outcomes uploaded))) <= 3.
Proof.
  do 7 (try (destruct outcomes as [|[] outcomes])); vm_compute; lia.
Qed.

(** Three transient failures and a report that goes through: the files are
    removed, once each, and the dictionary is cleared, after pauses of 2. *)
Lemma delivery_exhausted rest :
  run (button_callback "batch_generate")
      (before ([Delivered; Delivered; Transient; Transient; Transient; Delivered]
                 ++ rest) confirmed_batch)
  = World ∅ ∅ rest
      (let content := File.write_lines ["AB12CD0001"; "AB12CD0002";
                                        "AB12EF0001"; "AB12EF0002"] in
       let name := "vehicle_numbers_batch_AB12.txt" in
       [Api Answer Delivered; Api (EditMessageText Generating) Delivered;
        Api (ReplyDocument name content) Transient; Sleep 2;
        Api (ReplyDocument name content) Transient; Sleep 2;
        Api (ReplyDocument name content) Transient;
        Api (EditMessageText (TooLarge 4)) Delivered;
        Removed name])
  /\ run (button_callback "csv_use_default")
      (before ([Delivered; Delivered; Transient; Transient; Transient; Delivered]
                 ++ rest) uploaded)
  = World ∅ ∅ rest
      (let content := "Number,Vehicle Number" +:+ File.CRLF
                        +:+ "7389247318,CG13AA0010" +:+ File.CRLF in
       [Api Answer Delivered; Api (EditMessageText SendingDefault) Delivered;
        Api (ReplyDocument "data.csv" content) Transient; Sleep 2;
        Api (ReplyDocument "data.csv" content) Transient; Sleep 2;
        Api (ReplyDocument "data.csv" content) Transient;
        Api (ReplyText CsvTooLarge) Delivered;
        Removed "temp_F1.txt"; Removed "converted_F1.csv"]).
Proof. split; reflexivity. Qed.

(** A document that goes through at the second attempt, and the message
    after it: the files are removed and the dictionary is cleared. *)
Lemma delivery_success rest :
  run (button_callback "generate")
      (before ([Delivered; Delivered; Transient; Delivered; Delivered] ++ rest)
              confirmed_single)
  = World ∅ ∅ rest
      (let content := File.write_lines ["AB12CD0001"; "AB12CD0002"] in
       let name := "vehicle_numbers_AB12CD.txt" in
       [Api Answer Delivered; Api (EditMessageText Generating) Delivered;
        Api (ReplyDocument name content) Transient; Sleep 2;
        Api (ReplyDocument name content) Delivered;
        Removed name;
        Api (ReplyText (Complete 2)) Delivered]).
Proof. reflexivity. Qed.

(** A failure that is not transient is not tried again. *)
Lemma delivery_no_retry rest :
  document_attempts
    (trace (run (button_callback "generate")
                (before ([Delivered; Delivered; Broken] ++ rest) confirmed_single)))
  = 1.
Proof. reflexivity. Qed.

(** C9, the code at the failing input.  The transport times out at each of
    the three attempts to send the document and again at the message that
    reports the failure: the handler ends there, after three attempts and two
    pauses, with the generated file still in place, no removal made and the
    dictionary as it was before the button.  The same holds of the single
    generation and of the converted table with its downloaded text.  When
    the document goes through and the message after it times out, the file
    is removed and the dictionary stays as it was. *)
Theorem delivery_report_failure_leaks :
  let timeouts := [Delivered; Delivered; Transient; Transient; Transient; Transient] in
  let batch := run (button_callback "batch_generate") (before timeouts confirmed_batch) in
  let single := run (button_callback "generate") (before timeouts confirmed_single) in
  let table := run (button_callback "csv_use_default") (before timeouts uploaded) in
  (document_attempts (trace batch) = 3
   /\ List.filter (fun e => bool_decide (e = Sleep 2)) (trace batch) = [Sleep 2; Sleep 2]
   /\ last (trace batch) = Some (Api (EditMessageText (TooLarge 4)) Transient)
   /\ fs batch !! "vehicle_numbers_batch_AB12.txt"
      = Some (File.write_lines ["AB12CD0001"; "AB12CD0002";
                                "AB12EF0001"; "AB12EF0002"])
   /\ removals_of (trace batch) = []
   /\ user_data batch = user_data confirmed_batch
   /\ user_data batch !! "step" = Some (VStr "confirm"))
  /\ (document_attempts (trace single) = 3
      /\ fs single !! "vehicle_numbers_AB12CD.txt"
         = Some (File.write_lines ["AB12CD0001"; "AB12CD0002"])
      /\ removals_of (trace single) = []
      /\ user_data single = user_data confirmed_single)
  /\ (document_attempts (trace table) = 3
      /\ fs table = fs uploaded
      /\ removals_of (trace table) = []
      /\ user_data table = user_data uploaded)
  /\ (let sent := run (button_callback "batch_generate")
                      (before [Delivered; Delivered; Delivered; Transient]
                              confirmed_batch) in
      document_attempts (trace sent) = 1
      /\ fs sent = ∅
      /\ user_data sent = user_data confirmed_batch).
Proof. repeat split; vm_compute; reflexivity. Qed.

End Delivery.

(** * Conversion that fails after the header *)

Section NotAtomic.

Local Opaque convert_txt_to_csv.

Lemma convert_no_valid txt csv files content :
  files !! txt = Some content ->
  File.readlines content <> [] ->
  convert_rows (File.readlines content) = [] ->
  convert_txt_to_csv txt csv files =
  ((false, Some msg_no_valid), <[csv := File.writerow header]> files).
Proof.
  intros Hin Hlines Hrows. rewrite (convert_txt_to_csv_spec txt csv files content Hin).
  destruct (File.readlines content); [done|]. by rewrite Hrows.
Qed.

Lemma paths_differ id : "temp_" +:+ id +:+ ".txt" <> "converted_" +:+ id +:+ ".csv".
Proof. discriminate. Qed.

(** The handler on a document that is downloaded and holds lines but no
    record, whatever the transport does after the conversion has failed. *)
Lemma handle_document_no_valid doc files dict tail t :
  dict !! "mode" = Some (VStr "txt2csv") ->
  dict !! "step" = Some (VStr "waiting_file") ->
  Str.endswith ".txt" (Str.lower (document_name doc)) = true ->
  (File.getsize (data doc) <= max_size)%N ->
  File.readlines (data doc) <> [] ->
  convert_rows (File.readlines (data doc)) = [] ->
  exists dict' outcomes' t',
    run (handle_document (Some doc))
        (World files dict
           (Delivered :: Delivered :: Delivered :: Delivered :: tail) t)
    = World (delete ("temp_" +:+ file_id doc +:+ ".txt")
               (<["converted_" +:+ file_id doc +:+ ".csv" := File.writerow header]>
                  (<["temp_" +:+ file_id doc +:+ ".txt" := data doc]> files)))
            dict' outcomes'
            (t ++ [Api (ReplyText Downloading) Delivered;
                   Api (GetFile (file_id doc)) Delivered;
                   Api (Download (file_id doc)) Delivered;
                   Api (ReplyText Converting) Delivered;
                   Removed ("temp_" +:+ file_id doc +:+ ".txt")] ++ t')
    /\ removals_of t' = [].
Proof.
  intros Hmode Hstep Hname Hsize Hlines Hrows.
  pose proof (paths_differ (file_id doc)) as Hne.
  unfold run, handle_document.
  unfold mbind at 1, M_bind at 1, get at 1. cbn [fst snd user_data].
  unfold mbind at 1, M_bind at 1, get at 1. cbn [fst snd user_data].
  rewrite Hmode, Hstep, Hname.
  rewrite !bool_decide_eq_true_2 by done. cbn [negb orb].
  rewrite (proj2 (N.ltb_ge _ _) Hsize).
  generalize dependent ("temp_" +:+ file_id doc +:+ ".txt").
  generalize dependent ("converted_" +:+ file_id doc +:+ ".csv").
  intros csv txt Hne.
  exec.
  rewrite (convert_no_valid txt csv _ (data doc)) by (by rewrite ?lookup_insert_eq).
  exec. unfold os_remove, File.remove. exec.
  rewrite lookup_insert_ne, lookup_insert_eq by done.
  exec.
  destruct tail as [|[] tail]; exec;
    try (unfold on_error; exec; destruct tail as [|[] tail]; exec;
         try (unfold os_remove, File.remove; exec; rewrite lookup_delete_eq; exec));
    eexists _, _, _; rewrite <- !app_assoc; simpl; split; reflexivity.
Qed.

(** C10.  When a source with lines gives no row, [convert_txt_to_csv]
    returns the no-valid-data failure and leaves the output file in place,
    holding the header row and nothing else.  The document handler then
    removes the downloaded text and nothing more, whatever happens to its
    messages afterwards: the table with the header alone stays. *)
Theorem conversion_not_atomic :
  (forall txt csv files content,
     files !! txt = Some content ->
     File.readlines content <> [] ->
     convert_rows (File.readlines content) = [] ->
     convert_txt_to_csv txt csv files =
     ((false, Some msg_no_valid), <[csv := File.writerow header]> files))
  /\ File.writerow header = "Number,Vehicle Number" +:+ File.CRLF
  /\ (forall doc files dict tail t,
        dict !! "mode" = Some (VStr "txt2csv") ->
        dict !! "step" = Some (VStr "waiting_file") ->
        Str.endswith ".txt" (Str.lower (document_name doc)) = true ->
        (File.getsize (data doc) <= max_size)%N ->
        File.readlines (data doc) <> [] ->
        convert_rows (File.readlines (data doc)) = [] ->
        let w := run (handle_document (Some doc))
                     (World files dict
                        (Delivered :: Delivered :: Delivered :: Delivered :: tail) t) in
        fs w !! ("converted_" +:+ file_id doc +:+ ".csv") = Some (File.writerow header)
        /\ fs w !! ("temp_" +:+ file_id doc +:+ ".txt") = None
        /\ removals_of (trace w)
           = removals_of t ++ [Removed ("temp_" +:+ file_id doc +:+ ".txt")]).
Proof.
  split; [exact convert_no_valid|]. split; [reflexivity|].
  intros doc files dict tail t Hmode Hstep Hname Hsize Hlines Hrows w.
  destruct (handle_document_no_valid doc files dict tail t
              Hmode Hstep Hname Hsize Hlines Hrows)
    as (dict' & outcomes' & t' & Hw & Ht').
  unfold w. rewrite Hw. cbn [fs trace]. split; [|split].
  - rewrite lookup_delete_ne by apply paths_differ.
    apply lookup_insert_eq.
  - apply lookup_delete_eq.
  - unfold removals_of in *. rewrite !List.filter_app, Ht'. reflexivity.
Qed.

Lemma conversion_not_atomic_witness :
  let w := run (handle_document (Some (Document "F2" (Some "notes.TXT") "bad line")))
               (World ∅
                  (<["step" := VStr "waiting_file"]> (<["mode" := VStr "txt2csv"]> ∅))
                  [Delivered; Delivered; Delivered; Delivered] []) in
  fs w !! "converted_F2.csv" = Some (File.writerow header)
  /\ fs w !! "temp_F2.txt" = None.
Proof.
  destruct conversion_not_atomic as (_ & _ & H).
  assert (Hmode : (<["step" := VStr "waiting_file"]> (<["mode" := VStr "txt2csv"]> ∅)
                     : gmap string value) !! "mode" = Some (VStr "txt2csv"))
    by reflexivity.
  assert (Hstep : (<["step" := VStr "waiting_file"]> (<["mode" := VStr "txt2csv"]> ∅)
                     : gmap string value) !! "step" = Some (VStr "waiting_file"))
    by reflexivity.
  assert (Hname : Str.endswith ".txt"
                    (Str.lower (document_name (Document "F2" (Some "notes.TXT") "bad line")))
                  = true) by reflexivity.
  assert (Hsize : (File.getsize (data (Document "F2" (Some "notes.TXT") "bad line"))
                   <= max_size)%N) by (vm_compute; discriminate).
  assert (Hlines : File.readlines (data (Document "F2" (Some "notes.TXT") "bad line"))
                   <> []) by discriminate.
  assert (Hrows : convert_rows
                    (File.readlines (data (Document "F2" (Some "notes.TXT") "bad line")))
                  = []) by reflexivity.
  destruct (H (Document "F2" (Some "notes.TXT") "bad line") ∅ _ [] []
              Hmode Hstep Hname Hsize Hlines Hrows) as (Hcsv & Htxt & _).
  split; [exact Hcsv | exact Htxt].
Defined.

End NotAtomic.

(** * Further properties of the generators *)

Section GeneratorsMore.

Lemma not_letters_false n s :
  not_letters n s = false <-> Str.len s = n /\ Str.isalpha s = true.
Proof.
  unfold not_letters. rewrite orb_false_iff, !negb_false_iff, Nat.eqb_eq. done.
Qed.

Lemma not_digits_false n s :
  not_digits n s = false <-> Str.len s = n /\ Str.isdigit s = true.
Proof.
  unfold not_digits. rewrite orb_false_iff, !negb_false_iff, Nat.eqb_eq. done.
Qed.

(** X1. On fields of ASCII text, whatever field is wrong, the single
    generator answers with one of its six messages and no file name, and
    writes nothing. *)
Theorem generate_single_rejects fl sn tl sd ed fs :
  ascii_text fl -> ascii_text sn -> ascii_text tl ->
  ascii_text sd -> ascii_text ed ->
  ~ single_valid fl sn tl sd ed ->
  exists error,
    generate_vehicle_numbers fl sn tl sd ed fs = ((None, Some error), fs)
    /\ In error single_errors.
Proof.
  intros _ _ _ _ _ Hbad. unfold generate_vehicle_numbers, single_errors.
  destruct (not_letters 2 fl) eqn:H1; [eexists; split; [done|simpl; tauto]|].
  destruct (not_digits 2 sn) eqn:H2; [eexists; split; [done|simpl; tauto]|].
  destruct (not_letters 2 tl) eqn:H3; [eexists; split; [done|simpl; tauto]|].
  destruct (not_digits 4 sd) eqn:H4; [eexists; split; [done|simpl; tauto]|].
  destruct (not_digits 4 ed) eqn:H5; [eexists; split; [done|simpl; tauto]|].
  destruct (N.ltb_spec (Num.int ed) (Num.int sd)) as [Hlt|Hle];
    [eexists; split; [done|simpl; tauto]|].
  exfalso. apply Hbad.
  apply not_letters_false in H1, H3. apply not_digits_false in H2, H4, H5.
  unfold single_valid, letter_pair, digit_pair, digit_quad. tauto.
Qed.

Lemma generate_single_rejects_witness :
  exists error,
    generate_vehicle_numbers "A1" "12" "CD" "0001" "0002" ∅ = ((None, Some error), ∅)
    /\ In error single_errors.
Proof.
  apply (generate_single_rejects "A1" "12" "CD" "0001" "0002" ∅);
    try reflexivity.
  intros [[_ H] _]. vm_compute in H. discriminate H.
Defined.

Lemma batch_loop_prefix stem a b l1 rest acc :
  Forall series_ok l1 ->
  batch_loop stem a b (l1 ++ rest) acc =
  batch_loop stem a b rest
    (acc ++ concat ((fun s => (fun n => (stem +:+ normal_series s) +:+ Num.format_04d n)
                                <$> Num.range a (b + 1)) <$> l1)).
Proof.
  intros Hl1. revert acc.
  induction Hl1 as [|s l1 Hs _ IH]; intros acc; simpl.
  - by rewrite app_nil_r.
  - fold (normal_series s). rewrite (letters_ok _ Hs).
    rewrite IH, append_numbers_eq. by rewrite <- app_assoc.
Qed.

(** X2. The batch generator writes all or nothing: with the other fields
    valid, the first series that is not two letters once trimmed and
    upper-cased ends the run with the message that names it, and no file is
    written, whatever series precede or follow it. *)
Theorem generate_batch_invalid_series fl sn l1 s l2 sd ed fs :
  letter_pair fl -> digit_pair sn -> digit_quad sd -> digit_quad ed ->
  (Num.int sd <= Num.int ed)%N ->
  Forall series_ok l1 -> ~ series_ok s ->
  generate_batch_vehicle_numbers fl sn (l1 ++ s :: l2) sd ed fs =
  ((None, Some (msg_invalid_series (normal_series s))), fs).
Proof.
  intros Hfl Hsn Hsd Hed Hle Hl1 Hs. unfold generate_batch_vehicle_numbers.
  rewrite (letters_ok fl), (digits2_ok sn), (digits4_ok sd), (digits4_ok ed)
    by done.
  destruct (l1 ++ s :: l2) as [|x l] eqn:El; [by destruct l1|]. rewrite <- El.
  destruct (N.ltb_spec (Num.int ed) (Num.int sd)); [lia|].
  rewrite batch_loop_prefix by done. simpl. fold (normal_series s).
  destruct (not_letters 2 (normal_series s)) eqn:Hn; [done|].
  exfalso. apply Hs. by apply not_letters_false in Hn.
Qed.

Lemma generate_batch_invalid_series_witness :
  generate_batch_vehicle_numbers "AB" "12" (["cd"; " EF "] ++ "G7" :: ["HI"])
                                 "0001" "0003" ∅
  = ((None, Some (msg_invalid_series "G7")), ∅).
Proof.
  assert (Hfl : letter_pair "AB") by (split; reflexivity).
  assert (Hsn : digit_pair "12") by (split; reflexivity).
  assert (Hsd : digit_quad "0001") by (split; reflexivity).
  assert (Hed : digit_quad "0003") by (split; reflexivity).
  assert (Hle : (Num.int "0001" <= Num.int "0003")%N) by (vm_compute; discriminate).
  assert (Hl1 : Forall series_ok ["cd"; " EF "])
    by (repeat constructor; reflexivity).
  assert (Hs : ~ series_ok "G7").
  { intros [_ H]. vm_compute in H. discriminate H. }
  exact (generate_batch_invalid_series "AB" "12" ["cd"; " EF "] "G7" ["HI"]
           "0001" "0003" ∅ Hfl Hsn Hsd Hed Hle Hl1 Hs).
Defined.

End GeneratorsMore.

(** * Trimming and case *)

Section NormalFacts.

Lemma upper_isspace c : Char.isspace (Char.upper c) = Char.isspace c.
Proof. char_cases c. Qed.

Lemma upper_idem_char c : Char.upper (Char.upper c) = Char.upper c.
Proof. char_cases c. Qed.

Lemma upper_idem s : Str.upper (Str.upper s) = Str.upper s.
Proof. induction s as [|c s IH]; [done|]. simpl. by rewrite upper_idem_char, IH. Qed.

Lemma lstrip_upper s : Str.lstrip (Str.upper s) = Str.upper (Str.lstrip s).
Proof.
  induction s as [|c s IH]; [done|]. simpl. rewrite upper_isspace.
  by destruct (Char.isspace c).
Qed.

Lemma rstrip_upper s : Str.rstrip (Str.upper s) = Str.upper (Str.rstrip s).
Proof.
  induction s as [|c s IH]; [done|]. simpl. rewrite IH, upper_isspace.
  destruct (Str.rstrip s); simpl; [by destruct (Char.isspace c)|done].
Qed.

Lemma strip_upper s : Str.strip (Str.upper s) = Str.upper (Str.strip s).
Proof. unfold Str.strip. by rewrite lstrip_upper, rstrip_upper. Qed.

Lemma rstrip_cons c s :
  Str.rstrip (String c s) =
  match Str.rstrip s with
  | "" => if Char.isspace c then "" else String c ""
  | r => String c r
  end.
Proof. reflexivity. Qed.

Lemma rstrip_idem s : Str.rstrip (Str.rstrip s) = Str.rstrip s.
Proof.
  induction s as [|c s IH]; [done|]. rewrite rstrip_cons.
  destruct (Str.rstrip s) as [|d r] eqn:E.
  - destruct (Char.isspace c) eqn:Hc; [done|]. simpl. by rewrite Hc.
  - by rewrite rstrip_cons, IH.
Qed.

(** A string that does not begin with whitespace. *)
Lemma lstrip_head s :
  match Str.lstrip s with
  | "" => True
  | String c _ => Char.isspace c = false
  end.
Proof.
  induction s as [|c s IH]; [done|]. simpl.
  destruct (Char.isspace c) eqn:Hc; [done|]. done.
Qed.

Lemma lstrip_rstrip_lstrip s :
  Str.lstrip (Str.rstrip (Str.lstrip s)) = Str.rstrip (Str.lstrip s).
Proof.
  pose proof (lstrip_head s) as Hhead.
  destruct (Str.lstrip s) as [|c t]; [done|].
  rewrite rstrip_cons. destruct (Str.rstrip t); rewrite ?Hhead; simpl;
    by rewrite Hhead.
Qed.

Lemma strip_idem s : Str.strip (Str.strip s) = Str.strip s.
Proof.
  unfold Str.strip. by rewrite lstrip_rstrip_lstrip, rstrip_idem.
Qed.

Lemma normal_series_idem s : normal_series (normal_series s) = normal_series s.
Proof.
  unfold normal_series. by rewrite strip_upper, strip_idem, upper_idem.
Qed.

End NormalFacts.

Section GeneratorsMore2.

Lemma batch_loop_normal stem a b sl acc :
  batch_loop stem a b (normal_series <$> sl) acc = batch_loop stem a b sl acc.
Proof.
  revert acc. induction sl as [|s sl IH]; intros acc; [done|].
  rewrite fmap_cons. simpl. fold (normal_series s).
  fold (normal_series (normal_series s)). rewrite normal_series_idem.
  destruct (not_letters 2 (normal_series s)); [done|]. apply IH.
Qed.

(** X3. The batch generator reads each series trimmed and upper-cased:
    called with the series as typed or with the series already trimmed and
    upper-cased, it returns the same result and writes the same file. *)
Theorem generate_batch_normalizes fl sn sl sd ed fs :
  generate_batch_vehicle_numbers fl sn (normal_series <$> sl) sd ed fs =
  generate_batch_vehicle_numbers fl sn sl sd ed fs.
Proof.
  unfold generate_batch_vehicle_numbers.
  destruct (not_letters 2 fl); [done|]. destruct (not_digits 2 sn); [done|].
  destruct (not_digits 4 sd); [done|]. destruct (not_digits 4 ed); [done|].
  destruct sl as [|s sl]; [done|].
  change (normal_series <$> s :: sl)
    with (normal_series s :: (normal_series <$> sl)).
  cbv iota zeta.
  destruct (Num.int ed <? Num.int sd)%N; [done|].
  change (normal_series s :: (normal_series <$> sl))
    with (normal_series <$> s :: sl).
  by rewrite batch_loop_normal.
Qed.

Lemma format_04d_inj n m :
  (n < 10000)%N -> (m < 10000)%N ->
  Num.format_04d n = Num.format_04d m -> n = m.
Proof.
  intros Hn Hm Heq.
  destruct (format_04d_small n Hn) as (_ & _ & <-).
  destruct (format_04d_small m Hm) as (_ & _ & <-). by rewrite Heq.
Qed.

(** X4. For valid fields of ASCII text with start not above end, the
    identifiers of a single generation are pairwise distinct and each has
    exactly ten characters. *)
Theorem identifiers_distinct fl sn tl sd ed :
  ascii_text fl -> ascii_text sn -> ascii_text tl ->
  ascii_text sd -> ascii_text ed ->
  single_valid fl sn tl sd ed ->
  NoDup (vehicle_numbers fl sn tl sd ed)
  /\ Forall (fun x => Str.len x = 10) (vehicle_numbers fl sn tl sd ed).
Proof.
  intros _ _ _ _ _ (Hfl & Hsn & Htl & _ & Hed & _). rewrite vehicle_numbers_eq.
  pose proof (int_quad_lt ed Hed) as Hlt. split.
  - apply NoDup_fmap_2_strong.
    + intros n m Hn%range_elem Hm%range_elem Heq.
      apply (inj (String.app _)) in Heq. apply format_04d_inj; [lia|lia|done].
    + unfold Num.range. apply NoDup_fmap_2; [apply _|apply NoDup_seq].
  - apply Forall_fmap, Forall_forall. intros n Hn%range_elem. simpl.
    rewrite len_app, (stem_length fl sn tl) by done.
    destruct (format_04d_small n) as (-> & _); [lia|done].
Qed.

Lemma identifiers_distinct_witness :
  NoDup (vehicle_numbers "ab" "12" "cd" "0001" "0003")
  /\ Forall (fun x => Str.len x = 10) (vehicle_numbers "ab" "12" "cd" "0001" "0003").
Proof.
  assert (Hfl : letter_pair "ab") by (split; reflexivity).
  assert (Hsn : digit_pair "12") by (split; reflexivity).
  assert (Htl : letter_pair "cd") by (split; reflexivity).
  assert (Hsd : digit_quad "0001") by (split; reflexivity).
  assert (Hed : digit_quad "0003") by (split; reflexivity).
  assert (Hle : (Num.int "0001" <= Num.int "0003")%N)
    by (vm_compute; discriminate).
  assert (Afl : ascii_text "ab") by reflexivity.
  assert (Asn : ascii_text "12") by reflexivity.
  assert (Atl : ascii_text "cd") by reflexivity.
  assert (Asd : ascii_text "0001") by reflexivity.
  assert (Aed : ascii_text "0003") by reflexivity.
  exact (identifiers_distinct "ab" "12" "cd" "0001" "0003"
           Afl Asn Atl Asd Aed
           (conj Hfl (conj Hsn (conj Htl (conj Hsd (conj Hed Hle)))))).
Defined.



(** X6. The name of the file depends on the prefix, the code and the series
    only: a second valid generation with the same three and another range
    replaces what the first one wrote. *)
Theorem generate_same_name_replaces fl sn tl sd ed sd' ed' fs :
  single_valid fl sn tl sd ed -> single_valid fl sn tl sd' ed' ->
  (generate_vehicle_numbers fl sn tl sd' ed'
     (generate_vehicle_numbers fl sn tl sd ed fs).2)
  = generate_vehicle_numbers fl sn tl sd' ed' fs.
Proof.
  intros (Hfl & Hsn & Htl & Hsd & Hed & Hle) (_ & _ & _ & Hsd' & Hed' & Hle').
  rewrite !generate_single_success by done. simpl.
  by rewrite insert_insert_eq.
Qed.

Lemma generate_same_name_replaces_witness :
  (generate_vehicle_numbers "AB" "12" "CD" "0005" "0006"
     (generate_vehicle_numbers "AB" "12" "CD" "0001" "0003" ∅).2).2
    !! "vehicle_numbers_AB12CD.txt"
  = Some (File.write_lines ["AB12CD0005"; "AB12CD0006"]).
Proof.
  assert (H1 : single_valid "AB" "12" "CD" "0001" "0003").
  { repeat split; try reflexivity. vm_compute. discriminate. }
  assert (H2 : single_valid "AB" "12" "CD" "0005" "0006").
  { repeat split; try reflexivity. vm_compute. discriminate. }
  rewrite (generate_same_name_replaces "AB" "12" "CD" "0001" "0003" "0005" "0006" ∅ H1 H2).
  reflexivity.
Defined.

End GeneratorsMore2.

(** * Further properties of the conversion *)

Section ConversionMore.

(** X7. The conversion writes to the output path and nowhere else: every
    other file, the source among them, is as before; when the source is
    missing the call fails with a message and writes nothing, when it has no
    line nothing is written either, and after a success the output file is
    there. *)
Theorem convert_writes_output_only txt csv fs :
  (forall p, p <> csv -> (convert_txt_to_csv txt csv fs).2 !! p = fs !! p)
  /\ (fs !! txt = None ->
      exists error, convert_txt_to_csv txt csv fs = ((false, Some error), fs))
  /\ ((convert_txt_to_csv txt csv fs).1 = (false, Some msg_empty) ->
      (convert_txt_to_csv txt csv fs).2 = fs)
  /\ ((convert_txt_to_csv txt csv fs).1 = (true, None) ->
      is_Some ((convert_txt_to_csv txt csv fs).2 !! csv)).
Proof.
  destruct (fs !! txt) as [content|] eqn:Hin.
  - rewrite (convert_txt_to_csv_spec txt csv fs content Hin).
    destruct (File.readlines content) as [|l ls].
    { repeat split; try done. }
    destruct (convert_rows (l :: ls)) as [|r rs]; simpl.
    + repeat split; try done. intros p Hp. by rewrite lookup_insert_ne.
    + repeat split; try done.
      * intros p Hp. by rewrite lookup_insert_ne.
      * intros _. rewrite lookup_insert_eq. by eexists.
  - unfold convert_txt_to_csv. rewrite Hin. repeat split; try done.
    intros _. by eexists.
Qed.

(** X8. Both fields of a row that is written are non-empty and trimmed. *)
Theorem line_record_fields line phone vehicle :
  line_record line = Some (phone, vehicle) ->
  phone <> "" /\ vehicle <> ""
  /\ Str.strip phone = phone /\ Str.strip vehicle = vehicle.
Proof.
  unfold line_record.
  destruct (Str.is_empty (Str.strip line)); [done|].
  destruct (Str.contains separator (Str.strip line)); [|done].
  destruct (2 <=? length (Str.split_max separator 2 (Str.strip line))); [|done].
  destruct (Str.is_empty (Str.strip (nth 0 _ ""))) eqn:Hv; [done|].
  destruct (Str.is_empty (Str.strip (nth 1 _ ""))) eqn:Hp; [done|].
  simpl. intros [= <- <-]. rewrite !strip_idem.
  repeat split; try done; intros E; by rewrite E in *.
Qed.

Lemma line_record_fields_witness :
  "7389247318" <> "" /\ "CG13AA0010" <> ""
  /\ Str.strip "7389247318" = "7389247318" /\ Str.strip "CG13AA0010" = "CG13AA0010".
Proof.
  apply (line_record_fields ("  CG13AA0010  -  7389247318 " +:+ File.LF)).
  reflexivity.
Defined.

(** Lines as [readlines] gives them. *)

Lemma universal_newlines_cons c s :
  File.universal_newlines (String c s) =
  if Char.eqb c "013"
  then match s with
       | String d s' =>
           if Char.eqb d "010"
           then String "010" (File.universal_newlines s')
           else String "010" (File.universal_newlines s)
       | "" => String "010" ""
       end
  else String c (File.universal_newlines s).
Proof. reflexivity. Qed.

Lemma universal_newlines_no_cr s :
  Str.all (fun c => negb (Char.eqb c "013")) (File.universal_newlines s) = true.
Proof.
  remember (String.length s) as n eqn:Hn.
  revert s Hn. induction (lt_wf n) as [n _ IH]. intros s ->.
  destruct s as [|c s]; [done|]. rewrite universal_newlines_cons.
  destruct (Char.eqb c "013") eqn:Hc.
  - destruct s as [|d s]; [done|].
    destruct (Char.eqb d "010").
    + change (Str.all (fun c => negb (Char.eqb c "013")) (File.universal_newlines s)
              = true).
      apply (IH (String.length s)); [simpl; lia|done].
    + change (Str.all (fun c => negb (Char.eqb c "013"))
                (File.universal_newlines (String d s)) = true).
      apply (IH (String.length (String d s))); [simpl; lia|done].
  - change (negb (Char.eqb c "013")
            && Str.all (fun c => negb (Char.eqb c "013")) (File.universal_newlines s)
            = true).
    rewrite Hc. apply (IH (String.length s)); [simpl; lia|done].
Qed.

Lemma keepends_shape u :
  Str.all (fun c => negb (Char.eqb c "013")) u = true ->
  Forall (fun l => exists b, one_line b /\ (l = b \/ l = b +:+ File.LF))
         (File.keepends u).
Proof.
  unfold one_line. induction u as [|c u IH]; intros Hu; [constructor|].
  simpl in Hu. apply andb_true_iff in Hu as [Hc Hu]. specialize (IH Hu).
  simpl. destruct (Char.eqb c "010") eqn:Hlf.
  - constructor; [|done]. exists "". split; [done|]. right.
    unfold Char.eqb in Hlf. apply Ascii.eqb_eq in Hlf as ->. done.
  - destruct (File.keepends u) as [|l ls].
    + constructor; [|constructor]. exists (String c ""). split; [|by left].
      simpl. by rewrite Hc, Hlf.
    + inversion IH as [|? ? (b & Hb & Hl) Hls]; subst.
      constructor; [|done]. exists (String c b). split.
      * simpl. by rewrite Hc, Hlf, Hb.
      * destruct Hl as [->| ->]; [by left|by right].
Qed.

Lemma readlines_stripped content :
  Forall (fun l => one_line (Str.strip l)) (File.readlines content).
Proof.
  unfold File.readlines.
  eapply Forall_impl; [apply keepends_shape, universal_newlines_no_cr|].
  intros l (b & Hb & [->| ->]); simpl.
  - by apply all_strip.
  - rewrite strip_lf. by apply all_strip.
Qed.

Lemma line_record_one_line line phone vehicle :
  one_line (Str.strip line) ->
  line_record line = Some (phone, vehicle) ->
  one_line phone /\ one_line vehicle.
Proof.
  unfold line_record, one_line. intros Hline.
  destruct (Str.is_empty (Str.strip line)); [done|].
  destruct (Str.contains separator (Str.strip line)); [|done].
  destruct (2 <=? length (Str.split_max separator 2 (Str.strip line))); [|done].
  destruct (_ && _); [|done]. intros [= <- <-].
  pose proof (all_split_go _ separator (Str.strip line) 2 0 Hline) as Hparts.
  rewrite Forall_nth in Hparts.
  assert (Hnth : forall i, Str.all
            (fun c => negb (Char.eqb c "013") && negb (Char.eqb c "010"))
            (nth i (Str.split_max separator 2 (Str.strip line)) "") = true).
  { intros i. unfold Str.split_max.
    destruct (Nat.lt_ge_cases i (length (Str.split_go separator 2 0 (Str.strip line)))).
    - by apply Hparts.
    - by rewrite nth_overflow. }
  split; by apply all_strip.
Qed.

Lemma double_quotes_one_line s : one_line s -> one_line (File.double_quotes s).
Proof.
  unfold one_line. induction s as [|c s IH]; [done|]. simpl.
  intros [Hc Hs]%andb_true_iff.
  destruct (Char.eqb c File.quotechar); simpl; by rewrite ?Hc, IH.
Qed.

Lemma csv_field_one_line s : one_line s -> one_line (File.csv_field s).
Proof.
  intros Hs. unfold File.csv_field.
  destruct (negb _); [|done].
  apply double_quotes_one_line in Hs. unfold one_line in *.
  change (String File.quotechar (File.double_quotes s) +:+ String File.quotechar "")
    with (String File.quotechar (File.double_quotes s +:+ String File.quotechar "")).
  simpl. by rewrite all_app, Hs.
Qed.

Lemma universal_newlines_crlf b rest :
  one_line b ->
  File.universal_newlines (b +:+ File.CRLF +:+ rest) =
  b +:+ File.LF +:+ File.universal_newlines rest.
Proof.
  unfold one_line. induction b as [|c b IH]; intros Hb; [reflexivity|].
  simpl in Hb. apply andb_true_iff in Hb as [[Hc _]%andb_true_iff Hb].
  rewrite !sapp_cons. simpl. apply negb_true_iff in Hc. rewrite Hc.
  by rewrite (IH Hb).
Qed.

Lemma readlines_row b rest :
  one_line b ->
  File.readlines (b +:+ File.CRLF +:+ rest) = (b +:+ File.LF) :: File.readlines rest.
Proof.
  intros Hb. unfold File.readlines.
  by rewrite universal_newlines_crlf, keepends_line.
Qed.

Lemma writerow_pair a b :
  File.writerow [a; b] = (File.csv_field a +:+ "," +:+ File.csv_field b) +:+ File.CRLF.
Proof. reflexivity. Qed.

Lemma readlines_rows_text rows :
  Forall (fun row => one_line row.1 /\ one_line row.2) rows ->
  length (File.readlines (rows_text rows)) = length rows.
Proof.
  induction 1 as [|[a b] rows [Ha Hb] _ IH]; [done|].
  simpl rows_text. rewrite writerow_pair, sapp_assoc, readlines_row.
  - simpl. by rewrite IH.
  - simpl in Ha, Hb. apply csv_field_one_line in Ha, Hb. unfold one_line in *.
    by rewrite !all_app, Ha, Hb.
Qed.

Lemma convert_rows_one_line lines :
  Forall (fun l => one_line (Str.strip l)) lines ->
  Forall (fun row => one_line row.1 /\ one_line row.2) (convert_rows lines).
Proof.
  induction 1 as [|l lines Hl _ IH]; [constructor|].
  rewrite convert_rows_cons.
  destruct (line_record l) as [[phone vehicle]|] eqn:E; [|done].
  constructor; [|done]. by apply (line_record_one_line l).
Qed.

Lemma table_lines content :
  length (File.readlines
            (File.writerow header
             +:+ rows_text (convert_rows (File.readlines content))))
  = S (length (convert_rows (File.readlines content))).
Proof.
  change (File.writerow header) with ("Number,Vehicle Number" +:+ File.CRLF).
  rewrite sapp_assoc, readlines_row by reflexivity. simpl. f_equal.
  apply readlines_rows_text, convert_rows_one_line, readlines_stripped.
Qed.

(** X9. The table written for any source reads back, line by line, as the
    header and one line per record, also when a field holds a comma or a
    quote: the count the document handler takes from the file, its lines
    less one, is the number of records. *)
Theorem converted_file_line_count content :
  let rows := convert_rows (File.readlines content) in
  let table := File.writerow header +:+ rows_text rows in
  length (File.readlines table) = S (length rows)
  /\ (Z.of_nat (length (File.readlines table)) - 1)%Z = Z.of_nat (length rows).
Proof.
  intros rows table.
  assert (H : length (File.readlines table) = S (length rows))
    by apply table_lines.
  split; [done|]. rewrite H. lia.
Qed.

End ConversionMore.

(** * File names *)

Section FileNames.






Lemma replace_go_absent old new s :
  Str.contains old s = false -> Str.replace_go old new 0 s = s.
Proof.
  induction s as [|c s IH]; [done|]. simpl.
  intros [Hstart Hrest]%orb_false_iff. rewrite Hstart. by rewrite IH.
Qed.

End FileNames.

(** * Replies with retries, in any world *)

Section SafeReply.

Lemma safe_reply_loop_frame attempts max_retries message : forall w,
  exists b outcomes' t',
    safe_reply_loop attempts max_retries message w
    = (Ret b, World (fs w) (user_data w) outcomes' (trace w ++ t'))
    /\ length (List.filter is_reply t') <= length attempts
    /\ document_attempts t' = 0
    /\ removals_of t' = []
    /\ (b = true <-> In (Api (ReplyText message) Delivered) t').
Proof.
  induction attempts as [|attempt rest IH]; intros [files dict outcomes t].
  - exists false, outcomes, []. simpl. rewrite app_nil_r.
    repeat split; done.
  - simpl. unfold except_net_any, reply_text, api, mbind, M_bind, mret, M_ret.
    simpl. destruct (hd Delivered outcomes) eqn:Ho.
    + exists true, (tail outcomes), [Api (ReplyText message) Delivered].
      repeat split; try done; simpl; [lia|tauto].
    + destruct (attempt <? max_retries - 1).
      * unfold sleep, log. simpl.
        destruct (IH (World files dict (tail outcomes)
                        ((t ++ [Api (ReplyText message) Transient]) ++ [Sleep 1])))
          as (b & outcomes' & t' & Heq & Hlen & Hdoc & Hrem & Hb).
        rewrite Heq. simpl.
        exists b, outcomes', ([Api (ReplyText message) Transient; Sleep 1] ++ t').
        rewrite <- !app_assoc. simpl. repeat split; try done.
        -- lia.
        -- intros Hb'. right. right. by apply Hb.
        -- intros [H|[H|H]]; [done|done|by apply Hb].
      * exists false, (tail outcomes), [Api (ReplyText message) Transient].
        repeat split; try done; simpl; [lia|]. by intros [|[]].
    + exists false, (tail outcomes), [Api (ReplyText message) Broken].
      repeat split; try done; simpl; [lia|]. by intros [|[]].
Qed.

(** X12. [safe_reply] never raises, whatever the transport does, and
    changes neither the files nor the dictionary; it sends the text at most
    [max_retries] times, and returns [True] exactly when one of its attempts
    was delivered. *)
Theorem safe_reply_never_raises max_retries message w :
  exists b outcomes' t',
    safe_reply_with max_retries message w
    = (Ret b, World (fs w) (user_data w) outcomes' (trace w ++ t'))
    /\ length (List.filter is_reply t') <= max_retries
    /\ document_attempts t' = 0
    /\ removals_of t' = []
    /\ (b = true <-> In (Api (ReplyText message) Delivered) t').
Proof.
  destruct (safe_reply_loop_frame (seq 0 max_retries) max_retries message w)
    as (b & outcomes' & t' & Heq & Hlen & Hdoc & Hrem & Hb).
  exists b, outcomes', t'. rewrite length_seq in Hlen. done.
Qed.

End SafeReply.

(** * Rules for the handlers *)

Section Rules.

Context {A B : Type}.
Implicit Types (P E : assertion).

Lemma triple_ret P (a : A) (Q : A -> assertion) E :
  (forall f d, P f d -> Q a f d) -> triple P (mret a) Q E.
Proof. intros H w Hw. by apply H. Qed.

Lemma triple_raise P (e : exn) (Q : A -> assertion) E :
  (forall f d, P f d -> E f d) -> triple P (raise e) Q E.
Proof. intros H w Hw. by apply H. Qed.

Lemma triple_bind P (m : M A) (R : A -> assertion) (k : A -> M B)
    (Q : B -> assertion) E :
  triple P m R E -> (forall a, triple (R a) (k a) Q E) ->
  triple P (m ≫= k) Q E.
Proof.
  intros Hm Hk w Hw. specialize (Hm w Hw). unfold mbind, M_bind.
  destruct (m w) as [[a|e] w']; [|done]. by apply Hk.
Qed.

Lemma triple_terminal P (m : M A) (Q : A -> assertion) E :
  triple P (m ≫= mret) Q E -> triple P m Q E.
Proof.
  intros H w Hw. specialize (H w Hw). unfold mbind, M_bind in H.
  by destruct (m w) as [[a|e] w'].
Qed.

Lemma triple_conseq P P' (m : M A) (Q Q' : A -> assertion) E E' :
  (forall f d, P' f d -> P f d) ->
  (forall a f d, Q a f d -> Q' a f d) ->
  (forall f d, E f d -> E' f d) ->
  triple P m Q E -> triple P' m Q' E'.
Proof.
  intros HP HQ HE Hm w Hw. specialize (Hm w (HP _ _ Hw)).
  destruct (m w) as [[a|e] w']; auto.
Qed.

Lemma triple_except_any P (m h : M A) (Q : A -> assertion) R E :
  triple P m Q R -> triple R h Q E -> triple P (except_any m h) Q E.
Proof.
  intros Hm Hh w Hw. specialize (Hm w Hw). unfold except_any.
  destruct (m w) as [[a|e] w']; [done|]. by apply Hh.
Qed.

Lemma triple_except_net P (m h : M A) (Q : A -> assertion) R E :
  triple P m Q R -> (forall f d, R f d -> E f d) -> triple R h Q E ->
  triple P (except_net m h) Q E.
Proof.
  intros Hm HRE Hh w Hw. specialize (Hm w Hw). unfold except_net.
  destruct (m w) as [[a|[]] w']; [done|by apply Hh|by apply HRE].
Qed.

End Rules.

Section RulesUnit.

Implicit Types (P E : assertion).

Lemma triple_api P c (Q : unit -> assertion) E :
  (forall f d, P f d -> Q tt f d) -> (forall f d, P f d -> E f d) ->
  triple P (api c) Q E.
Proof.
  intros HQ HE w Hw. unfold api. destruct (hd Delivered (net w)); simpl; auto.
Qed.

Lemma triple_sleep P n (Q : unit -> assertion) E :
  (forall f d, P f d -> Q tt f d) -> triple P (sleep n) Q E.
Proof. intros HQ w Hw. by apply HQ. Qed.

Lemma triple_get P key (Q : option value -> assertion) E :
  (forall f d, P f d -> Q (d !! key) f d) -> triple P (get key) Q E.
Proof. intros HQ w Hw. by apply HQ. Qed.

Lemma triple_set P key v (Q : unit -> assertion) E :
  (forall f d, P f d -> Q tt f (<[key := v]> d)) -> triple P (set key v) Q E.
Proof. intros HQ w Hw. by apply HQ. Qed.

Lemma triple_clear P (Q : unit -> assertion) E :
  (forall f d, P f d -> Q tt f ∅) -> triple P clear Q E.
Proof. intros HQ w Hw. by eapply HQ. Qed.

Lemma triple_get_fs P (Q : gmap string string -> assertion) E :
  (forall f d, P f d -> Q f f d) -> triple P get_fs Q E.
Proof. intros HQ w Hw. by apply HQ. Qed.

Lemma triple_put_fs P f' (Q : unit -> assertion) E :
  (forall f d, P f d -> Q tt f' d) -> triple P (put_fs f') Q E.
Proof. intros HQ w Hw. by eapply HQ. Qed.

Lemma triple_os_remove P path (Q : unit -> assertion) E :
  (forall f d, P f d -> is_Some (f !! path) -> Q tt (delete path f) d) ->
  (forall f d, P f d -> f !! path = None -> E f d) ->
  triple P (os_remove path) Q E.
Proof.
  intros HQ HE w Hw. unfold os_remove, File.remove, mbind, M_bind, get_fs.
  simpl. destruct (fs w !! path) as [content|] eqn:Hin; simpl.
  - unfold put_fs, log. simpl. apply HQ; [done|]. by eexists.
  - by apply HE.
Qed.

Lemma triple_read_file P path (Q : string -> assertion) E :
  (forall f d content, P f d -> f !! path = Some content -> Q content f d) ->
  (forall f d, P f d -> f !! path = None -> E f d) ->
  triple P (read_file path) Q E.
Proof.
  intros HQ HE w Hw. unfold read_file, mbind, M_bind, get_fs. simpl.
  destruct (fs w !! path) as [content|] eqn:Hin; simpl; auto.
Qed.

Lemma triple_as_str P v (Q : string -> assertion) E :
  (forall f d s, P f d -> v = Some (VStr s) -> Q s f d) ->
  (forall f d, P f d -> (forall s, v <> Some (VStr s)) -> E f d) ->
  triple P (as_str v) Q E.
Proof.
  intros HQ HE w Hw. unfold as_str.
  destruct v as [[s| | |]|]; simpl; first [by apply HQ | by apply HE].
Qed.

Lemma triple_attempt P (m : M unit) (Q : unit -> assertion) E :
  triple P m Q (Q tt) -> triple P (attempt m) Q E.
Proof.
  intros Hm. unfold attempt. eapply triple_except_any; [exact Hm|].
  by apply triple_ret.
Qed.

Lemma triple_safe_reply_loop P attempts max_retries message
    (Q : bool -> assertion) E :
  (forall b f d, P f d -> Q b f d) ->
  triple P (safe_reply_loop attempts max_retries message) Q E.
Proof.
  intros HQ w Hw.
  destruct (safe_reply_loop_frame attempts max_retries message w)
    as (b & outcomes' & t' & -> & _). simpl. by apply HQ.
Qed.

Lemma triple_safe_reply P message (Q : bool -> assertion) E :
  (forall b f d, P f d -> Q b f d) -> triple P (safe_reply message) Q E.
Proof. apply triple_safe_reply_loop. Qed.

(** The world a computation leaves satisfies what it guarantees for both
    of its ends. *)
Lemma triple_run {A} P (m : M A) (Q : assertion) w :
  triple P m (fun _ => Q) Q -> P (fs w) (user_data w) ->
  Q (fs (run m w)) (user_data (run m w)).
Proof.
  intros Hm Hw. specialize (Hm w Hw). unfold run.
  by destruct (m w) as [[a|e] w'].
Qed.

End RulesUnit.

(** * Running a handler from known files and a known dictionary *)

Section Running.

Context {B : Type}.
Implicit Types (files : gmap string string) (dict : gmap string value).
Implicit Types (Q : B -> assertion) (E : assertion).

Lemma triple_at {A} (P : assertion) (m : M A) (R : A -> assertion) E :
  (forall files dict, P files dict -> triple (at_world files dict) m R E) ->
  triple P m R E.
Proof. intros H w Hw. by apply (H _ _ Hw w). Qed.

Lemma triple_false {A} (P : assertion) (m : M A) (R : A -> assertion) E :
  (forall f d, ~ P f d) -> triple P m R E.
Proof. intros H w Hw. by destruct (H _ _ Hw). Qed.

Lemma at_ret files dict (b : B) Q E :
  Q b files dict -> triple (at_world files dict) (mret b) Q E.
Proof. intros H. apply triple_ret. by intros f d [-> ->]. Qed.

Lemma at_raise files dict e Q E :
  E files dict -> triple (at_world files dict) (raise e) Q E.
Proof. intros H. apply triple_raise. by intros f d [-> ->]. Qed.

Lemma at_bind {A} files dict (m : M A) (R : A -> assertion) (k : A -> M B) Q E :
  triple (at_world files dict) m R E ->
  (forall a f d, R a f d -> triple (at_world f d) (k a) Q E) ->
  triple (at_world files dict) (m ≫= k) Q E.
Proof.
  intros Hm Hk. eapply triple_bind; [exact Hm|].
  intros a. apply triple_at. intros f d. apply Hk.
Qed.

Lemma at_ret_bind {A} files dict (a : A) (k : A -> M B) Q E :
  triple (at_world files dict) (k a) Q E ->
  triple (at_world files dict) (mret a ≫= k) Q E.
Proof. intros Hk w Hw. exact (Hk w Hw). Qed.

Lemma at_raise_bind {A} files dict e (k : A -> M B) Q E :
  E files dict -> triple (at_world files dict) (raise e ≫= k) Q E.
Proof. intros HE w [Hf Hd]. unfold mbind, M_bind, raise. simpl. by rewrite Hf, Hd. Qed.

Lemma at_get files dict key (k : option value -> M B) Q E :
  triple (at_world files dict) (k (dict !! key)) Q E ->
  triple (at_world files dict) (get key ≫= k) Q E.
Proof.
  intros Hk. eapply at_bind.
  - apply (triple_get _ _ (fun v f d => at_world files dict f d /\ v = dict !! key)).
    by intros f d [-> ->].
  - by intros v f d [[-> ->] ->].
Qed.

Lemma at_set files dict key v (k : unit -> M B) Q E :
  triple (at_world files (<[key := v]> dict)) (k tt) Q E ->
  triple (at_world files dict) (set key v ≫= k) Q E.
Proof.
  intros Hk. eapply at_bind.
  - apply (triple_set _ _ _ (fun _ => at_world files (<[key := v]> dict))).
    by intros f d [-> ->].
  - by intros [] f d [-> ->].
Qed.

Lemma at_clear files dict (k : unit -> M B) Q E :
  triple (at_world files ∅) (k tt) Q E ->
  triple (at_world files dict) (clear ≫= k) Q E.
Proof.
  intros Hk. eapply at_bind.
  - apply (triple_clear _ (fun _ => at_world files ∅)). by intros f d [-> ->].
  - by intros [] f d [-> ->].
Qed.

Lemma at_api files dict c (k : unit -> M B) Q E :
  E files dict ->
  triple (at_world files dict) (k tt) Q E ->
  triple (at_world files dict) (api c ≫= k) Q E.
Proof.
  intros HE Hk. eapply at_bind.
  - apply (triple_api _ _ (fun _ => at_world files dict)); [done|].
    by intros f d [-> ->].
  - by intros [] f d [-> ->].
Qed.

Lemma at_sleep files dict n (k : unit -> M B) Q E :
  triple (at_world files dict) (k tt) Q E ->
  triple (at_world files dict) (sleep n ≫= k) Q E.
Proof.
  intros Hk. eapply at_bind.
  - by apply (triple_sleep _ _ (fun _ => at_world files dict)).
  - by intros [] f d [-> ->].
Qed.

Lemma at_safe_reply files dict message (k : bool -> M B) Q E :
  (forall b, triple (at_world files dict) (k b) Q E) ->
  triple (at_world files dict) (safe_reply message ≫= k) Q E.
Proof.
  intros Hk. eapply at_bind.
  - by apply (triple_safe_reply _ _ (fun _ => at_world files dict)).
  - intros b f d [-> ->]. apply Hk.
Qed.

Lemma at_as_str files dict v (k : string -> M B) Q E :
  (forall s, v = Some (VStr s) -> triple (at_world files dict) (k s) Q E) ->
  ((forall s, v <> Some (VStr s)) -> E files dict) ->
  triple (at_world files dict) (as_str v ≫= k) Q E.
Proof.
  intros Hk HE. eapply at_bind.
  - apply (triple_as_str _ _ (fun s f d => at_world files dict f d /\ v = Some (VStr s))).
    + done.
    + intros f d [-> ->]. apply HE.
  - intros s f d [[-> ->] Hv]. by apply Hk.
Qed.

Lemma at_get_fs files dict (k : gmap string string -> M B) Q E :
  triple (at_world files dict) (k files) Q E ->
  triple (at_world files dict) (get_fs ≫= k) Q E.
Proof.
  intros Hk. eapply at_bind.
  - apply (triple_get_fs _ (fun v f d => at_world files dict f d /\ v = files)).
    by intros f d [-> ->].
  - by intros v f d [[-> ->] ->].
Qed.

Lemma at_put_fs files dict files' (k : unit -> M B) Q E :
  triple (at_world files' dict) (k tt) Q E ->
  triple (at_world files dict) (put_fs files' ≫= k) Q E.
Proof.
  intros Hk. eapply at_bind.
  - apply (triple_put_fs _ _ (fun _ => at_world files' dict)).
    by intros f d [-> ->].
  - by intros [] f d [-> ->].
Qed.

Lemma at_read_file files dict path (k : string -> M B) Q E :
  (forall content, files !! path = Some content ->
     triple (at_world files dict) (k content) Q E) ->
  (files !! path = None -> E files dict) ->
  triple (at_world files dict) (read_file path ≫= k) Q E.
Proof.
  intros Hk HE. eapply at_bind.
  - apply (triple_read_file _ _
             (fun content f d => at_world files dict f d
                                 /\ files !! path = Some content)).
    + by intros f d content [-> ->].
    + intros f d [-> ->]. apply HE.
  - intros content f d [[-> ->] Hin]. by apply Hk.
Qed.

(** [try: os.remove(path) except: pass] leaves no file at the path. *)
Lemma at_attempt_remove files dict path (k : unit -> M B) Q E :
  triple (at_world (delete path files) dict) (k tt) Q E ->
  triple (at_world files dict) (attempt (os_remove path) ≫= k) Q E.
Proof.
  intros Hk. eapply at_bind.
  - apply (triple_attempt _ _ (fun _ => at_world (delete path files) dict)).
    apply triple_os_remove.
    + by intros f d [-> ->] _.
    + intros f d [-> ->] Hnone. split; [|done]. symmetry. by apply delete_id.
  - by intros [] f d [-> ->].
Qed.

Lemma at_guarded_remove files dict path (k : unit -> M B) Q E :
  triple (at_world (delete path files) dict) (k tt) Q E ->
  triple (at_world files dict)
    ((if File.exists_ path files then os_remove path else mret tt) ≫= k) Q E.
Proof.
  intros Hk. unfold File.exists_. case_bool_decide as Hin.
  - eapply at_bind.
    + apply (triple_os_remove _ _ (fun _ => at_world (delete path files) dict)).
      * by intros f d [-> ->] _.
      * intros f d [-> ->] Hnone. rewrite Hnone in Hin. by destruct Hin.
    + by intros [] f d [-> ->].
  - apply at_ret_bind. rewrite delete_id in Hk; [done|].
    by apply eq_None_not_Some.
Qed.

End Running.

Section Loops.

Lemma triple_send_loop (I : assertion) attempts max_retries send exhausted
    (R E : assertion) :
  triple I send (fun _ => I) I ->
  (forall f d, I f d -> E f d) ->
  triple I exhausted (fun _ => R) E ->
  triple I (send_loop attempts max_retries send exhausted)
    (fun f => match f with Next => I | Returned => R end) E.
Proof.
  intros Hsend HIE Hex. induction attempts as [|attempt rest IH]; simpl.
  - by apply triple_ret.
  - apply triple_except_net with (R := I); [|done|].
    + eapply triple_bind; [exact Hsend|]. intros ?. by apply triple_ret.
    + destruct (attempt <? max_retries - 1).
      * eapply triple_bind; [by apply (triple_sleep _ _ (fun _ => I))|].
        intros ?. exact IH.
      * eapply triple_bind; [exact Hex|]. intros ?. by apply triple_ret.
Qed.

Lemma triple_send_document files dict path filename :
  triple (at_world files dict) (send_document path filename)
    (fun _ => at_world files dict) (at_world files dict).
Proof.
  unfold send_document. apply at_read_file; [|done].
  intros content _. by apply triple_api.
Qed.

End Loops.

(** One step of a handler. *)
Ltac step :=
  lazymatch goal with
  | |- triple (at_world _ _) (get _ ≫= _) _ _ => apply at_get
  | |- triple (at_world _ _) (set _ _ ≫= _) _ _ => apply at_set
  | |- triple (at_world _ _) (clear ≫= _) _ _ => apply at_clear
  | |- triple (at_world _ _) (sleep _ ≫= _) _ _ => apply at_sleep
  | |- triple (at_world _ _) (get_fs ≫= _) _ _ => apply at_get_fs
  | |- triple (at_world _ _) (put_fs _ ≫= _) _ _ => apply at_put_fs
  | |- triple (at_world _ _) (safe_reply _ ≫= _) _ _ => apply at_safe_reply; intros ?
  | |- triple (at_world _ _) (api _ ≫= _) _ _ => apply at_api
  | |- triple (at_world _ _) (reply_text _ ≫= _) _ _ => apply at_api
  | |- triple (at_world _ _) (edit_message_text _ ≫= _) _ _ => apply at_api
  | |- triple (at_world _ _) (mret _ ≫= _) _ _ => apply at_ret_bind
  | |- triple (at_world _ _) (raise _ ≫= _) _ _ => apply at_raise_bind
  | |- triple (at_world _ _) (mret _) _ _ => apply at_ret
  | |- triple (at_world _ _) (raise _) _ _ => apply at_raise
  | |- triple (at_world _ _) (set _ _) _ _ =>
      apply triple_set; intros ? ? [-> ->]
  | |- triple (at_world _ _) clear _ _ =>
      apply triple_clear; intros ? ? [-> ->]
  | |- triple (at_world _ _) (api _) _ _ =>
      apply triple_api; intros ? ? [-> ->]
  | |- triple (at_world _ _) (reply_text _) _ _ =>
      apply triple_api; intros ? ? [-> ->]
  | |- triple (at_world _ _) (edit_message_text _) _ _ =>
      apply triple_api; intros ? ? [-> ->]
  end.

(** * Conversations that stay well formed *)

Section Sessions.

Lemma upper_letters text :
  not_letters 2 (Str.upper text) = false -> letter_pair (Str.upper text).
Proof. by intros H%not_letters_false. Qed.

Lemma has_field_insert dict key P k v :
  k <> key -> has_field dict key P -> has_field (<[k := v]> dict) key P.
Proof. intros Hne (s & Hs & HP). exists s. by rewrite lookup_insert_ne. Qed.

Lemma single_index_cases name n :
  single_step_index name = Some n ->
  (name = "first_letters" /\ n = 0) \/ (name = "second_numbers" /\ n = 1)
  \/ (name = "third_letters" /\ n = 2) \/ (name = "start_digits" /\ n = 3)
  \/ (name = "end_digits" /\ n = 4) \/ (name = "confirm" /\ n = 5).
Proof.
  unfold single_step_index.
  destruct (String.eqb_spec name "first_letters") as [->|_]; [intros [= <-]; tauto|].
  destruct (String.eqb_spec name "second_numbers") as [->|_]; [intros [= <-]; tauto|].
  destruct (String.eqb_spec name "third_letters") as [->|_]; [intros [= <-]; tauto|].
  destruct (String.eqb_spec name "start_digits") as [->|_]; [intros [= <-]; tauto|].
  destruct (String.eqb_spec name "end_digits") as [->|_]; [intros [= <-]; tauto|].
  destruct (String.eqb_spec name "confirm") as [->|_]; [intros [= <-]; tauto|].
  discriminate.
Qed.

Ltac field_goal :=
  match goal with
  | |- has_field _ _ _ => eexists; split; [by simplify_map_eq|]; try done
  | |- range_stored _ => eexists _, _; repeat split; [by simplify_map_eq..| |]; try done
  | |- series_stored _ => eexists; split; [by simplify_map_eq|]; try done
  end.

Ltac next_step name n :=
  split; [done|]; split; [by simplify_map_eq|]; exists name, n;
  split; [by simplify_map_eq|]; split; [done|];
  repeat split; intros; try lia;
  first [ field_goal
        | do 2 (apply has_field_insert; [done|]); auto with lia ].

(** What a text message does to the files and the dictionary of a single
    conversation, however the transport behaves. *)
Lemma single_message_triple files text :
  triple (fun f d => f = files /\ single_session d)
         (handle_message text)
         (fun _ f d => f = files /\ single_session d)
         (fun f d => f = files /\ single_session d).
Proof.
  apply triple_at. intros ? dict [-> Hsess].
  pose proof Hsess as (Hmode & name & n & Hstep & Hidx & H1 & H2 & H3 & H4 & H5).
  unfold handle_message.
  destruct text as [text|]; [|by step].
  destruct (Str.is_empty text); [by step|].
  apply triple_except_any with (R := fun f d => f = files /\ single_session d).
  2: { apply triple_attempt. apply triple_at. intros ? d [-> Hd].
       step. by step. }
  step. step. rewrite Hmode, Hstep.
  apply single_index_cases in Hidx as
    [[-> ->]|[[-> ->]|[[-> ->]|[[-> ->]|[[-> ->]|[-> ->]]]]]]; simpl;
    unfold handle_single_generation; simpl.
  - (* first_letters *)
    destruct (not_letters 2 (Str.upper (Str.strip text))) eqn:Hv.
    + step. by step.
    + apply upper_letters in Hv. do 3 step. step.
      next_step "second_numbers" 1.
  - (* second_numbers *)
    destruct (not_digits 2 (Str.strip text)) eqn:Hv.
    + by step.
    + apply not_digits_false in Hv. step. step. step;
        next_step "third_letters" 2.
  - (* third_letters *)
    destruct (not_letters 2 (Str.upper (Str.strip text))) eqn:Hv.
    + by step.
    + apply upper_letters in Hv. step. step. step;
        next_step "start_digits" 3.
  - (* start_digits *)
    destruct (not_digits 4 (Str.strip text)) eqn:Hv.
    + by step.
    + apply not_digits_false in Hv. step. step. step;
        next_step "end_digits" 4.
  - (* end_digits *)
    destruct (H4 ltac:(lia)) as (sd & Hsd & Hsdq).
    destruct (not_digits 4 (Str.strip text)) eqn:Hv.
    + by step.
    + apply not_digits_false in Hv. step. rewrite Hsd.
      apply at_as_str; [intros ? [= <-]|by intros Hno; destruct (Hno sd)].
      destruct (N.ltb_spec (Num.int (Str.strip text)) (Num.int sd)) as [Hlt|Hle].
      * by step.
      * step; [done|]. step. step.
        split; [done|]. split; [by simplify_map_eq|]. exists "confirm", 5.
        split; [by simplify_map_eq|]. split; [done|].
        repeat split; intros; try lia;
          first [ by do 2 (apply has_field_insert; [done|]); auto with lia
                | exists sd, (Str.strip text);
                  split; [by simplify_map_eq|]; split; [by simplify_map_eq|];
                  split; [exact Hv|exact Hle] ].
  - (* confirm *)
    by step.
Qed.

Lemma batch_index_cases name n :
  batch_step_index name = Some n ->
  (name = "first_letters" /\ n = 0) \/ (name = "second_numbers" /\ n = 1)
  \/ (name = "series_list" /\ n = 2) \/ (name = "start_digits" /\ n = 3)
  \/ (name = "end_digits" /\ n = 4) \/ (name = "confirm" /\ n = 5).
Proof.
  unfold batch_step_index.
  destruct (String.eqb_spec name "first_letters") as [->|_]; [intros [= <-]; tauto|].
  destruct (String.eqb_spec name "second_numbers") as [->|_]; [intros [= <-]; tauto|].
  destruct (String.eqb_spec name "series_list") as [->|_]; [intros [= <-]; tauto|].
  destruct (String.eqb_spec name "start_digits") as [->|_]; [intros [= <-]; tauto|].
  destruct (String.eqb_spec name "end_digits") as [->|_]; [intros [= <-]; tauto|].
  destruct (String.eqb_spec name "confirm") as [->|_]; [intros [= <-]; tauto|].
  discriminate.
Qed.

Lemma valid_series_pairs text : Forall letter_pair (valid_series text).
Proof.
  rewrite valid_series_eq. apply Forall_forall. intros s.
  rewrite list_elem_of_In, filter_In. intros [_ Hs]. unfold is_letter_pair in Hs.
  apply andb_true_iff in Hs as [Hlen%Nat.eqb_eq Halpha]. by split.
Qed.

Lemma series_stored_insert dict k v :
  k <> "series_list" -> series_stored dict -> series_stored (<[k := v]> dict).
Proof. intros Hne (l & Hl & HP). exists l. by rewrite lookup_insert_ne. Qed.

Ltac batch_next name n :=
  split; [done|]; split; [by simplify_map_eq|]; exists name, n;
  split; [by simplify_map_eq|]; split; [done|];
  repeat split; intros; try lia;
  first [ field_goal
        | by do 2 (apply has_field_insert; [done|]); auto with lia
        | by do 2 (apply series_stored_insert; [done|]); auto with lia ].

(** The same for a batch conversation. *)
Lemma batch_message_triple files text :
  triple (fun f d => f = files /\ batch_session d)
         (handle_message text)
         (fun _ f d => f = files /\ batch_session d)
         (fun f d => f = files /\ batch_session d).
Proof.
  apply triple_at. intros ? dict [-> Hsess].
  pose proof Hsess as (Hmode & name & n & Hstep & Hidx & H1 & H2 & H3 & H4 & H5).
  unfold handle_message.
  destruct text as [text|]; [|by step].
  destruct (Str.is_empty text); [by step|].
  apply triple_except_any with (R := fun f d => f = files /\ batch_session d).
  2: { apply triple_attempt. apply triple_at. intros ? d [-> Hd].
       step. by step. }
  step. step. rewrite Hmode, Hstep.
  apply batch_index_cases in Hidx as
    [[-> ->]|[[-> ->]|[[-> ->]|[[-> ->]|[[-> ->]|[-> ->]]]]]]; simpl;
    unfold handle_batch_generation; simpl.
  - (* first_letters *)
    destruct (not_letters 2 (Str.upper (Str.strip text))) eqn:Hv.
    + by step.
    + apply upper_letters in Hv. step. step. step;
        batch_next "second_numbers" 1.
  - (* second_numbers *)
    destruct (not_digits 2 (Str.strip text)) eqn:Hv.
    + by step.
    + apply not_digits_false in Hv. step. step. step;
        batch_next "series_list" 2.
  - (* series_list *)
    pose proof (valid_series_pairs (Str.strip text)) as Hpairs.
    destruct (valid_series (Str.strip text)) as [|s l] eqn:Hl.
    + by step.
    + step. step. step; batch_next "start_digits" 3.
  - (* start_digits *)
    destruct (not_digits 4 (Str.strip text)) eqn:Hv.
    + by step.
    + apply not_digits_false in Hv. step. step. step;
        batch_next "end_digits" 4.
  - (* end_digits *)
    destruct (H4 ltac:(lia)) as (sd & Hsd & Hsdq).
    destruct (H3 ltac:(lia)) as (sl & Hsl & Hne & Hall).
    destruct (not_digits 4 (Str.strip text)) eqn:Hv.
    + by step.
    + apply not_digits_false in Hv. step. step. rewrite Hsd, Hsl.
      apply at_as_str; [intros ? [= <-]|by intros Hno; destruct (Hno sd)].
      destruct (N.ltb_spec (Num.int (Str.strip text)) (Num.int sd)) as [Hlt|Hle].
      * by step.
      * simpl. step. step; [done|]. step. step.
        split; [done|]. split; [by simplify_map_eq|]. exists "confirm", 5.
        split; [by simplify_map_eq|]. split; [done|].
        repeat split; intros; try lia;
          first [ by do 2 (apply has_field_insert; [done|]); auto with lia
                | by do 2 (apply series_stored_insert; [done|]); auto with lia
                | exists sd, (Str.strip text);
                  split; [by simplify_map_eq|]; split; [by simplify_map_eq|];
                  split; [exact Hv|exact Hle] ].
  - (* confirm *)
    by step.
Qed.

Lemma start_command_session w : single_session (user_data (run start_command w)).
Proof.
  assert (Hs : single_session
                 (<["step" := VStr "first_letters"]> (<["mode" := VStr "single"]> ∅))).
  { split; [done|]. exists "first_letters", 0.
    repeat split; try done; intros; lia. }
  apply (triple_run (fun _ _ => True) start_command
           (fun _ d => single_session d) w); [|done].
  apply triple_at. intros files dict _. unfold start_command.
  step. step. step. by step.
Qed.

Lemma batch_command_session w : batch_session (user_data (run batch_command w)).
Proof.
  assert (Hs : batch_session
                 (<["step" := VStr "first_letters"]> (<["mode" := VStr "batch"]> ∅))).
  { split; [done|]. exists "first_letters", 0.
    repeat split; try done; intros; lia. }
  apply (triple_run (fun _ _ => True) batch_command
           (fun _ d => batch_session d) w); [|done].
  apply triple_at. intros files dict _. unfold batch_command.
  step. step. step. by step.
Qed.

Lemma conversation_invariant (I : world -> Prop) texts w :
  (forall text w, I w -> I (run (handle_message text) w)) ->
  I w -> I (conversation texts w).
Proof.
  intros Hstep. unfold conversation. revert w.
  induction texts as [|text texts IH]; intros w Hw; simpl; [done|].
  by apply IH, Hstep.
Qed.

Lemma command_files mode w :
  fs (run (clear;; set "mode" (VStr mode);; set "step" (VStr "first_letters");;
           reply_text (Welcome mode)) w) = fs w.
Proof.
  apply (triple_run (fun f _ => f = fs w) _ (fun f _ => f = fs w) w); [|done].
  apply triple_at. intros files dict ->. step. step. step. by step.
Qed.

Lemma single_conversation_session texts w :
  single_session (user_data (conversation texts (run start_command w)))
  /\ fs (conversation texts (run start_command w)) = fs w.
Proof.
  apply (conversation_invariant
           (fun w0 => single_session (user_data w0) /\ fs w0 = fs w)).
  - intros text w0 [Hs Hf].
    destruct (triple_run _ (handle_message text) _ w0
                (single_message_triple (fs w0) text)) as [Hf' Hs']; [done|].
    split; [done|]. by rewrite Hf'.
  - split; [apply start_command_session|apply command_files].
Qed.

Lemma single_session_confirm dict :
  single_session dict -> dict !! "step" = Some (VStr "confirm") ->
  dict !! "mode" = Some (VStr "single")
  /\ exists fl sn tl sd ed,
       dict !! "first_letters" = Some (VStr fl)
       /\ dict !! "second_numbers" = Some (VStr sn)
       /\ dict !! "third_letters" = Some (VStr tl)
       /\ dict !! "start_digits" = Some (VStr sd)
       /\ dict !! "end_digits" = Some (VStr ed)
       /\ single_valid fl sn tl sd ed.
Proof.
  intros (Hmode & name & n & Hstep & Hidx & H1 & H2 & H3 & H4 & H5) Hconfirm.
  split; [done|].
  rewrite Hconfirm in Hstep. injection Hstep as <-.
  injection Hidx as <-.
  destruct (H1 ltac:(lia)) as (fl & Hfl & Hflv).
  destruct (H2 ltac:(lia)) as (sn & Hsn & Hsnv).
  destruct (H3 ltac:(lia)) as (tl & Htl & Htlv).
  destruct (H4 ltac:(lia)) as (sd & Hsd & Hsdv).
  destruct (H5 ltac:(lia)) as (sd' & ed & Hsd' & Hed & Hedv & Hle).
  rewrite Hsd in Hsd'. injection Hsd' as <-.
  by exists fl, sn, tl, sd, ed.
Qed.

(** X13. A single conversation stays well formed: after the start command
    and any text messages, whatever the transport does, the mode is single,
    the step is one of the six, the fields of the steps passed are stored
    and valid, and no file was touched; when the step is the confirmation,
    the five fields stored are fields that [generate_vehicle_numbers]
    accepts. *)
Theorem single_conversation_well_formed texts w :
  let w' := conversation texts (run start_command w) in
  single_session (user_data w') /\ fs w' = fs w
  /\ (user_data w' !! "step" = Some (VStr "confirm") ->
      exists fl sn tl sd ed,
        user_data w' !! "first_letters" = Some (VStr fl)
        /\ user_data w' !! "second_numbers" = Some (VStr sn)
        /\ user_data w' !! "third_letters" = Some (VStr tl)
        /\ user_data w' !! "start_digits" = Some (VStr sd)
        /\ user_data w' !! "end_digits" = Some (VStr ed)
        /\ single_valid fl sn tl sd ed).
Proof.
  intros w'. destruct (single_conversation_session texts w) as [Hs Hf].
  split; [done|]. split; [done|].
  intros Hconfirm. by apply single_session_confirm.
Qed.

Lemma batch_conversation_session texts w :
  batch_session (user_data (conversation texts (run batch_command w)))
  /\ fs (conversation texts (run batch_command w)) = fs w.
Proof.
  apply (conversation_invariant
           (fun w0 => batch_session (user_data w0) /\ fs w0 = fs w)).
  - intros text w0 [Hs Hf].
    destruct (triple_run _ (handle_message text) _ w0
                (batch_message_triple (fs w0) text)) as [Hf' Hs']; [done|].
    split; [done|]. by rewrite Hf'.
  - split; [apply batch_command_session|apply command_files].
Qed.

Lemma batch_session_confirm dict :
  batch_session dict -> dict !! "step" = Some (VStr "confirm") ->
  dict !! "mode" = Some (VStr "batch")
  /\ exists fl sn sl sd ed,
       dict !! "first_letters" = Some (VStr fl)
       /\ dict !! "second_numbers" = Some (VStr sn)
       /\ dict !! "series_list" = Some (VList sl)
       /\ dict !! "start_digits" = Some (VStr sd)
       /\ dict !! "end_digits" = Some (VStr ed)
       /\ letter_pair fl /\ digit_pair sn
       /\ sl <> [] /\ Forall letter_pair sl
       /\ digit_quad sd /\ digit_quad ed /\ (Num.int sd <= Num.int ed)%N.
Proof.
  intros (Hmode & name & n & Hstep & Hidx & H1 & H2 & H3 & H4 & H5) Hconfirm.
  split; [done|].
  rewrite Hconfirm in Hstep. injection Hstep as <-.
  injection Hidx as <-.
  destruct (H1 ltac:(lia)) as (fl & Hfl & Hflv).
  destruct (H2 ltac:(lia)) as (sn & Hsn & Hsnv).
  destruct (H3 ltac:(lia)) as (sl & Hsl & Hne & Hall).
  destruct (H4 ltac:(lia)) as (sd & Hsd & Hsdv).
  destruct (H5 ltac:(lia)) as (sd' & ed & Hsd' & Hed & Hedv & Hle).
  rewrite Hsd in Hsd'. injection Hsd' as <-.
  by exists fl, sn, sl, sd, ed.
Qed.

(** X14. A batch conversation stays well formed in the same way: the list
    of series stored is never empty and holds letter pairs only, and at the
    confirmation the fields stored are fields that
    [generate_batch_vehicle_numbers] accepts. *)
Theorem batch_conversation_well_formed texts w :
  let w' := conversation texts (run batch_command w) in
  batch_session (user_data w') /\ fs w' = fs w
  /\ (user_data w' !! "step" = Some (VStr "confirm") ->
      exists fl sn sl sd ed,
        user_data w' !! "first_letters" = Some (VStr fl)
        /\ user_data w' !! "second_numbers" = Some (VStr sn)
        /\ user_data w' !! "series_list" = Some (VList sl)
        /\ user_data w' !! "start_digits" = Some (VStr sd)
        /\ user_data w' !! "end_digits" = Some (VStr ed)
        /\ letter_pair fl /\ digit_pair sn
        /\ sl <> [] /\ Forall letter_pair sl
        /\ digit_quad sd /\ digit_quad ed /\ (Num.int sd <= Num.int ed)%N).
Proof.
  intros w'. destruct (batch_conversation_session texts w) as [Hs Hf].
  split; [done|]. split; [done|].
  intros Hconfirm. by apply batch_session_confirm.
Qed.

End Sessions.

(** * What the buttons leave behind *)

Section Buttons.

Local Opaque send_loop.

Lemma generate_batch_success fl sn sl sd ed fs :
  letter_pair fl -> digit_pair sn -> sl <> [] -> Forall letter_pair sl ->
  digit_quad sd -> digit_quad ed -> (Num.int sd <= Num.int ed)%N ->
  exists content,
    generate_batch_vehicle_numbers fl sn sl sd ed fs =
    ((Some ("vehicle_numbers_batch_" +:+ Str.upper fl +:+ sn +:+ ".txt"), None),
     <["vehicle_numbers_batch_" +:+ Str.upper fl +:+ sn +:+ ".txt" := content]> fs).
Proof.
  intros Hfl Hsn Hne Hsl Hsd Hed Hle. unfold generate_batch_vehicle_numbers.
  rewrite (letters_ok fl), (digits2_ok sn), (digits4_ok sd), (digits4_ok ed)
    by done.
  destruct sl as [|s0 sl0]; [done|]. cbv iota zeta.
  destruct (N.ltb_spec (Num.int ed) (Num.int sd)); [lia|].
  rewrite batch_loop_ok by done. by eexists.
Qed.

(** The end of both generation buttons: the file written is sent, removed
    and the dictionary cleared. *)
Ltac deliver :=
  apply at_read_file; [intros text _|by rewrite lookup_insert_eq];
  eapply at_bind;
  [ eapply triple_send_loop;
    [ apply triple_send_document
    | by intros f d [-> ->]; split; [|right; left]
    | apply triple_at; intros ? ? [-> ->];
      apply at_api; [by split; [|right; left]|];
      apply at_attempt_remove;
      apply triple_clear; intros ? ? [-> ->];
      rewrite delete_insert_eq;
      instantiate (1 := fun f d => d = ∅ /\ f = delete _ _); done ]
  | intros [] f d;
    [ intros [-> ->]; apply at_attempt_remove; rewrite delete_insert_eq;
      apply at_api; [by split; [|right; right]|];
      by apply triple_clear; intros ? ? [-> ->]
    | intros [-> ->]; by apply at_ret ] ].

Lemma generate_button_triple fl sn tl sd ed files dict :
  dict !! "mode" = Some (VStr "single") ->
  dict !! "first_letters" = Some (VStr fl) ->
  dict !! "second_numbers" = Some (VStr sn) ->
  dict !! "third_letters" = Some (VStr tl) ->
  dict !! "start_digits" = Some (VStr sd) ->
  dict !! "end_digits" = Some (VStr ed) ->
  single_valid fl sn tl sd ed ->
  let filename :=
    "vehicle_numbers_" +:+ Str.upper fl +:+ sn +:+ Str.upper tl +:+ ".txt" in
  let content := File.write_lines (vehicle_numbers fl sn tl sd ed) in
  triple (at_world files dict) (button_callback "generate")
    (fun _ f d => d = ∅ /\ f = delete filename files)
    (fun f d => d = dict
                /\ (f = files \/ f = <[filename := content]> files
                    \/ f = delete filename files)).
Proof.
  intros Hmode Hfl Hsn Htl Hsd Hed (Hflv & Hsnv & Htlv & Hsdv & Hedv & Hle)
    filename content.
  unfold button_callback. apply at_api; [by split; [|left]|]. simpl.
  step. rewrite Hmode. simpl.
  do 5 step. rewrite Hfl, Hsn, Htl, Hsd, Hed.
  apply at_api; [by split; [|left]|]. simpl.
  do 5 step. step.
  rewrite (generate_single_success fl sn tl sd ed files) by done.
  fold filename content. step.
  deliver.
Qed.

(** X15. The button that generates a single file, pressed with valid fields
    stored, whatever the transport does: when the handler returns the
    dictionary is empty and the files are those of before less the file of
    the identifiers; when it raises the dictionary is as before, and the
    files are as before, or with the file of the identifiers written, or
    with it removed.  No other file is ever touched. *)
Theorem generate_button_outcome fl sn tl sd ed w :
  user_data w !! "mode" = Some (VStr "single") ->
  user_data w !! "first_letters" = Some (VStr fl) ->
  user_data w !! "second_numbers" = Some (VStr sn) ->
  user_data w !! "third_letters" = Some (VStr tl) ->
  user_data w !! "start_digits" = Some (VStr sd) ->
  user_data w !! "end_digits" = Some (VStr ed) ->
  single_valid fl sn tl sd ed ->
  let filename :=
    "vehicle_numbers_" +:+ Str.upper fl +:+ sn +:+ Str.upper tl +:+ ".txt" in
  let content := File.write_lines (vehicle_numbers fl sn tl sd ed) in
  match button_callback "generate" w with
  | (Ret _, w') =>
      user_data w' = ∅ /\ fs w' = delete filename (fs w)
  | (Raise _, w') =>
      user_data w' = user_data w
      /\ (fs w' = fs w \/ fs w' = <[filename := content]> (fs w)
          \/ fs w' = delete filename (fs w))
  end.
Proof.
  intros Hmode Hfl Hsn Htl Hsd Hed Hvalid filename content.
  pose proof (generate_button_triple fl sn tl sd ed (fs w) (user_data w)
                Hmode Hfl Hsn Htl Hsd Hed Hvalid w (conj eq_refl eq_refl)) as Ht.
  by destruct (button_callback "generate" w) as [[[]|e] w'].
Qed.

Lemma generate_button_outcome_witness :
  match button_callback "generate" confirmed_single with
  | (Ret _, w') =>
      user_data w' = ∅
      /\ fs w' = delete "vehicle_numbers_AB12CD.txt" (fs confirmed_single)
  | (Raise _, w') => False
  end.
Proof.
  assert (Hmode : user_data confirmed_single !! "mode" = Some (VStr "single"))
    by reflexivity.
  assert (Hfl : user_data confirmed_single !! "first_letters" = Some (VStr "AB"))
    by reflexivity.
  assert (Hsn : user_data confirmed_single !! "second_numbers" = Some (VStr "12"))
    by reflexivity.
  assert (Htl : user_data confirmed_single !! "third_letters" = Some (VStr "CD"))
    by reflexivity.
  assert (Hsd : user_data confirmed_single !! "start_digits" = Some (VStr "0001"))
    by reflexivity.
  assert (Hed : user_data confirmed_single !! "end_digits" = Some (VStr "0002"))
    by reflexivity.
  assert (Hv : single_valid "AB" "12" "CD" "0001" "0002").
  { unfold single_valid, letter_pair, digit_pair, digit_quad.
    repeat split; try reflexivity. vm_compute. discriminate. }
  pose proof (generate_button_outcome "AB" "12" "CD" "0001" "0002"
                confirmed_single Hmode Hfl Hsn Htl Hsd Hed Hv) as H.
  cbv zeta in H.
  destruct (button_callback "generate" confirmed_single) as [[[]|e] w'] eqn:Hrun.
  - exact H.
  - vm_compute in Hrun. discriminate.
Defined.

Lemma batch_button_triple fl sn sl sd ed files dict :
  dict !! "mode" = Some (VStr "batch") ->
  dict !! "first_letters" = Some (VStr fl) ->
  dict !! "second_numbers" = Some (VStr sn) ->
  dict !! "series_list" = Some (VList sl) ->
  dict !! "start_digits" = Some (VStr sd) ->
  dict !! "end_digits" = Some (VStr ed) ->
  letter_pair fl -> digit_pair sn -> sl <> [] -> Forall letter_pair sl ->
  digit_quad sd -> digit_quad ed -> (Num.int sd <= Num.int ed)%N ->
  let filename := "vehicle_numbers_batch_" +:+ Str.upper fl +:+ sn +:+ ".txt" in
  triple (at_world files dict) (button_callback "batch_generate")
    (fun _ f d => d = ∅ /\ f = delete filename files)
    (fun f d => d = dict
                /\ (f = files \/ delete filename f = delete filename files)).
Proof.
  intros Hmode Hfl Hsn Hsl Hsd Hed Hflv Hsnv Hne Hslv Hsdv Hedv Hle filename.
  destruct (generate_batch_success fl sn sl sd ed files) as [content Hgen];
    [done..|].
  fold filename in Hgen.
  apply (triple_conseq (at_world files dict) _ _
           (fun _ f d => d = ∅ /\ f = delete filename files) _
           (fun f d => d = dict
                       /\ (f = files \/ f = <[filename := content]> files
                           \/ f = delete filename files))); [done|done| |].
  { intros f d [Hd [Hf|[Hf|Hf]]]; (split; [done|]).
    - by left.
    - right. rewrite Hf. by rewrite delete_insert_eq.
    - right. rewrite Hf. by rewrite delete_delete_eq. }
  unfold button_callback. apply at_api; [by split; [|left]|]. simpl.
  step. rewrite Hmode. simpl.
  do 5 step. rewrite Hfl, Hsn, Hsl, Hsd, Hed. simpl. step.
  apply at_api; [by split; [|left]|]. simpl.
  do 4 step. step.
  rewrite Hgen. step.
  deliver.
Qed.

(** X16. The button that generates a batch file, pressed with valid fields
    stored, whatever the transport does: when the handler returns the
    dictionary is empty and the files are those of before less the file of
    the batch; when it raises the dictionary is as before and the files
    differ from those of before at most at the file of the batch. *)
Theorem batch_button_outcome fl sn sl sd ed w :
  user_data w !! "mode" = Some (VStr "batch") ->
  user_data w !! "first_letters" = Some (VStr fl) ->
  user_data w !! "second_numbers" = Some (VStr sn) ->
  user_data w !! "series_list" = Some (VList sl) ->
  user_data w !! "start_digits" = Some (VStr sd) ->
  user_data w !! "end_digits" = Some (VStr ed) ->
  letter_pair fl -> digit_pair sn -> sl <> [] -> Forall letter_pair sl ->
  digit_quad sd -> digit_quad ed -> (Num.int sd <= Num.int ed)%N ->
  let filename := "vehicle_numbers_batch_" +:+ Str.upper fl +:+ sn +:+ ".txt" in
  match button_callback "batch_generate" w with
  | (Ret _, w') =>
      user_data w' = ∅ /\ fs w' = delete filename (fs w)
  | (Raise _, w') =>
      user_data w' = user_data w
      /\ (fs w' = fs w \/ delete filename (fs w') = delete filename (fs w))
  end.
Proof.
  intros Hmode Hfl Hsn Hsl Hsd Hed Hflv Hsnv Hne Hslv Hsdv Hedv Hle filename.
  pose proof (batch_button_triple fl sn sl sd ed (fs w) (user_data w)
                Hmode Hfl Hsn Hsl Hsd Hed Hflv Hsnv Hne Hslv Hsdv Hedv Hle
                w (conj eq_refl eq_refl)) as Ht.
  by destruct (button_callback "batch_generate" w) as [[[]|e] w'].
Qed.

Lemma generate_batch_button_witness_fields :
  user_data confirmed_batch !! "series_list" = Some (VList ["CD"; "EF"]).
Proof. reflexivity. Qed.

Lemma batch_button_outcome_witness :
  match button_callback "batch_generate" confirmed_batch with
  | (Ret _, w') =>
      user_data w' = ∅
      /\ fs w' = delete "vehicle_numbers_batch_AB12.txt" (fs confirmed_batch)
  | (Raise _, w') => False
  end.
Proof.
  assert (Hmode : user_data confirmed_batch !! "mode" = Some (VStr "batch"))
    by reflexivity.
  assert (Hfl : user_data confirmed_batch !! "first_letters" = Some (VStr "AB"))
    by reflexivity.
  assert (Hsn : user_data confirmed_batch !! "second_numbers" = Some (VStr "12"))
    by reflexivity.
  assert (Hsd : user_data confirmed_batch !! "start_digits" = Some (VStr "0001"))
    by reflexivity.
  assert (Hed : user_data confirmed_batch !! "end_digits" = Some (VStr "0002"))
    by reflexivity.
  assert (Hflv : letter_pair "AB") by (by split).
  assert (Hsnv : digit_pair "12") by (by split).
  assert (Hne : ["CD"; "EF"] <> @nil string) by done.
  assert (Hslv : Forall letter_pair ["CD"; "EF"]) by (by repeat constructor).
  assert (Hsdv : digit_quad "0001") by (by split).
  assert (Hedv : digit_quad "0002") by (by split).
  assert (Hle : (Num.int "0001" <= Num.int "0002")%N)
    by (vm_compute; discriminate).
  pose proof (batch_button_outcome "AB" "12" ["CD"; "EF"] "0001" "0002"
                confirmed_batch Hmode Hfl Hsn generate_batch_button_witness_fields
                Hsd Hed Hflv Hsnv Hne Hslv Hsdv Hedv Hle) as H.
  cbv zeta in H.
  destruct (button_callback "batch_generate" confirmed_batch)
    as [[[]|e] w'] eqn:Hrun.
  - exact H.
  - vm_compute in Hrun. discriminate.
Defined.

(** X22. A whole single conversation: after the start command and any
    text messages that have brought the step to the confirmation, the
    button that generates, whatever the transport does, leaves every file
    of before the conversation as it was, but for one file of identifiers;
    when the handler returns that file is gone and the dictionary is
    empty. *)
Theorem single_conversation_generate texts w :
  let w1 := conversation texts (run start_command w) in
  user_data w1 !! "step" = Some (VStr "confirm") ->
  exists fl sn tl,
    user_data w1 !! "first_letters" = Some (VStr fl)
    /\ user_data w1 !! "second_numbers" = Some (VStr sn)
    /\ user_data w1 !! "third_letters" = Some (VStr tl)
    /\ let filename :=
         "vehicle_numbers_" +:+ Str.upper fl +:+ sn +:+ Str.upper tl +:+ ".txt" in
       match button_callback "generate" w1 with
       | (Ret _, w2) =>
           user_data w2 = ∅ /\ fs w2 = delete filename (fs w)
       | (Raise _, w2) =>
           user_data w2 = user_data w1
           /\ forall p, p <> filename -> fs w2 !! p = fs w !! p
       end.
Proof.
  intros w1 Hconfirm.
  destruct (single_conversation_session texts w) as [Hs Hf]. fold w1 in Hs, Hf.
  destruct (single_session_confirm _ Hs Hconfirm)
    as (Hmode & fl & sn & tl & sd & ed & Hfl & Hsn & Htl & Hsd & Hed & Hvalid).
  exists fl, sn, tl. split; [done|]. split; [done|]. split; [done|].
  pose proof (generate_button_triple fl sn tl sd ed (fs w1) (user_data w1)
                Hmode Hfl Hsn Htl Hsd Hed Hvalid w1 (conj eq_refl eq_refl)) as Ht.
  cbv zeta in Ht |- *. rewrite Hf in Ht.
  destruct (button_callback "generate" w1) as [[[]|e] w2]; [done|].
  destruct Ht as [Hd Hfiles]. split; [done|]. intros p Hp.
  destruct Hfiles as [->|[->| ->]];
    [done|by rewrite lookup_insert_ne|by rewrite lookup_delete_ne].
Qed.

Lemma single_conversation_generate_witness :
  let texts := [Some "ab"; Some "12"; Some "cd"; Some "0001"; Some "0002"] in
  let w1 := conversation texts (run start_command initial) in
  user_data w1 !! "step" = Some (VStr "confirm")
  /\ exists fl sn tl,
       user_data w1 !! "first_letters" = Some (VStr fl)
       /\ user_data w1 !! "second_numbers" = Some (VStr sn)
       /\ user_data w1 !! "third_letters" = Some (VStr tl)
       /\ let filename :=
            "vehicle_numbers_" +:+ Str.upper fl +:+ sn +:+ Str.upper tl +:+ ".txt" in
          match button_callback "generate" w1 with
          | (Ret _, w2) =>
              user_data w2 = ∅ /\ fs w2 = delete filename (fs initial)
          | (Raise _, w2) =>
              user_data w2 = user_data w1
              /\ forall p, p <> filename -> fs w2 !! p = fs initial !! p
          end.
Proof.
  intros texts w1.
  assert (Hconfirm : user_data w1 !! "step" = Some (VStr "confirm"))
    by reflexivity.
  split; [exact Hconfirm|].
  exact (single_conversation_generate texts initial Hconfirm).
Defined.

(** X23. A whole batch conversation, in the same way: only the file of the
    batch may differ from the files of before the conversation, and when
    the handler returns it is gone and the dictionary is empty. *)
Theorem batch_conversation_generate texts w :
  let w1 := conversation texts (run batch_command w) in
  user_data w1 !! "step" = Some (VStr "confirm") ->
  exists fl sn,
    user_data w1 !! "first_letters" = Some (VStr fl)
    /\ user_data w1 !! "second_numbers" = Some (VStr sn)
    /\ let filename :=
         "vehicle_numbers_batch_" +:+ Str.upper fl +:+ sn +:+ ".txt" in
       match button_callback "batch_generate" w1 with
       | (Ret _, w2) =>
           user_data w2 = ∅ /\ fs w2 = delete filename (fs w)
       | (Raise _, w2) =>
           user_data w2 = user_data w1
           /\ forall p, p <> filename -> fs w2 !! p = fs w !! p
       end.
Proof.
  intros w1 Hconfirm.
  destruct (batch_conversation_session texts w) as [Hs Hf]. fold w1 in Hs, Hf.
  destruct (batch_session_confirm _ Hs Hconfirm)
    as (Hmode & fl & sn & sl & sd & ed & Hfl & Hsn & Hsl & Hsd & Hed
        & Hflv & Hsnv & Hne & Hslv & Hsdv & Hedv & Hle).
  exists fl, sn. split; [done|]. split; [done|].
  pose proof (batch_button_triple fl sn sl sd ed (fs w1) (user_data w1)
                Hmode Hfl Hsn Hsl Hsd Hed Hflv Hsnv Hne Hslv Hsdv Hedv Hle
                w1 (conj eq_refl eq_refl)) as Ht.
  cbv zeta in Ht |- *. rewrite Hf in Ht.
  destruct (button_callback "batch_generate" w1) as [[[]|e] w2]; [done|].
  destruct Ht as [Hd Hfiles]. split; [done|]. intros p Hp.
  destruct Hfiles as [->|Hdel]; [done|].
  apply (f_equal (fun m => m !! p)) in Hdel.
  by rewrite !lookup_delete_ne in Hdel.
Qed.

Lemma batch_conversation_generate_witness :
  let texts := [Some "ab"; Some "12"; Some "cd, ef"; Some "0001"; Some "0002"] in
  let w1 := conversation texts (run batch_command initial) in
  user_data w1 !! "step" = Some (VStr "confirm")
  /\ exists fl sn,
       user_data w1 !! "first_letters" = Some (VStr fl)
       /\ user_data w1 !! "second_numbers" = Some (VStr sn)
       /\ let filename :=
            "vehicle_numbers_batch_" +:+ Str.upper fl +:+ sn +:+ ".txt" in
          match button_callback "batch_generate" w1 with
          | (Ret _, w2) =>
              user_data w2 = ∅ /\ fs w2 = delete filename (fs initial)
          | (Raise _, w2) =>
              user_data w2 = user_data w1
              /\ forall p, p <> filename -> fs w2 !! p = fs initial !! p
          end.
Proof.
  intros texts w1.
  assert (Hconfirm : user_data w1 !! "step" = Some (VStr "confirm"))
    by reflexivity.
  split; [exact Hconfirm|].
  exact (batch_conversation_generate texts initial Hconfirm).
Defined.

End Buttons.

(** * What sending the table leaves behind *)

Section Tables.

Local Opaque send_loop.

Lemma at_forget files dict path (k : unit -> M unit) Q E :
  triple (at_world (forget path files) dict) (k tt) Q E ->
  triple (at_world files dict)
    ((match truthy_path path with
      | Some p => if File.exists_ p files then os_remove p else mret tt
      | None => mret tt
      end) ≫= k) Q E.
Proof.
  unfold forget. destruct (truthy_path path) as [p|].
  - apply at_guarded_remove.
  - apply at_ret_bind.
Qed.

Lemma at_remove_both files dict txt_file_path csv_file_path
    (k : unit -> M unit) Q E :
  triple (at_world (delete csv_file_path (forget txt_file_path files)) dict)
         (k tt) Q E ->
  triple (at_world files dict)
         (remove_both txt_file_path csv_file_path ≫= k) Q E.
Proof.
  intros Hk. eapply at_bind.
  - apply (triple_attempt _ _
             (fun _ => at_world (delete csv_file_path (forget txt_file_path files))
                                dict)).
    step. apply at_forget. step.
    apply triple_terminal, at_guarded_remove. by step.
  - by intros [] f d [-> ->].
Qed.

Lemma send_csv_file_triple files dict csv_file_path filename line_count
    txt_file_path :
  triple (at_world files dict)
    (send_csv_file csv_file_path filename line_count txt_file_path)
    (fun _ f d => d = ∅ /\ f = delete csv_file_path (forget txt_file_path files))
    (fun f d => d = dict
                /\ (f = files
                    \/ f = delete csv_file_path (forget txt_file_path files))).
Proof.
  unfold send_csv_file. cbv zeta. eapply at_bind.
  - eapply triple_send_loop with
      (R := fun f d => d = ∅
                       /\ f = delete csv_file_path (forget txt_file_path files)).
    + apply triple_send_document.
    + intros f d [-> ->]. split; [done|by left].
    + apply triple_at. intros ? ? [-> ->].
      apply at_api; [by split; [|left]|].
      apply at_remove_both. by step.
  - intros [] f d.
    + intros [-> ->]. apply at_remove_both.
      apply at_api; [by split; [|right]|]. by step.
    + intros [-> ->]. by step.
Qed.

(** X17. Sending the table, whatever the transport does: when
    [send_csv_file] returns, the dictionary is empty and the table and the
    text it came from are gone, every other file being as before; when it
    raises, the dictionary is as before and the files are either as before
    or without these two. *)
Theorem send_csv_file_outcome csv_file_path filename line_count txt_file_path w :
  match send_csv_file csv_file_path filename line_count txt_file_path w with
  | (Ret _, w') =>
      user_data w' = ∅
      /\ fs w' = delete csv_file_path (forget txt_file_path (fs w))
  | (Raise _, w') =>
      user_data w' = user_data w
      /\ (fs w' = fs w
          \/ fs w' = delete csv_file_path (forget txt_file_path (fs w)))
  end.
Proof.
  pose proof (send_csv_file_triple (fs w) (user_data w) csv_file_path filename
                line_count txt_file_path w) as Ht.
  destruct (send_csv_file _ _ _ _ w) as [[[]|e] w']; by apply Ht.
Qed.

(** X18. The name typed for the table, whatever the transport does: with no
    path of a table stored the dictionary is cleared and no file touched; a
    name that is blank changes nothing; otherwise the table is sent under
    the cleaned name, with the outcome of [send_csv_file]. *)
Theorem handle_csv_rename_outcome new_filename w :
  let txt_file_path := user_data w !! "txt_file_path" in
  match truthy_path (user_data w !! "csv_file_path"),
        handle_csv_rename new_filename w with
  | None, (Ret _, w') => user_data w' = ∅ /\ fs w' = fs w
  | None, (Raise _, _) => False
  | Some csv_file_path, (Ret _, w') =>
      if Str.is_empty (Str.strip new_filename)
      then user_data w' = user_data w /\ fs w' = fs w
      else user_data w' = ∅
           /\ fs w' = delete csv_file_path (forget txt_file_path (fs w))
  | Some csv_file_path, (Raise _, w') =>
      Str.is_empty (Str.strip new_filename) = false
      /\ user_data w' = user_data w
      /\ (fs w' = fs w
          \/ fs w' = delete csv_file_path (forget txt_file_path (fs w)))
  end.
Proof.
  intros txt_file_path. destruct w as [files dict outcomes t].
  cbn [fs user_data] in *.
  destruct (truthy_path (dict !! "csv_file_path")) as [csv_file_path|] eqn:Hcsv.
  - destruct (Str.is_empty (Str.strip new_filename)) eqn:Hblank.
    + assert (Ht : triple (at_world files dict) (handle_csv_rename new_filename)
                     (fun _ f d => d = dict /\ f = files) (fun _ _ => False)).
      { unfold handle_csv_rename. do 3 step. rewrite Hcsv. cbv zeta.
        rewrite Hblank. step. by step. }
      specialize (Ht (World files dict outcomes t) (conj eq_refl eq_refl)).
      by destruct (handle_csv_rename _ _) as [[[]|e] w'].
    + assert (Ht : triple (at_world files dict) (handle_csv_rename new_filename)
                     (fun _ f d => d = ∅
                        /\ f = delete csv_file_path (forget txt_file_path files))
                     (fun f d => d = dict
                        /\ (f = files
                            \/ f = delete csv_file_path
                                     (forget txt_file_path files)))).
      { unfold handle_csv_rename. do 3 step. rewrite Hcsv. cbv zeta.
        rewrite Hblank. apply send_csv_file_triple. }
      specialize (Ht (World files dict outcomes t) (conj eq_refl eq_refl)).
      by destruct (handle_csv_rename _ _) as [[[]|e] w'].
  - assert (Ht : triple (at_world files dict) (handle_csv_rename new_filename)
                   (fun _ f d => d = ∅ /\ f = files) (fun _ _ => False)).
    { unfold handle_csv_rename. do 3 step. rewrite Hcsv. step. by step. }
    specialize (Ht (World files dict outcomes t) (conj eq_refl eq_refl)).
    by destruct (handle_csv_rename _ _) as [[[]|e] w'].
Qed.

Lemma forget_delete path p files :
  forget path (delete p files) = delete p (forget path files).
Proof.
  unfold forget. destruct (truthy_path path) as [q|]; [|done].
  apply delete_delete.
Qed.

(** X19. The buttons of a converted table, with the path of the table
    stored, whatever the transport does.  Cancelling and sending under the
    default name both end, when the handler returns, with the dictionary
    empty and with the table and the text removed; when the handler raises
    the dictionary is as before.  Renaming only moves the step.  No file
    other than the two stored is touched. *)
Theorem table_buttons_outcome csv_file_path w :
  truthy_path (user_data w !! "csv_file_path") = Some csv_file_path ->
  let dict := user_data w in
  let gone := delete csv_file_path (forget (dict !! "txt_file_path") (fs w)) in
  match button_callback "csv_cancel" w with
  | (Ret _, w') => user_data w' = ∅ /\ fs w' = gone
  | (Raise _, w') => user_data w' = dict /\ (fs w' = fs w \/ fs w' = gone)
  end
  /\ match button_callback "csv_use_default" w with
     | (Ret _, w') => user_data w' = ∅ /\ fs w' = gone
     | (Raise _, w') => user_data w' = dict /\ (fs w' = fs w \/ fs w' = gone)
     end
  /\ match button_callback "csv_rename" w with
     | (Ret _, w') =>
         user_data w' = <["step" := VStr "waiting_rename"]> dict /\ fs w' = fs w
     | (Raise _, w') =>
         (user_data w' = dict
          \/ user_data w' = <["step" := VStr "waiting_rename"]> dict)
         /\ fs w' = fs w
     end.
Proof.
  intros Hcsv. cbv zeta. destruct w as [files dict outcomes t].
  cbn [fs user_data] in *.
  set (gone := delete csv_file_path (forget (dict !! "txt_file_path") files)).
  split; [|split].
  - assert (Ht : triple (at_world files dict) (button_callback "csv_cancel")
                   (fun _ f d => d = ∅ /\ f = gone)
                   (fun f d => d = dict /\ (f = files \/ f = gone))).
    { unfold button_callback. apply at_api; [by split; [|left]|]. simpl.
      do 3 step. eapply at_bind.
      - apply (triple_attempt _ _ (fun _ => at_world gone dict)).
        step. apply at_forget. step. apply triple_terminal, at_forget.
        unfold forget at 2. rewrite Hcsv, forget_delete. by step.
      - intros [] f d [-> ->]. apply at_api; [by split; [|right]|]. by step. }
    specialize (Ht (World files dict outcomes t) (conj eq_refl eq_refl)).
    by destruct (button_callback _ _) as [[[]|e] w'].
  - assert (Ht : triple (at_world files dict) (button_callback "csv_use_default")
                   (fun _ f d => d = ∅ /\ f = gone)
                   (fun f d => d = dict /\ (f = files \/ f = gone))).
    { unfold button_callback. apply at_api; [by split; [|left]|]. simpl.
      do 5 step. rewrite Hcsv. apply at_api; [by split; [|left]|].
      destruct (default (VStr "converted.csv") (dict !! "default_filename"));
        [apply at_ret_bind, send_csv_file_triple
        |apply at_raise_bind; by split; [|left]..]. }
    specialize (Ht (World files dict outcomes t) (conj eq_refl eq_refl)).
    by destruct (button_callback _ _) as [[[]|e] w'].
  - assert (Ht : triple (at_world files dict) (button_callback "csv_rename")
                   (fun _ f d => d = <["step" := VStr "waiting_rename"]> dict
                                 /\ f = files)
                   (fun f d => (d = dict
                                \/ d = <["step" := VStr "waiting_rename"]> dict)
                               /\ f = files)).
    { unfold button_callback. apply at_api; [by split; [left|]|]. simpl.
      do 2 step. step; [done|]. by split; [right|]. }
    specialize (Ht (World files dict outcomes t) (conj eq_refl eq_refl)).
    by destruct (button_callback _ _) as [[[]|e] w'].
Qed.

Lemma table_buttons_outcome_witness :
  match button_callback "csv_cancel" uploaded with
  | (Ret _, w') => user_data w' = ∅ /\ fs w' = ∅
  | (Raise _, w') => False
  end.
Proof.
  assert (Hcsv : truthy_path (user_data uploaded !! "csv_file_path")
                 = Some "converted_F1.csv") by reflexivity.
  destruct (table_buttons_outcome "converted_F1.csv" uploaded Hcsv) as [H _].
  destruct (button_callback "csv_cancel" uploaded) as [[[]|e] w'] eqn:Hrun.
  - destruct H as [Hd ->]. split; [done|]. vm_compute. reflexivity.
  - vm_compute in Hrun. discriminate.
Defined.

End Tables.

(** * What a document leaves behind *)

Section Documents.

Lemma at_os_remove {B} files dict path (k : unit -> M B) Q E :
  (is_Some (files !! path) ->
   triple (at_world (delete path files) dict) (k tt) Q E) ->
  (files !! path = None -> E files dict) ->
  triple (at_world files dict) (os_remove path ≫= k) Q E.
Proof.
  intros Hk HE. eapply at_bind.
  - apply (triple_os_remove _ _
             (fun _ f d => at_world (delete path files) dict f d
                           /\ is_Some (files !! path))).
    + by intros f d [-> ->] Hin.
    + intros f d [-> ->]. apply HE.
  - intros [] f d [[-> ->] Hin]. by apply Hk.
Qed.

Lemma convert_other_paths txt csv fs p :
  p <> csv -> (convert_txt_to_csv txt csv fs).2 !! p = fs !! p.
Proof.
  intros Hp. destruct (fs !! txt) as [content|] eqn:Hin.
  - rewrite (convert_txt_to_csv_spec txt csv fs content Hin).
    destruct (File.readlines content) as [|l ls]; [done|].
    destruct (convert_rows (l :: ls)) as [|r rs]; simpl;
      by rewrite lookup_insert_ne.
  - unfold convert_txt_to_csv. by rewrite Hin.
Qed.

Local Opaque convert_txt_to_csv.

(** The [except Exception] clause of the handler, from any files. *)
Lemma on_error_triple files dict txt_file_path csv_file_path (E : assertion) :
  E files dict ->
  triple (at_world files dict) (on_error txt_file_path csv_file_path)
    (fun fl f d =>
       fl = Returned /\ d = ∅
       /\ forall p, Some p <> txt_file_path -> Some p <> csv_file_path ->
                    f !! p = files !! p)
    E.
Proof.
  intros HE. unfold on_error. apply at_api; [done|].
  eapply at_bind.
  - apply (triple_attempt _ _
             (fun _ f d => d = dict
                /\ forall p, Some p <> txt_file_path -> Some p <> csv_file_path ->
                             f !! p = files !! p)).
    destruct txt_file_path as [txt|].
    + apply at_os_remove; [intros _|done].
      destruct csv_file_path as [csv|].
      * apply triple_terminal, at_os_remove.
        -- intros _. apply at_ret. split; [done|]. intros p Ht Hc.
           rewrite !lookup_delete_ne; [done|congruence..].
        -- intros _. split; [done|]. intros p Ht Hc.
           rewrite !lookup_delete_ne; [done|congruence..].
      * apply at_ret. split; [done|]. intros p Ht Hc.
        rewrite !lookup_delete_ne; [done|congruence..].
    + apply at_ret_bind. destruct csv_file_path as [csv|].
      * apply triple_terminal, at_os_remove; [intros _; apply at_ret|done].
        split; [done|]. intros p Ht Hc.
        rewrite !lookup_delete_ne; [done|congruence..].
      * by apply at_ret.
  - intros [] f d [-> Hf]. step. by step.
Qed.

Lemma on_error_frame files dict txt_file_path csv_file_path
    (Q : flow -> assertion) (E : assertion) :
  E files dict ->
  (forall f, (forall p, Some p <> txt_file_path -> Some p <> csv_file_path ->
                        f !! p = files !! p) ->
             Q Returned f ∅) ->
  triple (at_world files dict) (on_error txt_file_path csv_file_path) Q E.
Proof.
  intros HE HQ.
  eapply (triple_conseq _ _ _ _ Q E E);
    [| | |exact (on_error_triple files dict txt_file_path csv_file_path E HE)].
  - done.
  - intros fl f d (-> & -> & Hf). by apply HQ.
  - done.
Qed.

Lemma handle_document_triple doc files dict :
  triple (at_world files dict) (handle_document (Some doc))
    (fun _ f d =>
       (forall p, p <> "temp_" +:+ file_id doc +:+ ".txt" ->
                  p <> "converted_" +:+ file_id doc +:+ ".csv" ->
                  f !! p = files !! p)
       /\ (d = dict \/ d = ∅ \/ document_stored doc f d))
    (fun f d =>
       (forall p, p <> "temp_" +:+ file_id doc +:+ ".txt" ->
                  p <> "converted_" +:+ file_id doc +:+ ".csv" ->
                  f !! p = files !! p)
       /\ (d = dict \/ d = ∅ \/ document_stored doc f d)).
Proof.
  pose proof (paths_differ (file_id doc)) as Hne.
  unfold document_stored, handle_document.
  generalize dependent ("temp_" +:+ file_id doc +:+ ".txt").
  generalize dependent ("converted_" +:+ file_id doc +:+ ".csv").
  intros csv txt Hne. cbv zeta.
  set (frame := fun f : gmap string string =>
                  forall p, p <> txt -> p <> csv -> f !! p = files !! p).
  assert (Hframe : frame files) by done.
  do 2 step.
  destruct (negb (bool_decide (dict !! "mode" = Some (VStr "txt2csv")))
            || negb (bool_decide (dict !! "step" = Some (VStr "waiting_file")))).
  { step. split; [done|by left]. }
  destruct (Str.endswith ".txt" (Str.lower (document_name doc))) eqn:Hname;
    cbn [negb]; [|step; (split; [done|by left])].
  (* no path is bound yet *)
  eapply at_bind with
    (R := fun fl f d => match fl with
                        | Next => at_world files dict f d
                        | Returned => f = files /\ d = ∅
                        end).
  { apply triple_except_any with (R := at_world files dict).
    - apply at_api; [done|]. apply at_api; [done|]. by step.
    - apply on_error_frame; [by split; [|left]|].
      intros f Hf. split; [|done]. apply map_eq. intros p. by apply Hf. }
  intros [] ? ?; [intros [-> ->]|intros [-> ->]; step; split; [done|by right; left]].
  (* the text is downloaded *)
  eapply at_bind with
    (R := fun fl f d => match fl with
                        | Next => at_world (<[txt := data doc]> files) dict f d
                        | Returned => frame f /\ (d = dict \/ d = ∅)
                        end).
  { apply triple_except_any with (R := fun f d => frame f /\ d = dict).
    - apply at_api; [done|]. do 2 step.
      assert (Hin : frame (<[txt := data doc]> files)).
      { intros p Ht Hc. by rewrite lookup_insert_ne. }
      destruct (max_size <? File.getsize (data doc))%N.
      + apply at_os_remove; [intros _|by rewrite lookup_insert_eq].
        rewrite delete_insert_eq.
        assert (Hout : frame (delete txt files)).
        { intros p Ht Hc. by rewrite lookup_delete_ne. }
        apply at_api; [done|]. step. split; [done|by left].
      + apply at_api; [done|]. by step.
    - apply triple_at. intros f d [Hf ->].
      apply on_error_frame; [by split; [|left]|].
      intros f' Hf'. split; [|by right].
      intros p Ht Hc. rewrite Hf' by congruence. by apply Hf. }
  intros [] ? ?; [intros [-> ->]|intros [Hf Hd]; step; split; [done|tauto]].
  (* the conversion *)
  eapply at_bind with (R := fun _ f d => frame f /\ _).
  2: { intros fl f d H. apply at_ret. exact H. }
  pose proof (table_lines (data doc)) as Hcount.
  pose proof (convert_txt_to_csv_spec txt csv (<[txt := data doc]> files)
                (data doc) (lookup_insert_eq _ _ _)) as Hspec.
  set (rows := convert_rows (File.readlines (data doc))) in *.
  set (stored := fun (f : gmap string string) (d : gmap string value) =>
                   d !! "step" = Some (VStr "ask_rename")
                   /\ d !! "csv_file_path" = Some (VStr csv)
                   /\ d !! "txt_file_path" = Some (VStr txt)
                   /\ d !! "line_count" = Some (VInt (Z.of_nat (length rows)))
                   /\ rows <> []
                   /\ f !! txt = Some (data doc)
                   /\ f !! csv = Some (File.writerow header +:+ rows_text rows)
                   /\ true = true
                   /\ d !! "default_filename"
                      = Some (VStr (Str.replace ".txt" ".csv"
                                      (document_name doc)))).
  apply triple_except_any with
    (R := fun f d => frame f /\ (d = dict \/ stored f d)).
  - step.
    pose proof (convert_other_paths txt csv (<[txt := data doc]> files)) as Hconv.
    destruct (convert_txt_to_csv txt csv (<[txt := data doc]> files))
      as [[success error] fs'].
    simpl in Hconv.
    assert (Hfs' : frame fs').
    { intros p Ht Hc. by rewrite Hconv, lookup_insert_ne. }
    assert (Htxt : fs' !! txt = Some (data doc)).
    { by rewrite Hconv, lookup_insert_eq. }
    step. destruct success; cbn [negb].
    + assert (Hrows : rows <> []
                      /\ fs' !! csv
                         = Some (File.writerow header +:+ rows_text rows)).
      { destruct (File.readlines (data doc)) as [|l ls]; [done|].
        destruct rows as [|r rs]; [done|].
        injection Hspec as _ ->. by rewrite lookup_insert_eq. }
      destruct Hrows as [Hne' Hcsv].
      apply at_read_file; [intros content Hin|by intros; split; [|left]].
      rewrite Hcsv in Hin. injection Hin as <-.
      rewrite Hcount.
      replace (Z.of_nat (S (length rows)) - 1)%Z with (Z.of_nat (length rows))
        by lia.
      do 6 step. apply at_api.
      * split; [done|]. right. unfold stored. by simplify_map_eq.
      * step. split; [done|]. right. right. unfold stored.
        by simplify_map_eq.
    + apply at_os_remove; [intros _|by intros; split; [|left]].
      assert (Hout : frame (delete txt fs')).
      { intros p Ht Hc. by rewrite lookup_delete_ne, Hfs'. }
      apply at_api; [by split; [|left]|]. step. split; [done|by left].
  - apply triple_at. intros f d [Hf Hd].
    apply on_error_frame.
    + split; [done|]. destruct Hd as [->|Hd]; [by left|by right; right].
    + intros f' Hf'. split; [|by right; left].
      intros p Ht Hc. rewrite Hf' by congruence. by apply Hf.
Qed.

(** X20. An uploaded document, whatever it holds and whatever the
    transport does, whether the handler returns or raises: no file other
    than the downloaded text and the table of this document is created,
    changed or removed; and the dictionary is as before, or empty, or holds
    the step that asks for a name with the two paths, and then the text is
    there as downloaded and the table is there.  Without a document neither
    the files nor the dictionary change. *)
Theorem handle_document_outcome doc w :
  match doc with
  | Some doc =>
      document_outcome doc (fs w) (user_data w)
        (fs (run (handle_document (Some doc)) w))
        (user_data (run (handle_document (Some doc)) w))
  | None =>
      fs (run (handle_document None) w) = fs w
      /\ user_data (run (handle_document None) w) = user_data w
  end.
Proof.
  destruct doc as [doc|].
  - apply (triple_run (at_world (fs w) (user_data w)) (handle_document (Some doc))
             (document_outcome doc (fs w) (user_data w)) w); [|done].
    eapply triple_conseq; [| | |apply handle_document_triple]; [done|..].
    + intros _ f d [Hf Hd]. split; [done|].
      destruct Hd as [Hd|[Hd|Hd]]; [by left|by right; left|right; right].
      unfold document_stored in Hd. tauto.
    + intros f d [Hf Hd]. split; [done|].
      destruct Hd as [Hd|[Hd|Hd]]; [by left|by right; left|right; right].
      unfold document_stored in Hd. tauto.
  - apply (triple_run (at_world (fs w) (user_data w)) (handle_document None)
             (fun f d => f = fs w /\ d = user_data w) w); [|done].
    unfold handle_document. do 2 step.
    destruct (_ || _); by step.
Qed.

(** X11. The default name of a converted table, whatever the transport
    does: when [handle_document], called at the step that waits for a file,
    leaves the step that asks for a name, the name of the document ends with
    [.txt] in whatever case, and the default name stored is that name with
    each [.txt] in lower case replaced by [.csv]; so a name that holds no
    [.txt] in lower case is stored as it is. *)
Theorem default_name_without_txt doc w :
  user_data w !! "step" = Some (VStr "waiting_file") ->
  let w' := run (handle_document (Some doc)) w in
  user_data w' !! "step" = Some (VStr "ask_rename") ->
  Str.endswith ".txt" (Str.lower (document_name doc)) = true
  /\ user_data w' !! "default_filename"
     = Some (VStr (Str.replace ".txt" ".csv" (document_name doc)))
  /\ (Str.contains ".txt" (document_name doc) = false ->
      user_data w' !! "default_filename" = Some (VStr (document_name doc))).
Proof.
  intros Hstep w' Hask.
  assert (Hstored : document_stored doc (fs w') (user_data w')).
  { destruct (triple_run (at_world (fs w) (user_data w))
                (handle_document (Some doc)) _ w
                (handle_document_triple doc (fs w) (user_data w)))
      as [_ [Hd|[Hd|Hd]]]; [done| | |done].
    - fold w' in Hd. rewrite Hd, Hstep in Hask. discriminate.
    - fold w' in Hd. rewrite Hd in Hask. discriminate. }
  destruct Hstored as (_ & _ & _ & _ & _ & _ & _ & Hname & Hdefault).
  split; [done|]. split; [done|].
  intros Hplain. rewrite Hdefault. do 2 f_equal. by apply replace_go_absent.
Qed.

Lemma default_name_without_txt_witness :
  let w := run txt2csv_command initial in
  let w' := run (handle_document (Some upper_case_document)) w in
  user_data w' !! "default_filename" = Some (VStr "DATA.TXT")
  /\ Str.endswith ".csv" (Str.lower "DATA.TXT") = false
  /\ In (Api (ReplyDocument "DATA.TXT"
               ("Number,Vehicle Number" +:+ File.CRLF
                +:+ "7389247318,CG13AA0010" +:+ File.CRLF)) Delivered)
        (trace (run (button_callback "csv_use_default") w')).
Proof.
  intros w w'.
  assert (Hstep : user_data w !! "step" = Some (VStr "waiting_file"))
    by reflexivity.
  assert (Hask : user_data w' !! "step" = Some (VStr "ask_rename"))
    by reflexivity.
  destruct (default_name_without_txt upper_case_document w Hstep Hask)
    as (_ & _ & Hplain).
  split; [exact (Hplain eq_refl)|]. split; [reflexivity|].
  vm_compute. tauto.
Defined.

End Documents.

(** * Events outside their step *)

Section Ignored.

(** X21. Events that come outside their step are dropped without a reply
    and without any change of the world: a text with no mode set, a text in
    the conversion mode before a name is asked for, a text at the
    confirmation of a generation, and a document outside the step that
    waits for a file.  A button that belongs to another mode, or is not
    known, is answered and nothing else. *)
Theorem events_ignored w :
  let mode := user_data w !! "mode" in
  let step := user_data w !! "step" in
  (forall text, truthy mode = false -> handle_message text w = (Ret tt, w))
  /\ (forall text, mode = Some (VStr "txt2csv") ->
                   step <> Some (VStr "waiting_rename") ->
                   handle_message text w = (Ret tt, w))
  /\ (forall text, mode = Some (VStr "single") \/ mode = Some (VStr "batch") ->
                   step = Some (VStr "confirm") ->
                   handle_message text w = (Ret tt, w))
  /\ (forall doc, mode <> Some (VStr "txt2csv")
                  \/ step <> Some (VStr "waiting_file") ->
                  handle_document doc w = (Ret tt, w))
  /\ (mode <> Some (VStr "single") ->
      button_callback "generate" w = api Answer w)
  /\ (mode <> Some (VStr "batch") ->
      button_callback "batch_generate" w = api Answer w)
  /\ (forall data,
        data ∉ ["cancel_gen"; "generate"; "csv_use_default"; "csv_rename";
                "csv_cancel"; "batch_generate"] ->
        button_callback data w = api Answer w).
Proof.
  intros mode step.
  assert (Hanswer : forall m : M unit,
            (forall w', user_data w' = user_data w -> m w' = (Ret tt, w')) ->
            (api Answer;; m) w = api Answer w).
  { intros m Hm. unfold mbind, M_bind, api.
    destruct (hd Delivered (net w)); [by apply Hm|done..]. }
  repeat split.
  - intros [text|] Hmode; [|done]. unfold handle_message.
    destruct (Str.is_empty text); [done|].
    unfold except_any, mbind, M_bind, get. fold mode. by rewrite Hmode.
  - intros [text|] Hmode Hstep; [|done]. unfold handle_message.
    destruct (Str.is_empty text); [done|].
    unfold except_any, mbind, M_bind, get. fold mode step. rewrite Hmode.
    simpl. by rewrite bool_decide_eq_false_2.
  - intros [text|] Hmode Hstep; [|done]. unfold handle_message.
    destruct (Str.is_empty text); [done|].
    unfold except_any, mbind, M_bind, get. fold mode step. rewrite Hstep.
    by destruct Hmode as [-> | ->].
  - intros doc Hout. unfold handle_document, mbind, M_bind, get.
    fold mode step.
    destruct Hout as [H|H]; rewrite (bool_decide_eq_false_2 _ H); simpl;
      [done|by rewrite orb_true_r].
  - intros Hmode. unfold button_callback. apply Hanswer. intros w' Hw'.
    simpl. unfold mbind, M_bind, get. rewrite Hw'. fold mode.
    by rewrite (bool_decide_eq_false_2 _ Hmode).
  - intros Hmode. unfold button_callback. apply Hanswer. intros w' Hw'.
    simpl. unfold mbind, M_bind, get. rewrite Hw'. fold mode.
    by rewrite (bool_decide_eq_false_2 _ Hmode).
  - intros data Hdata. unfold button_callback. apply Hanswer. intros w' Hw'.
    rewrite !not_elem_of_cons in Hdata.
    destruct Hdata as (H1 & H2 & H3 & H4 & H5 & H6 & _).
    unfold mbind, M_bind, get.
    rewrite (bool_decide_eq_false_2 _ H1), (bool_decide_eq_false_2 _ H2),
      (bool_decide_eq_false_2 _ H3), (bool_decide_eq_false_2 _ H4),
      (bool_decide_eq_false_2 _ H5), (bool_decide_eq_false_2 _ H6).
    reflexivity.
Qed.

End Ignored.
